(** * The USB redirection channel of the SPICE client (channel-usbredir.c)

    A shallow embedding of [channel-usbredir.c]: the private data of a
    [SpiceUsbredirChannel], the connect / disconnect state machine, the
    access-control (polkit) completion callback and the four callbacks the
    channel hands to the usbredirhost engine.

    Every function of the C file that touches [channel->priv] is a Rocq
    function from the private record to a new private record and the list
    of calls it made into the libraries around it (libusb, usbredirhost,
    GLib, the generic SPICE channel, the usb device manager and the acl
    helper).  What those libraries answer is an explicit argument of the
    function that asks. *)

From Stdlib Require Import ZArith List String Bool Lia DecimalString.
Import ListNotations.
Open Scope Z_scope.

(** ** Pointers, errors and asynchronous results *)

(** Opaque C pointers ([libusb_context *], [libusb_device *],
    [struct usbredirhost *], [SpiceUsbAclHelper *], the engine's write
    buffers, function pointers and user data) are addresses; the channel
    never looks behind them. *)
Definition pointer := Z.
Definition NULL : pointer := 0.

(** A [const uint8_t *] into a received payload is the bytes from the
    pointer on; [None] is the null pointer. *)
Definition buffer := option (list Byte.byte).

(** The error domain and code of a [GError]. *)
Inductive GErrorCode :=
| SPICE_CLIENT_ERROR_FAILED
| G_IO_ERROR_CANCELLED
| FOREIGN_ERROR (domain code : Z).

Record GError := { error_code : GErrorCode; error_message : string }.

(** [GError **err] at a call site that passes the address of a local: the
    content of that local. *)
Definition GError_slot := option GError.

Record GSimpleAsyncResult := {
  res_callback : pointer;
  res_user_data : pointer;
  res_error : option GError
}.

Inductive SpiceUsbredirChannelState :=
| STATE_DISCONNECTED
| STATE_WAITING_FOR_ACL_HELPER
| STATE_CONNECTING
| STATE_CONNECTED
| STATE_DISCONNECTING.

Definition state_eqb (a b : SpiceUsbredirChannelState) : bool :=
  match a, b with
  | STATE_DISCONNECTED, STATE_DISCONNECTED
  | STATE_WAITING_FOR_ACL_HELPER, STATE_WAITING_FOR_ACL_HELPER
  | STATE_CONNECTING, STATE_CONNECTING
  | STATE_CONNECTED, STATE_CONNECTED
  | STATE_DISCONNECTING, STATE_DISCONNECTING => true
  | _, _ => false
  end.

(** [struct _SpiceUsbredirChannelPrivate].  [catch_error] is [None] when
    the C pointer is null and [Some slot] while it points to the caller's
    error slot, whose content travels with it.  [result] is the pending
    asynchronous result the C field points to. *)
Record SpiceUsbredirChannelPrivate := {
  context : pointer;
  device : pointer;
  host : pointer;
  catch_error : option GError_slot;
  read_buf : buffer;
  read_buf_size : Z;
  state : SpiceUsbredirChannelState;
  result : option GSimpleAsyncResult;
  acl_helper : pointer
}.

(** The private data of a freshly created channel: GObject zero-fills it. *)
Definition priv_init : SpiceUsbredirChannelPrivate :=
  {| context := NULL; device := NULL; host := NULL; catch_error := None;
     read_buf := None; read_buf_size := 0; state := STATE_DISCONNECTED;
     result := None; acl_helper := NULL |}.

Definition set_context (v : pointer) (p : SpiceUsbredirChannelPrivate) :=
  {| context := v; device := device p; host := host p;
     catch_error := catch_error p; read_buf := read_buf p;
     read_buf_size := read_buf_size p; state := state p;
     result := result p; acl_helper := acl_helper p |}.

Definition set_device (v : pointer) (p : SpiceUsbredirChannelPrivate) :=
  {| context := context p; device := v; host := host p;
     catch_error := catch_error p; read_buf := read_buf p;
     read_buf_size := read_buf_size p; state := state p;
     result := result p; acl_helper := acl_helper p |}.

Definition set_host (v : pointer) (p : SpiceUsbredirChannelPrivate) :=
  {| context := context p; device := device p; host := v;
     catch_error := catch_error p; read_buf := read_buf p;
     read_buf_size := read_buf_size p; state := state p;
     result := result p; acl_helper := acl_helper p |}.

Definition set_catch_error (v : option GError_slot)
    (p : SpiceUsbredirChannelPrivate) :=
  {| context := context p; device := device p; host := host p;
     catch_error := v; read_buf := read_buf p;
     read_buf_size := read_buf_size p; state := state p;
     result := result p; acl_helper := acl_helper p |}.

Definition set_read_buf (b : buffer) (n : Z)
    (p : SpiceUsbredirChannelPrivate) :=
  {| context := context p; device := device p; host := host p;
     catch_error := catch_error p; read_buf := b;
     read_buf_size := n; state := state p;
     result := result p; acl_helper := acl_helper p |}.

Definition set_state (v : SpiceUsbredirChannelState)
    (p : SpiceUsbredirChannelPrivate) :=
  {| context := context p; device := device p; host := host p;
     catch_error := catch_error p; read_buf := read_buf p;
     read_buf_size := read_buf_size p; state := v;
     result := result p; acl_helper := acl_helper p |}.

Definition set_result (v : option GSimpleAsyncResult)
    (p : SpiceUsbredirChannelPrivate) :=
  {| context := context p; device := device p; host := host p;
     catch_error := catch_error p; read_buf := read_buf p;
     read_buf_size := read_buf_size p; state := state p;
     result := v; acl_helper := acl_helper p |}.

Definition set_acl_helper (v : pointer) (p : SpiceUsbredirChannelPrivate) :=
  {| context := context p; device := device p; host := host p;
     catch_error := catch_error p; read_buf := read_buf p;
     read_buf_size := read_buf_size p; state := state p;
     result := result p; acl_helper := v |}.

(** ** Calls into the surrounding libraries *)

Inductive GLogLevel := G_LOG_CRITICAL | G_LOG_WARNING | G_LOG_DEBUG.

(** The functions of this file that can be handed to the marshaller as
    [spice_marshaller_item_free_func]; the file has one,
    [usbredir_free_write_cb_data]. *)
Inductive free_func := FREE_WRITE_CB_DATA.

(** What [spice_marshaller_add_ref_full (m, data, size, free_data, opaque)]
    records: the referenced buffer (its address, not its bytes), its length
    as the [size_t] the function receives, and the function pointer
    [free_data] to call on the buffer once the message is out; the pointer
    is null ([None]) for an item that nobody releases. *)
Record marshaller_ref := {
  ref_data : pointer;
  ref_len : Z;
  ref_free : option free_func
}.

Record SpiceMsgOut := { out_type : Z; out_refs : list marshaller_ref }.

Inductive event :=
| EvLog (level : GLogLevel) (msg : string)
| EvLibusbRefDevice (dev : pointer)
| EvLibusbUnrefDevice (dev : pointer)
| EvLibusbOpen (dev : pointer)
| EvUsbredirhostOpen (ctx handle : pointer)
| EvUsbredirhostClose (h : pointer)
| EvUsbredirhostWriteGuestData (h : pointer)
| EvUsbredirhostReadGuestData (h : pointer)
| EvUsbredirhostFreeWriteBuffer (h data : pointer)
| EvReadCallback (count ret : Z) (copied : list Byte.byte)
| EvStartEventListening
| EvStopEventListening
| EvSpiceChannelConnect
| EvSpiceChannelDisconnect
| EvAclHelperOpenAcl (helper : pointer) (busnum devaddr : Z)
    (cancellable : pointer)
| EvAclHelperCloseAcl (helper : pointer)
| EvInhibitKeyboardGrab (on : bool)
| EvCompleteInIdle (r : GSimpleAsyncResult)
| EvMsgOutSend (m : SpiceMsgOut).

Definition trace := list event.

(** [g_return_if_fail (expr)] that fails: GLib logs a critical message and
    the function returns. *)
Definition return_if_fail_warning (expr : string) : event :=
  EvLog G_LOG_CRITICAL ("assertion failed: " ++ expr).

(** [g_set_error]: fills an empty slot; on a slot that already holds an
    error GLib warns and keeps the first error. *)
Definition g_set_error (slot : GError_slot) (e : GError)
  : GError_slot * trace :=
  match slot with
  | None => (Some e, [])
  | Some _ =>
      (slot, [EvLog G_LOG_WARNING
                "GError set over the top of a previous GError"])
  end.

(** ** Counting calls in a trace *)

Definition is_ref (d : pointer) (e : event) : bool :=
  match e with EvLibusbRefDevice d' => d =? d' | _ => false end.

Definition is_unref (d : pointer) (e : event) : bool :=
  match e with EvLibusbUnrefDevice d' => d =? d' | _ => false end.

Definition is_any_unref (e : event) : bool :=
  match e with EvLibusbUnrefDevice _ => true | _ => false end.

Definition is_host_close (e : event) : bool :=
  match e with EvUsbredirhostClose _ => true | _ => false end.

Definition is_completion (e : event) : bool :=
  match e with EvCompleteInIdle _ => true | _ => false end.

(** A call into the usbredirhost engine. *)
Definition is_engine_call (e : event) : bool :=
  match e with
  | EvUsbredirhostOpen _ _ | EvUsbredirhostClose _
  | EvUsbredirhostWriteGuestData _ | EvUsbredirhostReadGuestData _
  | EvUsbredirhostFreeWriteBuffer _ _ => true
  | _ => false
  end.

Definition count (f : event -> bool) (t : trace) : nat :=
  List.length (filter f t).

(** Reference count of device [d] after the calls of [t], starting from
    [before]. *)
Definition refcount_after (before : Z) (d : pointer) (t : trace) : Z :=
  before + Z.of_nat (count (is_ref d) t) - Z.of_nat (count (is_unref d) t).

(** The completions scheduled in [t], in order. *)
Fixpoint completions (t : trace) : list GSimpleAsyncResult :=
  match t with
  | [] => []
  | EvCompleteInIdle r :: t' => r :: completions t'
  | _ :: t' => completions t'
  end.

(** Decimal rendering of a C [int] for ["%i"]. *)
Definition string_of_Z (z : Z) : string :=
  NilZero.string_of_int (Z.to_int z).

(** ** Answers of the libraries *)

(** What the libraries called by [spice_usbredir_channel_open_device]
    answer: the return code and handle of [libusb_open], the messages
    [usbredirhost_open_full] logs through [usbredir_log] before it returns,
    the engine it returns (null on failure) and the outcome of
    [spice_usb_device_manager_start_event_listening] ([None]: it returned
    TRUE; [Some e]: it returned FALSE and reported [e]). *)
Record open_answers := {
  libusb_open_rc : Z;
  libusb_open_handle : pointer;
  host_open_logs : list (Z * string);
  host_open_ret : pointer;
  start_listening_error : option GError
}.

(** What the engine does inside [usbredirhost_read_guest_data]: it stops,
    or asks the read callback for [count] bytes and goes on from the number
    of bytes it got and their values. *)
Inductive read_script :=
| ReadStop
| ReadAsk (count : Z) (next : Z -> list Byte.byte -> read_script).

(** Modelled from the spec: [SpiceMsgIn] is declared in a header that is
    not among the sources.  Of a received message the channel uses the raw
    payload (a pointer, null when there is none) and its length. *)
Record SpiceMsgIn := { msg_data : buffer; msg_dpos : Z }.

(** Modelled from the spec: [spice_msg_in_raw] is not among the sources; it
    hands out the raw payload of the message and stores its length. *)
Definition spice_msg_in_raw (msg : SpiceMsgIn) : buffer * Z :=
  (msg_data msg, msg_dpos msg).

(** [memcpy (data, src, n)]: the bytes that land in [data]. *)
Definition memcpy (src : buffer) (n : Z) : list Byte.byte :=
  match src with
  | Some bytes => firstn (Z.to_nat n) bytes
  | None => []
  end.

(** [src + n] on a payload pointer. *)
Definition buffer_advance (src : buffer) (n : Z) : buffer :=
  match src with
  | Some bytes => Some (skipn (Z.to_nat n) bytes)
  | None => None
  end.

(** ** Operations on a channel and what is observed in a trace *)

(** The entry points of the file, with their arguments and the answers of
    the libraries they call. *)
Inductive operation :=
| OpConnectAsync (context0 device0 cancellable callback user_data : pointer)
    (helper_new : pointer) (a : open_answers)
| OpOpenAclCb (acl_helper0 : pointer) (acl_res : option GError)
    (a : open_answers)
| OpChannelUp
| OpDisconnect
| OpHandleMsg (msg : SpiceMsgIn) (script : read_script)
| OpWriteFlush.

(** The values the read callback returned during [t], added up. *)
Fixpoint sum_returns (t : trace) : Z :=
  match t with
  | [] => 0
  | EvReadCallback _ ret _ :: t' => ret + sum_returns t'
  | _ :: t' => sum_returns t'
  end.

(** The bytes the read callback copied during [t], in order. *)
Fixpoint bytes_copied (t : trace) : list Byte.byte :=
  match t with
  | [] => []
  | EvReadCallback _ _ copied :: t' => copied ++ bytes_copied t'
  | _ :: t' => bytes_copied t'
  end.

(** Every read-callback call of [t] returned the smaller of the requested
    count and what was left of [remaining] bytes, and copied that many. *)
Fixpoint reads_exact (remaining : Z) (t : trace) : Prop :=
  match t with
  | [] => True
  | EvReadCallback count ret copied :: t' =>
      ret = Z.min count remaining
      /\ Z.of_nat (List.length copied) = ret
      /\ reads_exact (remaining - ret) t'
  | _ :: t' => reads_exact remaining t'
  end.

Definition is_read_callback (e : event) : bool :=
  match e with EvReadCallback _ _ _ => true | _ => false end.

Definition nonneg_request (e : event) : Prop :=
  match e with
  | EvReadCallback count _ _ => 0 <= count
  | _ => True
  end.

(** The engine went on reading until a request for a positive number of
    bytes came back with none. *)
Definition read_until_empty (t : trace) : Prop :=
  exists count copied, 0 < count /\ In (EvReadCallback count 0 copied) t.

(** The length field of a message says how many payload bytes there are. *)
Definition msg_wf (msg : SpiceMsgIn) : Prop :=
  match msg_data msg with
  | Some bytes => msg_dpos msg = Z.of_nat (List.length bytes)
  | None => msg_dpos msg = 0
  end.

Definition payload (msg : SpiceMsgIn) : list Byte.byte :=
  match msg_data msg with
  | Some bytes => bytes
  | None => []
  end.

(** A delivered completion that reports an error. *)
Definition failure_delivered (t : trace) : Prop :=
  exists r e, In r (completions t) /\ res_error r = Some e.

Definition busy_error : GError :=
  {| error_code := SPICE_CLIENT_ERROR_FAILED;
     error_message := "Error channel is busy" |}.

Definition cancelled_error : GError :=
  {| error_code := G_IO_ERROR_CANCELLED;
     error_message := "USB redirection channel connect cancelled" |}.

(** ** Sample inputs *)

(** Device opened, engine constructed, event listening started. *)
Definition answers_ok : open_answers :=
  {| libusb_open_rc := 0; libusb_open_handle := 30;
     host_open_logs := []; host_open_ret := 40;
     start_listening_error := None |}.

(** Device opened, engine construction failed with an error message. *)
Definition answers_engine_failed : open_answers :=
  {| libusb_open_rc := 0; libusb_open_handle := 30;
     host_open_logs := [(1, "usbredirhost error: could not claim interface"%string)];
     host_open_ret := NULL;
     start_listening_error := None |}.

(** Device opened, engine construction failed without an error-level
    message. *)
Definition answers_engine_silent : open_answers :=
  {| libusb_open_rc := 0; libusb_open_handle := 30;
     host_open_logs := []; host_open_ret := NULL;
     start_listening_error := None |}.

(** Engine constructed although it logged an error-level message. *)
Definition answers_engine_complained : open_answers :=
  {| libusb_open_rc := 0; libusb_open_handle := 30;
     host_open_logs := [(1, "usbredirhost error: could not reset device"%string)];
     host_open_ret := 40;
     start_listening_error := None |}.

(** [libusb_open] failed (LIBUSB_ERROR_ACCESS). *)
Definition answers_open_failed : open_answers :=
  {| libusb_open_rc := -3; libusb_open_handle := NULL;
     host_open_logs := []; host_open_ret := NULL;
     start_listening_error := None |}.

(** Event listening did not start. *)
Definition listening_error : GError :=
  {| error_code := SPICE_CLIENT_ERROR_FAILED;
     error_message := "Error starting USB event thread" |}.

Definition answers_listening_failed : open_answers :=
  {| libusb_open_rc := 0; libusb_open_handle := 30;
     host_open_logs := [(2, "usbredirhost warning: slow device"%string)];
     host_open_ret := 40;
     start_listening_error := Some listening_error |}.

(** The engine logged an error-level message, was constructed all the
    same, and event listening did not start. *)
Definition answers_complained_not_listening : open_answers :=
  {| libusb_open_rc := 0; libusb_open_handle := 30;
     host_open_logs := [(1, "usbredirhost error: could not reset device"%string)];
     host_open_ret := 40;
     start_listening_error := Some listening_error |}.

(** The engine was not constructed and logged a warning and two errors. *)
Definition answers_engine_failed_twice : open_answers :=
  {| libusb_open_rc := 0; libusb_open_handle := 30;
     host_open_logs :=
       [(2, "usbredirhost warning: slow device"%string);
        (1, "usbredirhost error: could not claim interface"%string);
        (1, "usbredirhost error: could not release interface"%string)];
     host_open_ret := NULL;
     start_listening_error := None |}.

Definition grant_error : GError :=
  {| error_code := FOREIGN_ERROR 7 1;
     error_message := "Error setting facl" |}.

Definition msg_three : SpiceMsgIn :=
  {| msg_data := Some [Byte.x01; Byte.x02; Byte.x03]; msg_dpos := 3 |}.

(** A message without payload whose data pointer is not null. *)
Definition msg_empty : SpiceMsgIn :=
  {| msg_data := Some []; msg_dpos := 0 |}.

(** An engine that reads one byte and returns. *)
Definition script_one_byte : read_script :=
  ReadAsk 1 (fun _ _ => ReadStop).

(** An engine that asks for three bytes once and returns. *)
Definition script_three_bytes : read_script :=
  ReadAsk 3 (fun _ _ => ReadStop).

(** An engine that asks for [chunk] bytes until a read returns nothing (at
    most [fuel] times). *)
Fixpoint script_drain (fuel : nat) (chunk : Z) : read_script :=
  match fuel with
  | O => ReadStop
  | S fuel' =>
      ReadAsk chunk
        (fun ret _ => if ret <=? 0 then ReadStop
                      else script_drain fuel' chunk)
  end.

(** Sample values of what the absent headers declare: the log levels of
    usbredirparser.h, the type of a redirection-data message, and stand-ins
    for the libusb getters and the error-name function. *)
Definition sample_error_level : Z := 1.
Definition sample_warning_level : Z := 2.
Definition sample_data_type : Z := 101.
Definition sample_bus_number (dev : pointer) : Z := 1.
Definition sample_device_address (dev : pointer) : Z := dev.
Definition sample_strerror (rc : Z) : string := "LIBUSB_ERROR".

Definition connect_op (a : open_answers) : operation :=
  OpConnectAsync 10 20 0 50 60 70 a.

Section Channel.

(** Build configuration: whether the access-control helper is compiled in. *)
Variable USE_POLKIT : bool.

(** Constants and pure helpers declared in headers that are not among the
    sources: the usbredirparser log levels, the type of an outgoing
    redirection-data message, the libusb device getters and the device
    manager's error-name function. *)
Variables usbredirparser_error usbredirparser_warning : Z.
Variable SPICE_MSGC_SPICEVMC_DATA : Z.
Variables libusb_get_bus_number libusb_get_device_address : pointer -> Z.
Variable spice_usb_device_manager_libusb_strerror : Z -> string.

(** Declared in headers that are not among the sources: the type of an
    incoming redirection-data message and, for the conversions of an [int]
    to [size_t], the width of [size_t]. *)
Variable SPICE_MSG_SPICEVMC_DATA : Z.
Variable size_t_bits : Z.

(** An [int] converted to [size_t], as passing it for a [size_t] parameter
    and comparing it with an array size do. *)
Definition to_size_t (z : Z) : Z := z mod 2 ^ size_t_bits.

(** ** The callbacks handed to the engine *)

Definition usbredir_log (priv : SpiceUsbredirChannelPrivate)
    (level : Z) (msg : string) : SpiceUsbredirChannelPrivate * trace :=
  match catch_error priv, level =? usbredirparser_error with
  | Some slot, true =>
      let '(slot', t) :=
        g_set_error slot {| error_code := SPICE_CLIENT_ERROR_FAILED;
                            error_message := msg |} in
      (set_catch_error (Some slot') priv, EvLog G_LOG_DEBUG msg :: t)
  | _, _ =>
      if level =? usbredirparser_error then
        (priv, [EvLog G_LOG_CRITICAL msg])
      else if level =? usbredirparser_warning then
        (priv, [EvLog G_LOG_WARNING msg])
      else (priv, [EvLog G_LOG_DEBUG msg])
  end.

(** Returns the new private data, the returned count and the bytes copied
    into the engine's buffer.  The C [int]s are integers here: for a
    non-negative count and a non-negative size the count becomes at most
    the size and the subtraction stays between 0 and the size, so no
    wrap-around is involved; a negative count makes [memcpy] undefined in
    C and is left out of every statement below. *)
Definition usbredir_read_callback (priv : SpiceUsbredirChannelPrivate)
    (count : Z) : SpiceUsbredirChannelPrivate * Z * list Byte.byte :=
  let count := if read_buf_size priv <? count
               then read_buf_size priv else count in
  let copied := memcpy (read_buf priv) count in
  let size := read_buf_size priv - count in
  let buf := if size =? 0 then None
             else buffer_advance (read_buf priv) count in
  (set_read_buf buf size priv, count, copied).

Definition usbredir_free_write_cb_data (data : pointer)
    (priv : SpiceUsbredirChannelPrivate) : trace :=
  [EvUsbredirhostFreeWriteBuffer (host priv) data].

(** What the marshaller does with an item once the message is out: it
    calls the item's function pointer, when there is one, on the item's
    buffer and with the channel as user data. *)
Definition call_free_func (f : option free_func) (data : pointer)
    (priv : SpiceUsbredirChannelPrivate) : trace :=
  match f with
  | Some FREE_WRITE_CB_DATA => usbredir_free_write_cb_data data priv
  | None => []
  end.

(** The [int count] is passed for the [size_t size] parameter of
    [spice_marshaller_add_ref_full], so the item records the count
    converted to [size_t]; the function returns the [int] itself. *)
Definition usbredir_write_callback (priv : SpiceUsbredirChannelPrivate)
    (data : pointer) (count : Z) : Z * trace :=
  let msg_out :=
    {| out_type := SPICE_MSGC_SPICEVMC_DATA;
       out_refs := [ {| ref_data := data; ref_len := to_size_t count;
                        ref_free := Some FREE_WRITE_CB_DATA |} ] |} in
  (count, [EvMsgOutSend msg_out]).

Definition usbredir_write_flush_callback
    (priv : SpiceUsbredirChannelPrivate)
  : SpiceUsbredirChannelPrivate * trace :=
  if negb (state_eqb (state priv) STATE_CONNECTED) then (priv, [])
  else (priv, [EvUsbredirhostWriteGuestData (host priv)]).

(** ** Private api *)

(** The log calls the engine makes while [usbredirhost_open_full] runs. *)
Fixpoint engine_open_logs (priv : SpiceUsbredirChannelPrivate)
    (logs : list (Z * string)) : SpiceUsbredirChannelPrivate * trace :=
  match logs with
  | [] => (priv, [])
  | (level, msg) :: rest =>
      let '(priv1, t1) := usbredir_log priv level msg in
      let '(priv2, t2) := engine_open_logs priv1 rest in
      (priv2, t1 ++ t2)
  end.

(** [err] is the content of the caller's error slot before the call; the
    result carries the returned gboolean, the new private data, the content
    of the slot after the call and the calls made. *)
Definition spice_usbredir_channel_open_device
    (priv : SpiceUsbredirChannelPrivate) (err : GError_slot)
    (a : open_answers)
  : bool * SpiceUsbredirChannelPrivate * GError_slot * trace :=
  if negb (state_eqb (state priv) STATE_DISCONNECTED
           || (USE_POLKIT
               && state_eqb (state priv) STATE_WAITING_FOR_ACL_HELPER))
  then (false, priv, err,
        [return_if_fail_warning "priv->state == STATE_DISCONNECTED"])
  else if negb (libusb_open_rc a =? 0) then
    let '(err1, t) :=
      g_set_error err
        {| error_code := SPICE_CLIENT_ERROR_FAILED;
           error_message :=
             "Could not open usb device: "
             ++ spice_usb_device_manager_libusb_strerror (libusb_open_rc a)
             ++ " [" ++ string_of_Z (libusb_open_rc a) ++ "]" |} in
    (false, priv, err1, EvLibusbOpen (device priv) :: t)
  else
    let priv1 := set_catch_error (Some err) priv in
    let '(priv2, tlog) := engine_open_logs priv1 (host_open_logs a) in
    let priv3 := set_host (host_open_ret a) priv2 in
    let err1 := match catch_error priv3 with
                | Some slot => slot
                | None => err
                end in
    let priv4 := set_catch_error None priv3 in
    let t := [EvLibusbOpen (device priv);
              EvUsbredirhostOpen (context priv) (libusb_open_handle a)]
             ++ tlog in
    if host priv4 =? NULL then
      match err1 with
      | Some _ => (false, priv4, err1, t)
      | None =>
          (false, priv4, err1,
           t ++ [return_if_fail_warning "err == NULL || *err != NULL"])
      end
    else
      match start_listening_error a with
      | Some e =>
          let '(err2, t2) := g_set_error err1 e in
          (false, set_host NULL priv4, err2,
           t ++ [EvStartEventListening] ++ t2
             ++ [EvUsbredirhostClose (host priv4)])
      | None =>
          (true, set_state STATE_CONNECTING priv4, err1,
           t ++ [EvStartEventListening; EvSpiceChannelConnect])
      end.

(** [g_simple_async_result_take_error] on a pointer to a result: a null
    result or a null error is refused with a critical message. *)
Definition g_simple_async_result_take_error
    (simple : option GSimpleAsyncResult) (error : GError_slot)
  : option GSimpleAsyncResult * trace :=
  match simple, error with
  | None, _ =>
      (None, [return_if_fail_warning "G_IS_SIMPLE_ASYNC_RESULT (simple)"])
  | Some r, None => (Some r, [return_if_fail_warning "error != NULL"])
  | Some r, Some e =>
      (Some {| res_callback := res_callback r;
               res_user_data := res_user_data r;
               res_error := Some e |}, [])
  end.

Definition g_simple_async_result_complete_in_idle
    (simple : option GSimpleAsyncResult) : trace :=
  match simple with
  | Some r => [EvCompleteInIdle r]
  | None => [return_if_fail_warning "G_IS_SIMPLE_ASYNC_RESULT (simple)"]
  end.

(** Compiled only with USE_POLKIT.  [acl_helper0] is the helper that
    completed, [acl_res] what [spice_usb_acl_helper_open_acl_finish]
    reports for it ([None]: no error) and [a] the answers to the device
    opening, should the callback get that far. *)
Definition spice_usbredir_channel_open_acl_cb
    (priv : SpiceUsbredirChannelPrivate) (acl_helper0 : pointer)
    (acl_res : option GError) (a : open_answers)
  : SpiceUsbredirChannelPrivate * trace :=
  if negb (acl_helper0 =? acl_helper priv) then
    (priv, [return_if_fail_warning "acl_helper == priv->acl_helper"])
  else if negb (state_eqb (state priv) STATE_WAITING_FOR_ACL_HELPER
                || state_eqb (state priv) STATE_DISCONNECTING) then
    (priv, [return_if_fail_warning
              "priv->state == STATE_WAITING_FOR_ACL_HELPER || priv->state == STATE_DISCONNECTING"])
  else
    let err0 : GError_slot := acl_res in
    let err1 : GError_slot :=
      match err0 with
      | None =>
          if state_eqb (state priv) STATE_DISCONNECTING then
            Some {| error_code := G_IO_ERROR_CANCELLED;
                    error_message :=
                      "USB redirection channel connect cancelled" |}
          else None
      | Some _ => err0
      end in
    let '(priv1, err2, t_open) :=
      match err1 with
      | None =>
          let '(_, priv', err', t) :=
            spice_usbredir_channel_open_device priv None a in
          (priv', err', t)
      | Some _ => (priv, err1, [])
      end in
    let '(priv2, t_err) :=
      match err2 with
      | Some _ =>
          let '(res, t) :=
            g_simple_async_result_take_error (result priv1) err2 in
          (set_state STATE_DISCONNECTED
             (set_context NULL (set_device NULL (set_result res priv1))),
           t ++ [EvLibusbUnrefDevice (device priv1)])
      | None => (priv1, [])
      end in
    let t_done := g_simple_async_result_complete_in_idle (result priv2) in
    (set_result None (set_acl_helper NULL priv2),
     t_open ++ t_err
       ++ [EvAclHelperCloseAcl (acl_helper priv2);
           EvInhibitKeyboardGrab false]
       ++ t_done).

(** ** Public api *)

(** [helper_new] is the object [spice_usb_acl_helper_new] returns and [a]
    the answers to the device opening (asked only without USE_POLKIT). *)
Definition spice_usbredir_channel_connect_async
    (priv : SpiceUsbredirChannelPrivate)
    (context0 device0 cancellable callback user_data : pointer)
    (helper_new : pointer) (a : open_answers)
  : SpiceUsbredirChannelPrivate * trace :=
  if context0 =? NULL then
    (priv, [return_if_fail_warning "context != NULL"])
  else if device0 =? NULL then
    (priv, [return_if_fail_warning "device != NULL"])
  else
    let dbg := EvLog G_LOG_DEBUG "connecting usb channel" in
    let result0 := {| res_callback := callback;
                      res_user_data := user_data;
                      res_error := None |} in
    if negb (state_eqb (state priv) STATE_DISCONNECTED) then
      let result1 :=
        {| res_callback := callback; res_user_data := user_data;
           res_error := Some {| error_code := SPICE_CLIENT_ERROR_FAILED;
                                error_message := "Error channel is busy" |}
        |} in
      (priv, [dbg] ++ g_simple_async_result_complete_in_idle (Some result1))
    else
      let priv1 := set_device device0 (set_context context0 priv) in
      let t_ref := [dbg; EvLibusbRefDevice device0] in
      if USE_POLKIT then
        let priv2 :=
          set_acl_helper helper_new
            (set_state STATE_WAITING_FOR_ACL_HELPER
               (set_result (Some result0) priv1)) in
        (priv2,
         t_ref ++ [EvInhibitKeyboardGrab true;
                   EvAclHelperOpenAcl (acl_helper priv2)
                     (libusb_get_bus_number device0)
                     (libusb_get_device_address device0) cancellable])
      else
        let '(ok, priv2, err, t_open) :=
          spice_usbredir_channel_open_device priv1 None a in
        if negb ok then
          let '(result1, t_take) :=
            g_simple_async_result_take_error (Some result0) err in
          (set_context NULL (set_device NULL priv2),
           t_ref ++ t_open ++ t_take
             ++ [EvLibusbUnrefDevice (device priv2)]
             ++ g_simple_async_result_complete_in_idle result1)
        else
          (priv2,
           t_ref ++ t_open
             ++ g_simple_async_result_complete_in_idle (Some result0)).

(** [res] is the result handed to the completion callback; the outcome is
    [None] for TRUE and the propagated error for FALSE. *)
Definition spice_usbredir_channel_connect_finish
    (res : GSimpleAsyncResult) : option GError :=
  res_error res.

Definition spice_usbredir_channel_disconnect
    (priv : SpiceUsbredirChannelPrivate)
  : SpiceUsbredirChannelPrivate * trace :=
  let dbg := EvLog G_LOG_DEBUG "disconnecting usb channel" in
  match state priv with
  | STATE_DISCONNECTED | STATE_DISCONNECTING => (priv, [dbg])
  | STATE_WAITING_FOR_ACL_HELPER =>
      if USE_POLKIT then
        (set_state STATE_DISCONNECTING priv,
         [dbg; EvAclHelperCloseAcl (acl_helper priv)])
      else (priv, [dbg])
  | STATE_CONNECTING | STATE_CONNECTED =>
      (set_state STATE_DISCONNECTED
         (set_context NULL (set_device NULL (set_host NULL priv))),
       [dbg; EvSpiceChannelDisconnect; EvStopEventListening;
        EvUsbredirhostClose (host priv);
        EvLibusbUnrefDevice (device priv)])
  end.

Definition spice_usbredir_channel_get_device
    (priv : SpiceUsbredirChannelPrivate) : pointer :=
  device priv.

(** ** Coroutine context *)

Definition spice_usbredir_channel_up (priv : SpiceUsbredirChannelPrivate)
  : SpiceUsbredirChannelPrivate * trace :=
  if negb (state_eqb (state priv) STATE_CONNECTING) then
    (priv, [return_if_fail_warning "priv->state == STATE_CONNECTING"])
  else
    (set_state STATE_CONNECTED priv,
     [EvUsbredirhostWriteGuestData (host priv)]).

(** [usbredirhost_read_guest_data]: the engine runs its script against the
    read callback. *)
Fixpoint usbredirhost_read_guest_data (script : read_script)
    (priv : SpiceUsbredirChannelPrivate)
  : SpiceUsbredirChannelPrivate * trace :=
  match script with
  | ReadStop => (priv, [])
  | ReadAsk count next =>
      let '(priv1, ret, copied) := usbredir_read_callback priv count in
      let '(priv2, t) :=
        usbredirhost_read_guest_data (next ret copied) priv1 in
      (priv2, EvReadCallback count ret copied :: t)
  end.

Definition is_null (b : buffer) : bool :=
  match b with None => true | Some _ => false end.

(** [script] is what the engine does with the message. *)
Definition usbredir_handle_msg (priv : SpiceUsbredirChannelPrivate)
    (msg : SpiceMsgIn) (script : read_script)
  : SpiceUsbredirChannelPrivate * trace :=
  if host priv =? NULL then
    (priv, [return_if_fail_warning "priv->host != NULL"])
  else if negb (is_null (read_buf priv)) then
    (priv, [return_if_fail_warning "priv->read_buf == NULL"])
  else
    let '(buf, size) := spice_msg_in_raw msg in
    let priv1 := set_read_buf buf size priv in
    let '(priv2, t) := usbredirhost_read_guest_data script priv1 in
    (priv2, EvUsbredirhostReadGuestData (host priv1) :: t).

(** ** Sequences of operations *)

(** One operation.  The acl callback is not compiled without USE_POLKIT,
    so it cannot run there. *)
Definition step (priv : SpiceUsbredirChannelPrivate) (o : operation)
  : SpiceUsbredirChannelPrivate * trace :=
  match o with
  | OpConnectAsync c d cn cb ud h a =>
      spice_usbredir_channel_connect_async priv c d cn cb ud h a
  | OpOpenAclCb h r a =>
      if USE_POLKIT then spice_usbredir_channel_open_acl_cb priv h r a
      else (priv, [])
  | OpChannelUp => spice_usbredir_channel_up priv
  | OpDisconnect => spice_usbredir_channel_disconnect priv
  | OpHandleMsg m s => usbredir_handle_msg priv m s
  | OpWriteFlush => usbredir_write_flush_callback priv
  end.

Fixpoint run (priv : SpiceUsbredirChannelPrivate) (ops : list operation)
  : SpiceUsbredirChannelPrivate * trace :=
  match ops with
  | [] => (priv, [])
  | o :: rest =>
      let '(priv1, t1) := step priv o in
      let '(priv2, t2) := run priv1 rest in
      (priv2, t1 ++ t2)
  end.

(** The engine logs no error-level message while a construction that
    succeeds runs. *)
Definition quiet_on_success (a : open_answers) : Prop :=
  host_open_ret a <> NULL ->
  Forall (fun lm => fst lm <> usbredirparser_error) (host_open_logs a).

Definition engine_quiet (o : operation) : Prop :=
  match o with
  | OpOpenAclCb _ _ a => quiet_on_success a
  | _ => True
  end.

(** An operation other than the completion of helper [h]. *)
Definition not_completion_of (h : pointer) (o : operation) : Prop :=
  match o with
  | OpOpenAclCb h' _ _ => h' <> h
  | _ => True
  end.

(** A trace of log messages only. *)
Definition only_logs (t : trace) : Prop :=
  Forall (fun e => exists level msg, e = EvLog level msg) t.

(** A trace of read-callback calls only. *)
Definition only_reads (t : trace) : Prop :=
  Forall (fun e => exists c r d, e = EvReadCallback c r d) t.

(** A trace that neither takes nor drops a device reference and schedules
    no completion. *)
Definition no_ref_traffic (t : trace) : Prop :=
  Forall (fun e => match e with
                   | EvLibusbRefDevice _ | EvLibusbUnrefDevice _
                   | EvCompleteInIdle _ => False
                   | _ => True
                   end) t.

(** The engine exists exactly in STATE_CONNECTING and STATE_CONNECTED. *)
Definition engine_iff_connected (p : SpiceUsbredirChannelPrivate) : Prop :=
  host p <> NULL <-> (state p = STATE_CONNECTING \/ state p = STATE_CONNECTED).

(** A connect is waiting for the completion of acl helper [h]: it holds a
    reference to [dev] and its pending result [r] reports no error yet. *)
Definition grant_pending (dev h : pointer) (r : GSimpleAsyncResult)
    (p : SpiceUsbredirChannelPrivate) : Prop :=
  (state p = STATE_WAITING_FOR_ACL_HELPER \/ state p = STATE_DISCONNECTING)
  /\ device p = dev /\ acl_helper p = h /\ result p = Some r
  /\ res_error r = None.

(** The states the build configuration has. *)
Definition state_in_build (p : SpiceUsbredirChannelPrivate) : Prop :=
  USE_POLKIT = false -> state p <> STATE_WAITING_FOR_ACL_HELPER.

(** A trace that neither takes nor drops a device reference. *)
Definition no_refs (t : trace) : Prop :=
  forall d, count (is_ref d) t = O /\ count (is_unref d) t = O.

(** The buffer view of [p] holds exactly the bytes [rest]. *)
Definition view_holds (rest : list Byte.byte)
    (p : SpiceUsbredirChannelPrivate) : Prop :=
  read_buf_size p = Z.of_nat (List.length rest)
  /\ (read_buf p = Some rest \/ (read_buf p = None /\ rest = [])).

(** The engine logged an error-level message while it was constructed. *)
Definition error_logged (a : open_answers) : Prop :=
  Exists (fun lm => fst lm = usbredirparser_error) (host_open_logs a).

(** The device opening fails: [libusb_open] fails, or the engine is not
    constructed and says why, or event listening does not start. *)
Definition open_fails (a : open_answers) : Prop :=
  libusb_open_rc a <> 0
  \/ (host_open_ret a = NULL /\ error_logged a)
  \/ (host_open_ret a <> NULL /\ start_listening_error a <> None).

(** ** Disposal and dispatch by message type *)

(** [parent_dispose] says whether the parent class has a dispose method;
    the boolean of the result says whether it was called. *)
Definition spice_usbredir_channel_dispose
    (priv : SpiceUsbredirChannelPrivate) (parent_dispose : bool)
  : SpiceUsbredirChannelPrivate * trace * bool :=
  let '(priv1, t) := spice_usbredir_channel_disconnect priv in
  (priv1, t, parent_dispose).

(** The one function the handler table holds. *)
Inductive spice_msg_handler := HANDLER_usbredir_handle_msg.

(** [usbredir_handlers]: the designated initializer gives the array
    [SPICE_MSG_SPICEVMC_DATA + 1] elements, all null but the last. *)
Definition usbredir_handlers (type : Z) : option spice_msg_handler :=
  if type =? SPICE_MSG_SPICEVMC_DATA then Some HANDLER_usbredir_handle_msg
  else None.

Definition usbredir_handlers_elements : Z := SPICE_MSG_SPICEVMC_DATA + 1.

(** [type] is what [spice_msg_in_type] gives for the message,
    [parent_handle_msg] says whether the parent class has a message
    handler, and the boolean of the result says whether that handler was
    called. *)
Definition spice_usbredir_handle_msg (priv : SpiceUsbredirChannelPrivate)
    (type : Z) (msg : SpiceMsgIn) (script : read_script)
    (parent_handle_msg : bool)
  : SpiceUsbredirChannelPrivate * trace * bool :=
  if negb (to_size_t type <? usbredir_handlers_elements) then
    (priv,
     [return_if_fail_warning "type < SPICE_N_ELEMENTS(usbredir_handlers)"],
     false)
  else
    match usbredir_handlers type with
    | Some HANDLER_usbredir_handle_msg =>
        let '(priv1, t) := usbredir_handle_msg priv msg script in
        (priv1, t, false)
    | None =>
        if parent_handle_msg then (priv, [], true)
        else (priv, [EvLog G_LOG_CRITICAL "should not be reached"], false)
    end.

(** ** What the lifecycle keeps *)

(** A connect waits for its acl helper, or was cancelled while waiting. *)
Definition waiting (p : SpiceUsbredirChannelPrivate) : bool :=
  state_eqb (state p) STATE_WAITING_FOR_ACL_HELPER
  || state_eqb (state p) STATE_DISCONNECTING.

(** Between operations the catch-error slot is disarmed, device and
    context are held exactly outside STATE_DISCONNECTED, and there is no
    pending result and no acl helper unless a connect waits for one. *)
Definition lifecycle_inv (p : SpiceUsbredirChannelPrivate) : Prop :=
  catch_error p = None
  /\ (state p = STATE_DISCONNECTED ->
      device p = NULL /\ context p = NULL)
  /\ (state p <> STATE_DISCONNECTED ->
      device p <> NULL /\ context p <> NULL)
  /\ (waiting p = false -> result p = None /\ acl_helper p = NULL).

(** While a connect waits, its result is there. *)
Definition pending_inv (p : SpiceUsbredirChannelPrivate) : Prop :=
  waiting p = true -> result p <> None.

(** An engine that is not constructed says why. *)
Definition reports_failure (a : open_answers) : Prop :=
  libusb_open_rc a = 0 -> host_open_ret a = NULL -> error_logged a.

Definition engine_reports (o : operation) : Prop :=
  match o with
  | OpOpenAclCb _ _ a => reports_failure a
  | _ => True
  end.

(** The message of the first error-level entry of the engine's log. *)
Fixpoint first_error (logs : list (Z * string)) : option string :=
  match logs with
  | [] => None
  | (level, msg) :: rest =>
      if level =? usbredirparser_error then Some msg else first_error rest
  end.

Definition is_critical (e : event) : bool :=
  match e with EvLog G_LOG_CRITICAL _ => true | _ => false end.

Definition is_listening_start (e : event) : bool :=
  match e with EvStartEventListening => true | _ => false end.

Definition is_listening_stop (e : event) : bool :=
  match e with EvStopEventListening => true | _ => false end.

(** In STATE_CONNECTING and STATE_CONNECTED there is an engine. *)
Definition engine_when_connected (p : SpiceUsbredirChannelPrivate) : Prop :=
  state p = STATE_CONNECTING \/ state p = STATE_CONNECTED ->
  host p <> NULL.

(** The device opening fails, whether anybody says why or not:
    [libusb_open] fails, or the engine is not constructed, or event
    listening does not start. *)
Definition open_refused (a : open_answers) : Prop :=
  libusb_open_rc a <> 0 \/ host_open_ret a = NULL
  \/ start_listening_error a <> None.

Definition is_channel_connect (e : event) : bool :=
  match e with EvSpiceChannelConnect => true | _ => false end.

(** The operations of a connect that succeeds, is optionally brought up,
    and is disconnected: with USE_POLKIT the grant completes in between. *)
Definition connect_and_disconnect
    (ctx dev cancellable callback user_data helper_new : pointer)
    (a : open_answers) (up : bool) : list operation :=
  [OpConnectAsync ctx dev cancellable callback user_data helper_new a]
  ++ (if USE_POLKIT then [OpOpenAclCb helper_new None a] else [])
  ++ (if up then [OpChannelUp] else [])
  ++ [OpDisconnect].

(** * Properties *)

(** Traces built from events that carry no reference traffic and from
    pieces already known to carry none. *)
Ltac traffic :=
  unfold no_ref_traffic in *;
  repeat first
    [ assumption
    | apply Forall_nil
    | apply Forall_cons; [exact I|]
    | apply Forall_app; split ].

Lemma state_eqb_eq (a b : SpiceUsbredirChannelState) :
  state_eqb a b = true <-> a = b.
Proof. destruct a, b; simpl; split; intro H; congruence. Qed.

Lemma state_eqb_neq (a b : SpiceUsbredirChannelState) :
  state_eqb a b = false <-> a <> b.
Proof. destruct a, b; simpl; split; intro H; congruence. Qed.

Lemma count_app (f : event -> bool) (t1 t2 : trace) :
  count f (t1 ++ t2) = (count f t1 + count f t2)%nat.
Proof. unfold count. now rewrite filter_app, length_app. Qed.

Lemma completions_app (t1 t2 : trace) :
  completions (t1 ++ t2) = completions t1 ++ completions t2.
Proof.
  induction t1 as [|e t1 IH]; simpl; [reflexivity|].
  destruct e; simpl; rewrite ?IH; reflexivity.
Qed.

Lemma sum_returns_app (t1 t2 : trace) :
  sum_returns (t1 ++ t2) = sum_returns t1 + sum_returns t2.
Proof.
  induction t1 as [|e t1 IH]; simpl; [reflexivity|].
  destruct e; simpl; rewrite ?IH; lia.
Qed.

(** ** The write side of the bridge *)

(** C9.  While the state is not STATE_CONNECTED the write-flush callback
    does nothing: it returns the private data as it got them and makes no
    call at all, so none into the engine. *)
Theorem write_flush_noop_unless_connected
    (priv : SpiceUsbredirChannelPrivate) :
  state priv <> STATE_CONNECTED ->
  usbredir_write_flush_callback priv = (priv, []).
Proof.
  intro H. unfold usbredir_write_flush_callback.
  apply state_eqb_neq in H. now rewrite H.
Qed.

(** C10.  The write callback returns [count0] whatever the buffer and the
    count are.  It sends exactly one message, of the redirection-data type,
    with one item: the item references the engine's buffer by its address
    (nothing is copied), has for length the [int] [count0] converted to
    [size_t], and carries the function [usbredir_free_write_cb_data], which
    the marshaller calls on that buffer once the message is out and which
    hands the buffer back to the engine with
    [usbredirhost_free_write_buffer]; an item without a function would
    release nothing.  For a buffer of [count0] bytes, [count0] a
    non-negative [int] and [size_t] at least 32 bits wide, the length of
    the item is [count0] itself. *)
Theorem write_callback_accepts_whole_buffer
    (priv : SpiceUsbredirChannelPrivate) (data : pointer) (count0 : Z) :
  exists item,
    usbredir_write_callback priv data count0
    = (count0,
       [EvMsgOutSend {| out_type := SPICE_MSGC_SPICEVMC_DATA;
                        out_refs := [item] |}])
    /\ ref_data item = data
    /\ ref_len item = to_size_t count0
    /\ ref_free item = Some FREE_WRITE_CB_DATA
    /\ (forall later : SpiceUsbredirChannelPrivate,
         call_free_func (ref_free item) (ref_data item) later
         = [EvUsbredirhostFreeWriteBuffer (host later) data])
    /\ (forall later : SpiceUsbredirChannelPrivate,
         call_free_func None (ref_data item) later = [])
    /\ (32 <= size_t_bits -> 0 <= count0 < 2 ^ 31 ->
        ref_len item = count0).
Proof.
  eexists. split; [reflexivity|]. simpl.
  repeat split. intros Hw Hc. unfold to_size_t. apply Z.mod_small.
  split; [lia|].
  apply Z.lt_le_trans with (2 ^ 31); [lia|].
  apply Z.pow_le_mono_r; lia.
Qed.

(** ** Inbound dispatch *)

(** C7.  When the engine is absent or a dispatch is in progress (the
    buffer view is staked: its pointer is not null), [usbredir_handle_msg]
    refuses the message with a critical log message.  The private data are
    as before, so the payload is not staked, and the trace holds that one
    log entry: no call into the engine, no read callback. *)
Theorem handle_msg_rejects_loudly
    (priv : SpiceUsbredirChannelPrivate) (msg : SpiceMsgIn)
    (script : read_script) :
  host priv = NULL \/ read_buf priv <> None ->
  exists expr,
    usbredir_handle_msg priv msg script
    = (priv, [EvLog G_LOG_CRITICAL expr])
    /\ count is_engine_call (snd (usbredir_handle_msg priv msg script)) = O
    /\ sum_returns (snd (usbredir_handle_msg priv msg script)) = 0.
Proof.
  intros H. unfold usbredir_handle_msg.
  destruct (host priv =? NULL) eqn:Hh.
  - eexists. repeat split.
  - destruct H as [H|H]; [apply Z.eqb_neq in Hh; contradiction|].
    destruct (read_buf priv) as [b|]; [|contradiction].
    simpl. eexists. repeat split.
Qed.

(** ** Rejection of a connect on a busy channel *)

(** C1 (amended).  A connect_async call with a non-null context and a
    non-null device on a channel whose state is not STATE_DISCONNECTED
    leaves the private data as they were (state, device, context and all
    other fields) and schedules one completion, which carries the
    "channel is busy" error; it takes no device reference. *)
Theorem connect_async_busy
    (priv : SpiceUsbredirChannelPrivate)
    (ctx dev cancellable callback user_data helper_new : pointer)
    (a : open_answers) :
  ctx <> NULL -> dev <> NULL ->
  state priv <> STATE_DISCONNECTED ->
  spice_usbredir_channel_connect_async priv ctx dev cancellable callback
    user_data helper_new a
  = (priv,
     [EvLog G_LOG_DEBUG "connecting usb channel";
      EvCompleteInIdle {| res_callback := callback;
                          res_user_data := user_data;
                          res_error := Some busy_error |}]).
Proof.
  intros Hc Hd Hs. unfold spice_usbredir_channel_connect_async.
  apply Z.eqb_neq in Hc, Hd. rewrite Hc, Hd.
  apply state_eqb_neq in Hs. rewrite Hs. reflexivity.
Qed.

(** ** The access-grant completion during a disconnect *)

(** C4 (amended).  When the completion callback of the channel's acl
    helper runs in STATE_DISCONNECTING, the error it reports is the grant's
    own error when the grant failed and the cancellation error when the
    grant succeeded.  In both cases it releases the device reference,
    clears device and context, sets STATE_DISCONNECTED, closes the acl
    helper, switches keyboard-grab inhibition off, and only then schedules
    the pending completion, once, with that error. *)
Theorem open_acl_cb_while_disconnecting
    (priv : SpiceUsbredirChannelPrivate) (acl_res : option GError)
    (a : open_answers) (r : GSimpleAsyncResult) :
  state priv = STATE_DISCONNECTING ->
  result priv = Some r ->
  let err := match acl_res with
             | Some e => e
             | None => cancelled_error
             end in
  spice_usbredir_channel_open_acl_cb priv (acl_helper priv) acl_res a
  = ({| context := NULL; device := NULL; host := host priv;
        catch_error := catch_error priv; read_buf := read_buf priv;
        read_buf_size := read_buf_size priv;
        state := STATE_DISCONNECTED; result := None;
        acl_helper := NULL |},
     [EvLibusbUnrefDevice (device priv);
      EvAclHelperCloseAcl (acl_helper priv);
      EvInhibitKeyboardGrab false;
      EvCompleteInIdle {| res_callback := res_callback r;
                          res_user_data := res_user_data r;
                          res_error := Some err |}]).
Proof.
  intros Hs Hr. unfold spice_usbredir_channel_open_acl_cb.
  rewrite Z.eqb_refl, Hs. simpl.
  destruct acl_res as [e|]; simpl; rewrite Hr; reflexivity.
Qed.

(** ** Traces without reference traffic *)

Lemma no_ref_traffic_app (t1 t2 : trace) :
  no_ref_traffic (t1 ++ t2) <-> no_ref_traffic t1 /\ no_ref_traffic t2.
Proof. apply Forall_app. Qed.

Lemma only_logs_no_ref (t : trace) : only_logs t -> no_ref_traffic t.
Proof.
  apply Forall_impl. intros e (l & m & ->). exact I.
Qed.

Lemma only_reads_no_ref (t : trace) : only_reads t -> no_ref_traffic t.
Proof.
  apply Forall_impl. intros e (c & r & d & ->). exact I.
Qed.

Lemma no_ref_traffic_count (t : trace) :
  no_ref_traffic t ->
  (forall d, count (is_ref d) t = O /\ count (is_unref d) t = O)
  /\ completions t = [].
Proof.
  induction t as [|e t IH]; intro H.
  - split; [intro d; split|]; reflexivity.
  - inversion H as [|e' t' He Ht]; subst.
    destruct (IH Ht) as [IHc IHd].
    split; [intro d; destruct (IHc d) as [Hr Hu]; unfold count in *|];
      destruct e; simpl in *; try contradiction; auto.
Qed.

Lemma g_set_error_logs (slot : GError_slot) (e : GError) :
  only_logs (snd (g_set_error slot e)).
Proof.
  destruct slot; simpl; repeat constructor. eauto.
Qed.

(** ** The log callback and the device opening *)

Lemma set_catch_error_same (p : SpiceUsbredirChannelPrivate) :
  set_catch_error (catch_error p) p = p.
Proof. now destruct p. Qed.

Lemma set_read_buf_same (p : SpiceUsbredirChannelPrivate) :
  set_read_buf (read_buf p) (read_buf_size p) p = p.
Proof. now destruct p. Qed.

(** The log callback touches the armed slot only, and only for an
    error-level message. *)
Lemma usbredir_log_armed (p : SpiceUsbredirChannelPrivate)
    (slot : GError_slot) (level : Z) (msg : string) :
  catch_error p = Some slot ->
  exists slot' t,
    usbredir_log p level msg = (set_catch_error (Some slot') p, t)
    /\ only_logs t
    /\ (level <> usbredirparser_error -> slot' = slot).
Proof.
  intro Hc. unfold usbredir_log. rewrite Hc.
  destruct (level =? usbredirparser_error) eqn:Hl.
  - destruct slot as [e|]; simpl.
    + do 2 eexists. split; [reflexivity|]. split.
      * repeat constructor; eauto.
      * intro H. apply Z.eqb_eq in Hl. contradiction.
    + do 2 eexists. split; [reflexivity|]. split.
      * repeat constructor; eauto.
      * intro H. apply Z.eqb_eq in Hl. contradiction.
  - exists slot. rewrite <- Hc, set_catch_error_same.
    destruct (level =? usbredirparser_warning);
      eexists; (split; [reflexivity|]); split; auto;
      repeat constructor; eauto.
Qed.

Lemma engine_open_logs_armed (logs : list (Z * string)) :
  forall (p : SpiceUsbredirChannelPrivate) (slot : GError_slot),
    catch_error p = Some slot ->
    exists slot' t,
      engine_open_logs p logs = (set_catch_error (Some slot') p, t)
      /\ only_logs t
      /\ (Forall (fun lm => fst lm <> usbredirparser_error) logs ->
          slot' = slot).
Proof.
  induction logs as [|[level msg] rest IH]; intros p slot Hc; simpl.
  - exists slot, []. rewrite <- Hc, set_catch_error_same.
    repeat split; auto. constructor.
  - destruct (usbredir_log_armed p slot level msg Hc)
      as (s1 & t1 & E1 & L1 & Q1).
    rewrite E1.
    destruct (IH (set_catch_error (Some s1) p) s1 eq_refl)
      as (s2 & t2 & E2 & L2 & Q2).
    rewrite E2. exists s2, (t1 ++ t2). split; [reflexivity|]. split.
    + apply Forall_app; auto.
    + intro H. inversion H as [|x l Hx Hl]; subst. simpl in Hx.
      rewrite (Q2 Hl). auto.
Qed.

(** What [spice_usbredir_channel_open_device] does to the private data and
    which calls it makes, by outcome. *)
Lemma open_device_outcome (p : SpiceUsbredirChannelPrivate)
    (err : GError_slot) (a : open_answers) :
  forall ok p' err' t,
    spice_usbredir_channel_open_device p err a = (ok, p', err', t) ->
    (context p' = context p /\ device p' = device p
     /\ read_buf p' = read_buf p /\ read_buf_size p' = read_buf_size p
     /\ result p' = result p /\ acl_helper p' = acl_helper p)
    /\ no_ref_traffic t
    /\ (ok = true ->
        state p' = STATE_CONNECTING /\ host p' = host_open_ret a
        /\ host_open_ret a <> NULL
        /\ (quiet_on_success a -> err' = err))
    /\ (ok = false ->
        state p' = state p /\ (host p' = host p \/ host p' = NULL)).
Proof.
  intros ok p' err' t. unfold spice_usbredir_channel_open_device.
  destruct (negb _) eqn:Hg.
  { intro H; inversion H; subst; clear H.
    repeat split; auto; try discriminate. traffic. }
  destruct (negb (libusb_open_rc a =? 0)) eqn:Hrc.
  { pose proof (g_set_error_logs err
      {| error_code := SPICE_CLIENT_ERROR_FAILED;
         error_message :=
           "Could not open usb device: "
           ++ spice_usb_device_manager_libusb_strerror (libusb_open_rc a)
           ++ " [" ++ string_of_Z (libusb_open_rc a) ++ "]" |}) as Hl.
    destruct (g_set_error _ _) as [e1 t1]. simpl in Hl.
    apply only_logs_no_ref in Hl.
    intro H; inversion H; subst; clear H.
    split; [repeat split|]. split; [traffic|].
    split; [discriminate|]. auto. }
  destruct (engine_open_logs_armed (host_open_logs a)
              (set_catch_error (Some err) p) err eq_refl)
    as (s1 & tl & E & L & Q).
  rewrite E. apply only_logs_no_ref in L.
  cbn [catch_error set_host set_catch_error host].
  destruct (host_open_ret a =? NULL) eqn:Hh.
  - apply Z.eqb_eq in Hh.
    destruct s1 as [e|]; intro H; inversion H; subst; clear H;
      (split; [repeat split|]); (split; [traffic|]);
      (split; [discriminate|]); cbn; auto.
  - apply Z.eqb_neq in Hh.
    destruct (start_listening_error a) as [e|].
    + pose proof (g_set_error_logs s1 e) as Hl.
      destruct (g_set_error s1 e) as [e2 t2]. simpl in Hl.
      apply only_logs_no_ref in Hl.
      intro H; inversion H; subst; clear H.
      split; [repeat split|]. split; [traffic|].
      split; [discriminate|]. cbn; auto.
    + intro H; inversion H; subst; clear H.
      split; [repeat split|]. split; [traffic|].
      split; [|discriminate]. intros _. cbn.
      repeat split; auto.
Qed.

Lemma open_device_succeeds (p : SpiceUsbredirChannelPrivate)
    (err : GError_slot) (a : open_answers) :
  state p = STATE_DISCONNECTED
  \/ (USE_POLKIT = true /\ state p = STATE_WAITING_FOR_ACL_HELPER) ->
  libusb_open_rc a = 0 ->
  host_open_ret a <> NULL ->
  start_listening_error a = None ->
  exists p' err' t,
    spice_usbredir_channel_open_device p err a = (true, p', err', t).
Proof.
  intros Hs Hrc Hh Hl. unfold spice_usbredir_channel_open_device.
  assert (Hg : state_eqb (state p) STATE_DISCONNECTED
               || USE_POLKIT
                  && state_eqb (state p) STATE_WAITING_FOR_ACL_HELPER
               = true).
  { destruct Hs as [Hs|[Hp Hs]]; rewrite Hs; [reflexivity|].
    rewrite Hp. reflexivity. }
  rewrite Hg, Hrc. simpl.
  destruct (engine_open_logs _ _) as [p2 tl]. simpl.
  apply Z.eqb_neq in Hh. rewrite Hh, Hl. eauto.
Qed.

(** ** Connecting without the access-control helper *)

(** Event listening is asked for only once the engine is there. *)
Lemma only_logs_not_listening (t : trace) :
  only_logs t -> ~ In EvStartEventListening t.
Proof.
  intros H Hin. unfold only_logs in H. rewrite Forall_forall in H.
  destruct (H _ Hin) as (l & m & E). discriminate.
Qed.

Ltac not_listening H :=
  simpl in H; unfold return_if_fail_warning in H;
  repeat match type of H with
         | In _ (_ ++ _) => apply in_app_or in H; destruct H as [H|H]
         | In _ (_ :: _) => destruct H as [H|H]
         | In _ [] => destruct H
         | _ \/ _ => destruct H as [H|H]
         | _ = _ => discriminate H
         | False => destruct H
         end;
  try (exfalso; eapply only_logs_not_listening; eassumption).

Lemma open_device_listening (p : SpiceUsbredirChannelPrivate)
    (err : GError_slot) (a : open_answers) :
  forall ok p' err' t,
    spice_usbredir_channel_open_device p err a = (ok, p', err', t) ->
    In EvStartEventListening t ->
    libusb_open_rc a = 0 /\ host_open_ret a <> NULL.
Proof.
  intros ok p' err' t. unfold spice_usbredir_channel_open_device.
  destruct (negb _) eqn:Hg.
  { intro H; inversion H; subst; clear H. intro Hin. not_listening Hin. }
  destruct (negb (libusb_open_rc a =? 0)) eqn:Hrc.
  { pose proof (g_set_error_logs err
      {| error_code := SPICE_CLIENT_ERROR_FAILED;
         error_message :=
           "Could not open usb device: "
           ++ spice_usb_device_manager_libusb_strerror (libusb_open_rc a)
           ++ " [" ++ string_of_Z (libusb_open_rc a) ++ "]" |}) as Hl.
    destruct (g_set_error _ _) as [e1 t1]. simpl in Hl.
    intro H; inversion H; subst; clear H. intro Hin. not_listening Hin. }
  apply negb_false_iff, Z.eqb_eq in Hrc.
  destruct (engine_open_logs_armed (host_open_logs a)
              (set_catch_error (Some err) p) err eq_refl)
    as (s1 & tl & E & L & Q).
  rewrite E.
  cbn [catch_error set_host set_catch_error host].
  destruct (host_open_ret a =? NULL) eqn:Hh.
  - destruct s1 as [e|]; intro H; inversion H; subst; clear H;
      intro Hin; not_listening Hin.
  - apply Z.eqb_neq in Hh. intros _ _. split; assumption.
Qed.

Lemma connect_async_listening (priv : SpiceUsbredirChannelPrivate)
    (ctx dev cancellable callback user_data helper_new : pointer)
    (a : open_answers) :
  USE_POLKIT = false ->
  In EvStartEventListening
    (snd (spice_usbredir_channel_connect_async priv ctx dev cancellable
            callback user_data helper_new a)) ->
  ctx <> NULL /\ dev <> NULL /\ state priv = STATE_DISCONNECTED
  /\ libusb_open_rc a = 0 /\ host_open_ret a <> NULL.
Proof.
  intros Hp. unfold spice_usbredir_channel_connect_async.
  destruct (ctx =? NULL) eqn:Hc.
  { intro Hin. simpl in Hin. not_listening Hin. }
  destruct (dev =? NULL) eqn:Hd.
  { intro Hin. simpl in Hin. not_listening Hin. }
  apply Z.eqb_neq in Hc, Hd.
  destruct (negb (state_eqb (state priv) STATE_DISCONNECTED)) eqn:Hs.
  { intro Hin. simpl in Hin. not_listening Hin. }
  apply negb_false_iff, state_eqb_eq in Hs.
  rewrite Hp.
  destruct (spice_usbredir_channel_open_device _ None a)
    as [[[ok p2] err] t_open] eqn:E.
  assert (Hopen : In EvStartEventListening t_open ->
                  ctx <> NULL /\ dev <> NULL
                  /\ state priv = STATE_DISCONNECTED
                  /\ libusb_open_rc a = 0 /\ host_open_ret a <> NULL).
  { intro Hin.
    destruct (open_device_listening _ _ _ _ _ _ _ E Hin) as [Hrc Hh].
    auto. }
  destruct ok; cbn [negb].
  - intro Hin. cbn [snd] in Hin.
    apply in_app_or in Hin. destruct Hin as [Hin|Hin];
      [not_listening Hin|].
    apply in_app_or in Hin. destruct Hin as [Hin|Hin]; [auto|].
    not_listening Hin.
  - assert (Hl : only_logs
                   (snd (g_simple_async_result_take_error
                           (Some {| res_callback := callback;
                                    res_user_data := user_data;
                                    res_error := None |}) err))).
    { destruct err; simpl; repeat constructor.
      unfold return_if_fail_warning. eauto. }
    destruct (g_simple_async_result_take_error _ err) as [r1 t_take].
    simpl in Hl. intro Hin. cbn [snd] in Hin.
    apply in_app_or in Hin. destruct Hin as [Hin|Hin];
      [not_listening Hin|].
    apply in_app_or in Hin. destruct Hin as [Hin|Hin]; [auto|].
    destruct r1; not_listening Hin.
Qed.

(** C8.  Without USE_POLKIT, a connect_async call on a channel in
    STATE_DISCONNECTED for which libusb opens the device, event listening
    is asked for and starts without error, schedules one completion,
    without error, and leaves the channel in STATE_CONNECTING with the new
    engine.  The channel-up notification that follows sets STATE_CONNECTED
    and at once asks the engine to write out its buffered guest data; in
    any state other than STATE_CONNECTING the notification is refused with
    a critical message and changes nothing. *)
Theorem connect_without_acl_then_channel_up
    (priv : SpiceUsbredirChannelPrivate)
    (ctx dev cancellable callback user_data helper_new : pointer)
    (a : open_answers) :
  let connected :=
    spice_usbredir_channel_connect_async priv ctx dev cancellable callback
      user_data helper_new a in
  USE_POLKIT = false ->
  state priv = STATE_DISCONNECTED ->
  libusb_open_rc a = 0 ->
  In EvStartEventListening (snd connected) ->
  start_listening_error a = None ->
  completions (snd connected)
  = [ {| res_callback := callback; res_user_data := user_data;
         res_error := None |} ]
  /\ state (fst connected) = STATE_CONNECTING
  /\ host (fst connected) = host_open_ret a
  /\ spice_usbredir_channel_up (fst connected)
     = (set_state STATE_CONNECTED (fst connected),
        [EvUsbredirhostWriteGuestData (host_open_ret a)])
  /\ forall q : SpiceUsbredirChannelPrivate,
       state q <> STATE_CONNECTING ->
       exists expr,
         spice_usbredir_channel_up q = (q, [EvLog G_LOG_CRITICAL expr]).
Proof.
  intros connected Hp Hs Hrc Hin Hl.
  destruct (connect_async_listening _ _ _ _ _ _ _ _ Hp Hin)
    as (Hc & Hd & _ & _ & Hh).
  clear Hin. subst connected.
  unfold spice_usbredir_channel_connect_async.
  apply Z.eqb_neq in Hc, Hd. rewrite Hc, Hd, Hs, Hp. simpl.
  destruct (open_device_succeeds
              (set_device dev (set_context ctx priv)) None a)
    as (p' & err' & t & E); auto.
  rewrite E. simpl.
  destruct (open_device_outcome _ _ _ _ _ _ _ E)
    as (_ & Ht & Hok & _).
  destruct (Hok eq_refl) as (Hst & Hho & _).
  destruct (no_ref_traffic_count t Ht) as [_ Hcomp].
  repeat split.
  - change (EvLog G_LOG_DEBUG "connecting usb channel"
            :: EvLibusbRefDevice dev
            :: t ++ [EvCompleteInIdle
                       {| res_callback := callback;
                          res_user_data := user_data;
                          res_error := None |}])
      with ([EvLog G_LOG_DEBUG "connecting usb channel";
             EvLibusbRefDevice dev]
            ++ t ++ [EvCompleteInIdle
                       {| res_callback := callback;
                          res_user_data := user_data;
                          res_error := None |}]).
    rewrite !completions_app, Hcomp. reflexivity.
  - exact Hst.
  - exact Hho.
  - unfold spice_usbredir_channel_up. rewrite Hst, Hho. reflexivity.
  - intros q Hq. unfold spice_usbredir_channel_up.
    apply state_eqb_neq in Hq. rewrite Hq. simpl.
    unfold return_if_fail_warning. eauto.
Qed.

(** ** The read callback and the engine's reads *)

Lemma read_guest_data_shape (script : read_script) :
  forall p : SpiceUsbredirChannelPrivate,
  exists b n t,
    usbredirhost_read_guest_data script p = (set_read_buf b n p, t)
    /\ only_reads t.
Proof.
  induction script as [|c next IH]; intro p; simpl.
  - exists (read_buf p), (read_buf_size p), [].
    rewrite set_read_buf_same. split; [reflexivity|constructor].
  - set (c' := if read_buf_size p <? c then read_buf_size p else c).
    set (p1 := set_read_buf _ _ p).
    destruct (IH c' (memcpy (read_buf p) c') p1) as (b & n & t & E & Ht).
    rewrite E. do 3 eexists. split; [reflexivity|].
    constructor; eauto.
Qed.

Lemma handle_msg_shape (p : SpiceUsbredirChannelPrivate)
    (msg : SpiceMsgIn) (script : read_script) :
  exists b n t,
    usbredir_handle_msg p msg script = (set_read_buf b n p, t)
    /\ no_ref_traffic t.
Proof.
  unfold usbredir_handle_msg.
  destruct (host p =? NULL).
  { exists (read_buf p), (read_buf_size p). rewrite set_read_buf_same.
    eexists. split; [reflexivity|traffic]. }
  destruct (negb (is_null (read_buf p))).
  { exists (read_buf p), (read_buf_size p). rewrite set_read_buf_same.
    eexists. split; [reflexivity|traffic]. }
  simpl.
  destruct (read_guest_data_shape script
              (set_read_buf (msg_data msg) (msg_dpos msg) p))
    as (b & n & t & E & Ht).
  rewrite E. do 3 eexists. split; [reflexivity|].
  apply only_reads_no_ref in Ht. traffic.
Qed.

(** ** One step of the state machine *)

Lemma engine_absent_when_idle (p : SpiceUsbredirChannelPrivate) :
  engine_iff_connected p ->
  state p <> STATE_CONNECTING -> state p <> STATE_CONNECTED ->
  host p = NULL.
Proof.
  intros [H _] H1 H2. destruct (Z.eq_dec (host p) NULL) as [|Hn]; auto.
  destruct (H Hn); contradiction.
Qed.

Lemma connect_async_keeps_invariant (p : SpiceUsbredirChannelPrivate)
    (c d cn cb ud h : pointer) (a : open_answers) :
  engine_iff_connected p ->
  engine_iff_connected
    (fst (spice_usbredir_channel_connect_async p c d cn cb ud h a)).
Proof.
  intro I. unfold spice_usbredir_channel_connect_async.
  destruct (c =? NULL); [exact I|].
  destruct (d =? NULL); [exact I|].
  destruct (negb (state_eqb (state p) STATE_DISCONNECTED)) eqn:Hs;
    [exact I|].
  apply negb_false_iff, state_eqb_eq in Hs.
  assert (Hh : host p = NULL)
    by (apply engine_absent_when_idle; auto; rewrite Hs; discriminate).
  destruct USE_POLKIT.
  - cbn. unfold engine_iff_connected. cbn. rewrite Hh.
    split; [congruence|]. intros [H|H]; discriminate.
  - destruct (spice_usbredir_channel_open_device _ _ _)
      as [[[ok p'] err'] t] eqn:E.
    destruct (open_device_outcome _ _ _ _ _ _ _ E)
      as (_ & _ & Hok & Hko).
    destruct ok; cbn [negb].
    + destruct (Hok eq_refl) as (Hst & Hho & Hn & _).
      unfold engine_iff_connected. cbn. rewrite Hst, Hho. tauto.
    + destruct (Hko eq_refl) as (Hst & Hho). cbn in Hst, Hho.
      destruct (g_simple_async_result_take_error _ err') as [r1 tt].
      unfold engine_iff_connected. cbn. rewrite Hst, Hs.
      assert (host p' = NULL) by (destruct Hho; congruence).
      split; [congruence|]. intros [H'|H']; discriminate.
Qed.

Lemma open_acl_cb_keeps_invariant (p : SpiceUsbredirChannelPrivate)
    (h : pointer) (acl_res : option GError) (a : open_answers) :
  quiet_on_success a ->
  engine_iff_connected p ->
  engine_iff_connected
    (fst (spice_usbredir_channel_open_acl_cb p h acl_res a)).
Proof.
  intros Hq I. unfold spice_usbredir_channel_open_acl_cb.
  destruct (negb (h =? acl_helper p)); [exact I|].
  destruct (negb _) eqn:Hs; [exact I|].
  apply negb_false_iff, orb_true_iff in Hs.
  assert (Hh : host p = NULL).
  { apply engine_absent_when_idle; auto;
      destruct Hs as [Hs|Hs]; apply state_eqb_eq in Hs; rewrite Hs;
      discriminate. }
  assert (Hidle : forall q : SpiceUsbredirChannelPrivate,
            host q = NULL ->
            engine_iff_connected
              (set_state STATE_DISCONNECTED q)).
  { intros q Hq0. unfold engine_iff_connected. cbn. rewrite Hq0.
    split; [congruence|]. intros [H|H]; discriminate. }
  destruct acl_res as [e|]; cbn.
  { destruct (g_simple_async_result_take_error (result p) (Some e))
      as [res t]. cbn.
    unfold engine_iff_connected. cbn. rewrite Hh.
    split; [congruence|]. intros [H|H]; discriminate. }
  destruct (state_eqb (state p) STATE_DISCONNECTING) eqn:Hd; cbn.
  { destruct (g_simple_async_result_take_error (result p) _)
      as [res t]. cbn.
    unfold engine_iff_connected. cbn. rewrite Hh.
    split; [congruence|]. intros [H|H]; discriminate. }
  destruct (spice_usbredir_channel_open_device p None a)
    as [[[ok p'] err'] t] eqn:E.
  destruct (open_device_outcome _ _ _ _ _ _ _ E) as (_ & _ & Hok & Hko).
  destruct ok.
  - destruct (Hok eq_refl) as (Hst & Hho & Hn & Herr).
    rewrite (Herr Hq). cbn.
    unfold engine_iff_connected. cbn. rewrite Hst, Hho. tauto.
  - destruct (Hko eq_refl) as (Hst & Hho).
    assert (Hh' : host p' = NULL) by (destruct Hho; congruence).
    assert (Hw : state p' = STATE_WAITING_FOR_ACL_HELPER).
    { rewrite Hst. destruct Hs as [Hs|Hs]; [|discriminate].
      now apply state_eqb_eq in Hs. }
    destruct err' as [e|]; cbn.
    + destruct (g_simple_async_result_take_error (result p') (Some e))
        as [res t']. cbn.
      unfold engine_iff_connected. cbn. rewrite Hh'.
      split; [congruence|]. intros [H|H]; discriminate.
    + unfold engine_iff_connected. cbn. rewrite Hh', Hw.
      split; [congruence|]. intros [H|H]; discriminate.
Qed.

Lemma step_keeps_invariant (p : SpiceUsbredirChannelPrivate)
    (o : operation) :
  engine_quiet o ->
  engine_iff_connected p ->
  engine_iff_connected (fst (step p o)).
Proof.
  intros Hq I. destruct o; simpl.
  - now apply connect_async_keeps_invariant.
  - destruct USE_POLKIT; [|exact I].
    now apply open_acl_cb_keeps_invariant.
  - unfold spice_usbredir_channel_up.
    destruct (negb _) eqn:Hs; [exact I|].
    apply negb_false_iff, state_eqb_eq in Hs.
    unfold engine_iff_connected in *. cbn. rewrite Hs in I. tauto.
  - unfold spice_usbredir_channel_disconnect.
    destruct (state p) eqn:Hs; try exact I;
      try (unfold engine_iff_connected; cbn;
           split; [congruence|intros [H|H]; discriminate]).
    destruct USE_POLKIT; [|exact I].
    unfold engine_iff_connected in *. cbn. rewrite Hs in I.
    split; [intro H; apply I in H; destruct H; discriminate|].
    intros [H|H]; discriminate.
  - destruct (handle_msg_shape p msg script) as (b & n & t & E & _).
    rewrite E. exact I.
  - unfold usbredir_write_flush_callback.
    destruct (negb _); exact I.
Qed.

Lemma run_cons (p : SpiceUsbredirChannelPrivate) (o : operation)
    (ops : list operation) :
  run p (o :: ops)
  = (fst (run (fst (step p o)) ops),
     snd (step p o) ++ snd (run (fst (step p o)) ops)).
Proof.
  simpl. destruct (step p o) as [p1 t1]. simpl.
  destruct (run p1 ops) as [p2 t2]. reflexivity.
Qed.

Lemma run_keeps_invariant (ops : list operation) :
  forall p : SpiceUsbredirChannelPrivate,
    Forall engine_quiet ops ->
    engine_iff_connected p ->
    engine_iff_connected (fst (run p ops)).
Proof.
  induction ops as [|o ops IH]; intros p Hq I; [exact I|].
  inversion Hq as [|o' ops' Ho Hops]; subst.
  rewrite run_cons. simpl. apply IH; auto.
  now apply step_keeps_invariant.
Qed.

(** ** Engine and state *)

(** X15.  After any sequence of connect_async calls, acl-helper
    completions, channel-up notifications, disconnects, inbound messages
    and write flushes on a new channel, the engine pointer is non-null
    exactly when the state is STATE_CONNECTING or STATE_CONNECTED, as long
    as no engine construction that ran from an acl-helper completion
    logged an error-level message and succeeded all the same. *)
Theorem engine_exists_iff_connecting_or_connected
    (ops : list operation) :
  Forall engine_quiet ops ->
  host (fst (run priv_init ops)) <> NULL
  <-> (state (fst (run priv_init ops)) = STATE_CONNECTING
       \/ state (fst (run priv_init ops)) = STATE_CONNECTED).
Proof.
  intro Hq. apply (run_keeps_invariant ops priv_init Hq).
  unfold engine_iff_connected. simpl.
  split; [intro H; now elim H|intros [H|H]; discriminate].
Qed.

(** ** Disconnecting twice *)

Lemma step_stays_in_build (p : SpiceUsbredirChannelPrivate)
    (o : operation) :
  state_in_build p -> state_in_build (fst (step p o)).
Proof.
  unfold state_in_build. intros Hb Hp. specialize (Hb Hp).
  destruct o; simpl.
  - unfold spice_usbredir_channel_connect_async.
    destruct (context0 =? NULL); [exact Hb|].
    destruct (device0 =? NULL); [exact Hb|].
    destruct (negb _) eqn:Hs; [exact Hb|].
    rewrite Hp.
    destruct (spice_usbredir_channel_open_device _ _ _)
      as [[[ok p'] err'] t] eqn:E.
    destruct (open_device_outcome _ _ _ _ _ _ _ E)
      as (_ & _ & Hok & Hko).
    destruct ok; cbn [negb].
    + destruct (Hok eq_refl) as (Hst & _). cbn. rewrite Hst. discriminate.
    + destruct (Hko eq_refl) as (Hst & _). cbn in Hst.
      destruct (g_simple_async_result_take_error _ err') as [r1 tt].
      cbn. now rewrite Hst.
  - rewrite Hp. exact Hb.
  - unfold spice_usbredir_channel_up.
    destruct (negb _); [exact Hb|]. cbn. discriminate.
  - unfold spice_usbredir_channel_disconnect.
    destruct (state p) eqn:Hs; rewrite ?Hp; cbn; rewrite ?Hs;
      try discriminate; now elim Hb.
  - destruct (handle_msg_shape p msg script) as (b & n & t & E & _).
    rewrite E. exact Hb.
  - unfold usbredir_write_flush_callback. destruct (negb _); exact Hb.
Qed.

Lemma run_stays_in_build (ops : list operation) :
  forall p : SpiceUsbredirChannelPrivate,
    state_in_build p -> state_in_build (fst (run p ops)).
Proof.
  induction ops as [|o ops IH]; intros p Hb; [exact Hb|].
  rewrite run_cons. simpl. apply IH. now apply step_stays_in_build.
Qed.

(** C2 (amended).  From every state a new channel can reach, the second
    of two successive disconnect calls changes nothing and makes no call
    but its debug message.  After the two calls the state is
    STATE_DISCONNECTED when the state before was STATE_DISCONNECTED,
    STATE_CONNECTING or STATE_CONNECTED, and STATE_DISCONNECTING when it
    was STATE_WAITING_FOR_ACL_HELPER or STATE_DISCONNECTING.  Over the two
    calls the engine is closed at most once and at most one device
    reference is released. *)
Theorem disconnect_twice (ops : list operation) :
  let p := fst (run priv_init ops) in
  let first := spice_usbredir_channel_disconnect p in
  let second := spice_usbredir_channel_disconnect (fst first) in
  second = (fst first, [EvLog G_LOG_DEBUG "disconnecting usb channel"])
  /\ state (fst second)
     = match state p with
       | STATE_WAITING_FOR_ACL_HELPER | STATE_DISCONNECTING =>
           STATE_DISCONNECTING
       | _ => STATE_DISCONNECTED
       end
  /\ (count is_host_close (snd first ++ snd second) <= 1)%nat
  /\ (count is_any_unref (snd first ++ snd second) <= 1)%nat.
Proof.
  intros p first second. subst first second.
  assert (Hb : state_in_build p).
  { apply run_stays_in_build. intros _. discriminate. }
  unfold state_in_build in Hb.
  unfold spice_usbredir_channel_disconnect.
  destruct (state p) eqn:Hs; cbn; rewrite ?Hs; cbn;
    try (repeat split; try assumption; unfold count; cbn; lia).
  destruct USE_POLKIT; cbn; rewrite ?Hs; cbn.
  - repeat split; unfold count; cbn; lia.
  - now elim Hb.
Qed.

(** ** Device references on a failed connect *)

Lemma no_refs_app (t1 t2 : trace) :
  no_refs t1 -> no_refs t2 -> no_refs (t1 ++ t2).
Proof.
  intros H1 H2 d. rewrite !count_app.
  destruct (H1 d), (H2 d). lia.
Qed.

Lemma no_ref_traffic_no_refs (t : trace) : no_ref_traffic t -> no_refs t.
Proof. intros H d. now apply no_ref_traffic_count. Qed.

Lemma take_error_logs (r : option GSimpleAsyncResult) (err : GError_slot) :
  only_logs (snd (g_simple_async_result_take_error r err)).
Proof.
  destruct r, err; simpl; repeat constructor;
    unfold return_if_fail_warning; eauto.
Qed.

Lemma count_ref_one (d dev : pointer) :
  count (is_ref d) [EvLibusbRefDevice dev]
  = count (is_unref d) [EvLibusbUnrefDevice dev].
Proof. unfold count. simpl. now destruct (d =? dev). Qed.

(** A connect_async call that schedules a completion with an error has
    dropped every device reference it took. *)
Lemma connect_async_failure_balanced (p : SpiceUsbredirChannelPrivate)
    (c dv cn cb ud h : pointer) (a : open_answers) :
  failure_delivered
    (snd (spice_usbredir_channel_connect_async p c dv cn cb ud h a)) ->
  forall d,
    count (is_ref d)
      (snd (spice_usbredir_channel_connect_async p c dv cn cb ud h a))
    = count (is_unref d)
        (snd (spice_usbredir_channel_connect_async p c dv cn cb ud h a)).
Proof.
  unfold spice_usbredir_channel_connect_async.
  destruct (c =? NULL); [reflexivity|].
  destruct (dv =? NULL); [reflexivity|].
  destruct (negb _); [reflexivity|].
  destruct USE_POLKIT.
  { intros (r & e & Hin & _). simpl in Hin. contradiction. }
  destruct (spice_usbredir_channel_open_device _ _ _)
    as [[[ok p'] err'] t] eqn:E.
  destruct (open_device_outcome _ _ _ _ _ _ _ E)
    as ((_ & Hdev & _) & Ht & _ & _).
  pose proof (no_ref_traffic_count t Ht) as [Hcnt Hcomp].
  destruct ok; cbn [negb].
  - intros (r & e & Hin & He). exfalso. cbn [snd] in Hin.
    change (In r (completions
                    ([EvLog G_LOG_DEBUG "connecting usb channel";
                      EvLibusbRefDevice dv] ++ t
                     ++ [EvCompleteInIdle
                           {| res_callback := cb; res_user_data := ud;
                              res_error := None |}]))) in Hin.
    rewrite !completions_app, Hcomp in Hin. simpl in Hin.
    destruct Hin as [<-|[]]. discriminate.
  - intros _ d.
    pose proof (take_error_logs
                  (Some {| res_callback := cb; res_user_data := ud;
                           res_error := None |}) err') as Hl.
    destruct (g_simple_async_result_take_error _ err') as [r1 tt].
    cbn [snd] in *.
    apply only_logs_no_ref, no_ref_traffic_count in Hl.
    destruct Hl as [Hl _]. destruct (Hl d) as [Hl1 Hl2].
    destruct (Hcnt d) as [Hc1 Hc2].
    cbn in Hdev. rewrite Hdev.
    change (EvLog G_LOG_DEBUG "connecting usb channel"
            :: EvLibusbRefDevice dv :: ?x)
      with ([EvLog G_LOG_DEBUG "connecting usb channel"]
            ++ [EvLibusbRefDevice dv] ++ x).
    rewrite !count_app, Hl1, Hl2, Hc1, Hc2, (count_ref_one d dv).
    assert (Hdone : forall f,
              (f = is_ref d \/ f = is_unref d) ->
              count f (g_simple_async_result_complete_in_idle r1) = O).
    { intros f Hf. destruct r1; unfold count; simpl;
        destruct Hf; subst f; reflexivity. }
    rewrite !Hdone by auto. unfold count. simpl. lia.
Qed.

Lemma explicit_no_refs (t : trace) :
  forallb (fun e => match e with
                    | EvLibusbRefDevice _ | EvLibusbUnrefDevice _ => false
                    | _ => true
                    end) t = true ->
  no_refs t.
Proof.
  induction t as [|e t IH]; intros H d; [split; reflexivity|].
  simpl in H. apply andb_true_iff in H. destruct H as [He Ht].
  destruct (IH Ht d) as [H1 H2]. unfold count in *.
  destruct e; simpl; try discriminate; auto.
Qed.

(** While a connect waits for its acl helper, nothing but the completion
    of that helper ends the wait or touches the device reference. *)
Lemma step_keeps_grant_pending (dev h : pointer) (r : GSimpleAsyncResult)
    (p : SpiceUsbredirChannelPrivate) (o : operation) :
  USE_POLKIT = true ->
  grant_pending dev h r p ->
  not_completion_of h o ->
  grant_pending dev h r (fst (step p o)) /\ no_refs (snd (step p o)).
Proof.
  intros HP G Ho. pose proof G as (Hs & Hd & Hh & Hr & He).
  destruct o; simpl.
  - unfold spice_usbredir_channel_connect_async.
    destruct (context0 =? NULL);
      [split; [exact G|now apply explicit_no_refs]|].
    destruct (device0 =? NULL);
      [split; [exact G|now apply explicit_no_refs]|].
    assert (Hb : negb (state_eqb (state p) STATE_DISCONNECTED) = true)
      by (destruct Hs as [Hs|Hs]; rewrite Hs; reflexivity).
    rewrite Hb. split; [exact G|now apply explicit_no_refs].
  - rewrite HP. unfold spice_usbredir_channel_open_acl_cb.
    simpl in Ho. rewrite Hh.
    apply Z.eqb_neq in Ho. rewrite Ho. simpl.
    split; [exact G|now apply explicit_no_refs].
  - unfold spice_usbredir_channel_up.
    assert (Hb : negb (state_eqb (state p) STATE_CONNECTING) = true)
      by (destruct Hs as [Hs|Hs]; rewrite Hs; reflexivity).
    rewrite Hb. split; [exact G|now apply explicit_no_refs].
  - unfold spice_usbredir_channel_disconnect.
    destruct Hs as [Hs|Hs]; rewrite Hs, ?HP; simpl.
    + split; [|now apply explicit_no_refs].
      unfold grant_pending. simpl. auto.
    + split; [exact G|now apply explicit_no_refs].
  - destruct (handle_msg_shape p msg script) as (b & n & t & E & Ht).
    rewrite E. simpl. split; [exact G|].
    now apply no_ref_traffic_no_refs.
  - unfold usbredir_write_flush_callback.
    assert (Hb : negb (state_eqb (state p) STATE_CONNECTED) = true)
      by (destruct Hs as [Hs|Hs]; rewrite Hs; reflexivity).
    rewrite Hb. split; [exact G|now apply explicit_no_refs].
Qed.

Lemma run_keeps_grant_pending (dev h : pointer) (r : GSimpleAsyncResult)
    (ops : list operation) :
  USE_POLKIT = true ->
  forall p : SpiceUsbredirChannelPrivate,
    grant_pending dev h r p ->
    Forall (not_completion_of h) ops ->
    grant_pending dev h r (fst (run p ops)) /\ no_refs (snd (run p ops)).
Proof.
  intro HP. induction ops as [|o ops IH]; intros p G Hops.
  - split; [exact G|]. intro d. split; reflexivity.
  - inversion Hops as [|o' ops' Ho Hrest]; subst.
    rewrite run_cons. simpl.
    destruct (step_keeps_grant_pending dev h r p o HP G Ho) as [G1 N1].
    destruct (IH _ G1 Hrest) as [G2 N2].
    split; [exact G2|]. now apply no_refs_app.
Qed.

(** The completion of the awaited helper, when it reports a failure, drops
    the device reference the connect took, once, and takes none. *)
Lemma open_acl_cb_failure_unrefs (dev h : pointer)
    (r : GSimpleAsyncResult) (p : SpiceUsbredirChannelPrivate)
    (acl_res : option GError) (a : open_answers) :
  grant_pending dev h r p ->
  failure_delivered
    (snd (spice_usbredir_channel_open_acl_cb p h acl_res a)) ->
  forall d,
    count (is_ref d)
      (snd (spice_usbredir_channel_open_acl_cb p h acl_res a)) = O
    /\ count (is_unref d)
         (snd (spice_usbredir_channel_open_acl_cb p h acl_res a))
       = count (is_unref d) [EvLibusbUnrefDevice dev].
Proof.
  intros (Hs & Hd & Hh & Hr & He).
  unfold spice_usbredir_channel_open_acl_cb.
  rewrite Hh, Z.eqb_refl. cbn [negb].
  assert (Hg : negb (state_eqb (state p) STATE_WAITING_FOR_ACL_HELPER
                     || state_eqb (state p) STATE_DISCONNECTING) = false)
    by (destruct Hs as [Hs|Hs]; rewrite Hs; reflexivity).
  rewrite Hg.
  assert (Hfail : forall (q : SpiceUsbredirChannelPrivate) (e : GError) d,
            result q = Some r -> device q = dev ->
            forall t, no_ref_traffic t ->
            count (is_ref d)
              (t ++ (snd (g_simple_async_result_take_error
                            (result q) (Some e))
                     ++ [EvLibusbUnrefDevice (device q)])
               ++ [EvAclHelperCloseAcl (acl_helper q);
                   EvInhibitKeyboardGrab false]
               ++ g_simple_async_result_complete_in_idle
                    (fst (g_simple_async_result_take_error
                            (result q) (Some e)))) = O
            /\ count (is_unref d)
                 (t ++ (snd (g_simple_async_result_take_error
                               (result q) (Some e))
                        ++ [EvLibusbUnrefDevice (device q)])
                  ++ [EvAclHelperCloseAcl (acl_helper q);
                      EvInhibitKeyboardGrab false]
                  ++ g_simple_async_result_complete_in_idle
                       (fst (g_simple_async_result_take_error
                               (result q) (Some e))))
               = count (is_unref d) [EvLibusbUnrefDevice dev]).
  { intros q e d Hq Hdq t Ht. rewrite Hq, Hdq. simpl.
    destruct (no_ref_traffic_count t Ht) as [Hc _].
    destruct (Hc d) as [H1 H2].
    rewrite !count_app, H1, H2. unfold count. simpl.
    destruct (d =? dev); split; reflexivity. }
  destruct acl_res as [e|]; cbn [fst snd].
  { intros _ d.
    destruct (Hfail p e d Hr Hd [] (Forall_nil _)) as [H1 H2].
    destruct (g_simple_async_result_take_error (result p) (Some e))
      as [res tt]. exact (conj H1 H2). }
  destruct (state_eqb (state p) STATE_DISCONNECTING).
  { intros _ d.
    destruct (Hfail p cancelled_error d Hr Hd [] (Forall_nil _))
      as [H1 H2]. unfold cancelled_error in H1, H2.
    destruct (g_simple_async_result_take_error (result p) _)
      as [res tt]. exact (conj H1 H2). }
  destruct (spice_usbredir_channel_open_device p None a)
    as [[[ok p'] err'] t] eqn:E.
  destruct (open_device_outcome _ _ _ _ _ _ _ E)
    as ((_ & Hdev & _ & _ & Hres & _) & Ht & _ & _).
  destruct err' as [e|].
  - intros _ d.
    assert (Hr' : result p' = Some r) by congruence.
    assert (Hd' : device p' = dev) by congruence.
    destruct (Hfail p' e d Hr' Hd' t Ht) as [H1 H2].
    destruct (g_simple_async_result_take_error (result p') (Some e))
      as [res tt]. exact (conj H1 H2).
  - intros (r0 & e0 & Hin & He0). exfalso. cbn in Hin.
    rewrite Hres, Hr in Hin. cbn in Hin.
    destruct (no_ref_traffic_count t Ht) as [_ Hc].
    rewrite completions_app, Hc in Hin. simpl in Hin.
    destruct Hin as [<-|[]]. congruence.
Qed.

(** *** Every failure is delivered *)

Lemma usbredir_log_catches (p : SpiceUsbredirChannelPrivate)
    (slot : GError_slot) (level : Z) (msg : string) :
  catch_error p = Some slot ->
  slot <> None \/ level = usbredirparser_error ->
  exists e, catch_error (fst (usbredir_log p level msg)) = Some (Some e).
Proof.
  intros Hc H. unfold usbredir_log. rewrite Hc.
  destruct (level =? usbredirparser_error) eqn:Hl.
  - destruct slot as [e|]; simpl; eauto.
  - destruct H as [H|H]; [|apply Z.eqb_neq in Hl; contradiction].
    destruct slot as [e|]; [|now elim H].
    destruct (level =? usbredirparser_warning); simpl; eauto.
Qed.

Lemma engine_open_logs_catches (logs : list (Z * string)) :
  forall (p : SpiceUsbredirChannelPrivate) (slot : GError_slot),
    catch_error p = Some slot ->
    slot <> None
    \/ Exists (fun lm => fst lm = usbredirparser_error) logs ->
    exists e,
      catch_error (fst (engine_open_logs p logs)) = Some (Some e).
Proof.
  induction logs as [|[level msg] rest IH]; intros p slot Hc H.
  - destruct H as [H|H]; [|inversion H].
    destruct slot as [e|]; [|now elim H]. simpl. eauto.
  - simpl.
    destruct (usbredir_log_armed p slot level msg Hc)
      as (s1 & t1 & E1 & _ & _).
    assert (Hs1 : slot <> None \/ level = usbredirparser_error ->
                  s1 <> None).
    { intro H'. destruct (usbredir_log_catches p slot level msg Hc H')
        as [e He]. rewrite E1 in He. simpl in He. congruence. }
    rewrite E1.
    destruct (engine_open_logs (set_catch_error (Some s1) p) rest)
      as [p2 t2] eqn:E2.
    specialize (IH (set_catch_error (Some s1) p) s1 eq_refl).
    rewrite E2 in IH. simpl in IH. simpl. apply IH.
    destruct H as [H|H]; [left; auto|].
    inversion H as [x l Hx|x l Hl]; subst; [left; auto|now right].
Qed.

(** A failing device opening returns FALSE and leaves an error in the
    caller's slot. *)
Lemma open_device_failure_reported (p : SpiceUsbredirChannelPrivate)
    (a : open_answers) :
  state p = STATE_DISCONNECTED
  \/ (USE_POLKIT = true /\ state p = STATE_WAITING_FOR_ACL_HELPER) ->
  open_fails a ->
  exists p' e t,
    spice_usbredir_channel_open_device p None a = (false, p', Some e, t).
Proof.
  intros Hs Hf. unfold spice_usbredir_channel_open_device.
  assert (Hg : state_eqb (state p) STATE_DISCONNECTED
               || USE_POLKIT
                  && state_eqb (state p) STATE_WAITING_FOR_ACL_HELPER
               = true).
  { destruct Hs as [Hs|[Hp Hs]]; rewrite Hs; [reflexivity|].
    rewrite Hp. reflexivity. }
  rewrite Hg. cbn [negb].
  destruct (libusb_open_rc a =? 0) eqn:Hrc; cbn [negb].
  2:{ simpl. eauto. }
  apply Z.eqb_eq in Hrc.
  destruct Hf as [Hf|Hf]; [contradiction|].
  match goal with
  | |- context [engine_open_logs ?q ?l] =>
      pose proof (engine_open_logs_catches l q None eq_refl) as Hcatch;
      destruct (engine_open_logs_armed l q None eq_refl)
        as (s1 & tl & E & _ & _)
  end.
  rewrite E in Hcatch. cbn [fst catch_error set_catch_error] in Hcatch.
  destruct Hf as [[Hh Hlog]|[Hh Hl]].
  - destruct Hcatch as [e He]; [now right|].
    inversion He; subst.
    do 3 eexists. rewrite E.
    cbn [fst catch_error set_catch_error set_host host].
    rewrite Hh. cbn. reflexivity.
  - apply Z.eqb_neq in Hh.
    destruct (start_listening_error a) as [e|] eqn:Hle; [|now elim Hl].
    destruct s1 as [e1|]; do 3 eexists; rewrite E;
      cbn [fst catch_error set_catch_error set_host host];
      rewrite Hh; cbn; reflexivity.
Qed.

Lemma in_completions (r : GSimpleAsyncResult) (t : trace) :
  In (EvCompleteInIdle r) t -> In r (completions t).
Proof.
  induction t as [|e t IH]; intro H; [contradiction|].
  destruct H as [->|H]; [now left|].
  destruct e; simpl; auto.
Qed.

(** Each way a connect can fail inside connect_async ends in a completion
    that reports an error. *)
Lemma connect_async_failure_delivered (p : SpiceUsbredirChannelPrivate)
    (c dv cn cb ud h : pointer) (a : open_answers) :
  c <> NULL -> dv <> NULL ->
  state p <> STATE_DISCONNECTED \/ (USE_POLKIT = false /\ open_fails a) ->
  failure_delivered
    (snd (spice_usbredir_channel_connect_async p c dv cn cb ud h a)).
Proof.
  intros Hc Hd H. unfold spice_usbredir_channel_connect_async.
  apply Z.eqb_neq in Hc, Hd. rewrite Hc, Hd.
  destruct (state_eqb (state p) STATE_DISCONNECTED) eqn:Hs; cbn [negb].
  2:{ do 2 eexists. split; [simpl; left; reflexivity|reflexivity]. }
  apply state_eqb_eq in Hs.
  destruct H as [H|[HP Hf]]; [contradiction|]. rewrite HP.
  destruct (open_device_failure_reported
              (set_device dv (set_context c p)) a (or_introl Hs) Hf)
    as (p' & e & t & E).
  rewrite E. cbn [negb g_simple_async_result_take_error snd].
  exists {| res_callback := cb; res_user_data := ud; res_error := Some e |}, e.
  split; [|reflexivity].
  apply in_completions. cbn [g_simple_async_result_complete_in_idle].
  rewrite !in_app_iff. do 4 right. left. reflexivity.
Qed.

(** Each way a connect can fail after the wait for the acl helper ends in
    a completion that reports an error. *)
Lemma open_acl_cb_failure_delivered (dev h : pointer)
    (r : GSimpleAsyncResult) (p : SpiceUsbredirChannelPrivate)
    (acl_res : option GError) (a : open_answers) :
  USE_POLKIT = true ->
  grant_pending dev h r p ->
  acl_res <> None \/ state p = STATE_DISCONNECTING \/ open_fails a ->
  failure_delivered
    (snd (spice_usbredir_channel_open_acl_cb p h acl_res a)).
Proof.
  intros HP (Hs & Hd & Hh & Hr & He) H.
  unfold spice_usbredir_channel_open_acl_cb.
  rewrite Hh, Z.eqb_refl. cbn [negb].
  assert (Hg : negb (state_eqb (state p) STATE_WAITING_FOR_ACL_HELPER
                     || state_eqb (state p) STATE_DISCONNECTING) = false)
    by (destruct Hs as [Hs|Hs]; rewrite Hs; reflexivity).
  rewrite Hg.
  assert (Hdone : forall (q : SpiceUsbredirChannelPrivate) (e : GError) t,
            result q = Some r ->
            failure_delivered
              (t ++ (snd (g_simple_async_result_take_error
                            (result q) (Some e))
                     ++ [EvLibusbUnrefDevice (device q)])
               ++ [EvAclHelperCloseAcl (acl_helper q);
                   EvInhibitKeyboardGrab false]
               ++ g_simple_async_result_complete_in_idle
                    (fst (g_simple_async_result_take_error
                            (result q) (Some e))))).
  { intros q e t Hq. rewrite Hq. simpl.
    exists {| res_callback := res_callback r;
              res_user_data := res_user_data r; res_error := Some e |}, e.
    split; [|reflexivity].
    apply in_completions. rewrite !in_app_iff. right.
    simpl. right. right. right. left. reflexivity. }
  destruct acl_res as [e|]; cbn [fst snd].
  { pose proof (Hdone p e [] Hr) as D.
    destruct (g_simple_async_result_take_error (result p) (Some e))
      as [res tt]. exact D. }
  destruct (state_eqb (state p) STATE_DISCONNECTING) eqn:Hdis.
  { pose proof (Hdone p cancelled_error [] Hr) as D.
    unfold cancelled_error in D.
    destruct (g_simple_async_result_take_error (result p) _)
      as [res tt]. exact D. }
  apply state_eqb_neq in Hdis.
  destruct H as [H|[H|H]]; [now elim H|contradiction|].
  assert (Hw : state p = STATE_WAITING_FOR_ACL_HELPER)
    by (destruct Hs; [assumption|contradiction]).
  destruct (open_device_failure_reported p a (or_intror (conj HP Hw)) H)
    as (p' & e & t & E).
  rewrite E.
  destruct (open_device_outcome _ _ _ _ _ _ _ E)
    as ((_ & _ & _ & _ & Hres & _) & _).
  assert (Hr' : result p' = Some r) by congruence.
  pose proof (Hdone p' e t Hr') as D.
  destruct (g_simple_async_result_take_error (result p') (Some e))
    as [res tt]. exact D.
Qed.

(** X16.  Every way the acquisition can fail and say why ends in a
    completion that reports an error, and once a completion that reports
    an error is scheduled the reference count of every device is what it
    was before connect_async was called.

    First part: a connect_async call on its own.  With a non-null context
    and device it reports an error when the channel is busy and, without
    USE_POLKIT, when [libusb_open] fails, when the engine is not
    constructed and says why, or when event listening does not start.

    Second part, with USE_POLKIT: a connect_async call that went to wait
    for the acl helper, any operations on the channel in between, and the
    helper's completion callback.  The callback reports an error when the
    grant failed, when a disconnect cancelled the connect, or when the
    device opening fails in one of the three ways above. *)
Theorem failed_connect_restores_refcount :
  (forall (priv : SpiceUsbredirChannelPrivate)
          (ctx dev cancellable callback user_data helper_new : pointer)
          (a : open_answers) (d : pointer) (before : Z),
      let t :=
        snd (spice_usbredir_channel_connect_async priv ctx dev cancellable
               callback user_data helper_new a) in
      (ctx <> NULL -> dev <> NULL ->
       state priv <> STATE_DISCONNECTED
       \/ (USE_POLKIT = false /\ open_fails a) ->
       failure_delivered t)
      /\ (failure_delivered t -> refcount_after before d t = before))
  /\ (USE_POLKIT = true ->
      forall (priv : SpiceUsbredirChannelPrivate)
             (ctx dev cancellable callback user_data helper_new : pointer)
             (a : open_answers) (between : list operation)
             (acl_res : option GError) (a' : open_answers)
             (d : pointer) (before : Z),
        ctx <> NULL -> dev <> NULL ->
        state priv = STATE_DISCONNECTED ->
        Forall (not_completion_of helper_new) between ->
        let waiting :=
          spice_usbredir_channel_connect_async priv ctx dev cancellable
            callback user_data helper_new a in
        let later := run (fst waiting) between in
        let done :=
          spice_usbredir_channel_open_acl_cb (fst later) helper_new
            acl_res a' in
        (acl_res <> None \/ state (fst later) = STATE_DISCONNECTING
         \/ open_fails a' ->
         failure_delivered (snd done))
        /\ (failure_delivered (snd done) ->
            refcount_after before d (snd waiting ++ snd later ++ snd done)
            = before)).
Proof.
  split.
  - intros priv ctx dev cn cb ud h a d before t. subst t. split.
    + intros Hc Hd H. now apply connect_async_failure_delivered.
    + intro Hf. unfold refcount_after.
      rewrite (connect_async_failure_balanced _ _ _ _ _ _ _ _ Hf d). lia.
  - intros HP priv ctx dev cn cb ud h a between acl_res a' d before
      Hc Hd Hs Hmid waiting later done.
    assert (G : grant_pending dev h
                  {| res_callback := cb; res_user_data := ud;
                     res_error := None |} (fst waiting)
                /\ snd waiting
                   = [EvLog G_LOG_DEBUG "connecting usb channel";
                      EvLibusbRefDevice dev; EvInhibitKeyboardGrab true;
                      EvAclHelperOpenAcl h (libusb_get_bus_number dev)
                        (libusb_get_device_address dev) cn]).
    { subst waiting. unfold spice_usbredir_channel_connect_async.
      apply Z.eqb_neq in Hc, Hd. rewrite Hc, Hd, Hs, HP. simpl.
      unfold grant_pending. simpl. auto 10. }
    destruct G as [G Hw].
    destruct (run_keeps_grant_pending _ _ _ between HP _ G Hmid)
      as [G2 N2].
    fold later in G2, N2. split.
    + intro H. subst done.
      now apply (open_acl_cb_failure_delivered _ _ _ _ _ _ HP G2).
    + intro Hf.
      destruct (open_acl_cb_failure_unrefs _ _ _ _ acl_res a' G2 Hf d)
        as [D1 D2].
      fold done in D1, D2. destruct (N2 d) as [L1 L2].
      unfold refcount_after. rewrite !count_app, Hw, L1, L2, D1, D2.
      unfold count. simpl. destruct (d =? dev); simpl; lia.
Qed.

(** ** Draining the buffer view *)

Lemma firstn_plus {A : Type} (n m : nat) :
  forall l : list A,
    firstn (n + m) l = firstn n l ++ firstn m (skipn n l).
Proof.
  induction n as [|n IH]; intro l; [reflexivity|].
  destruct l as [|x l]; simpl.
  - now rewrite firstn_nil.
  - now rewrite IH.
Qed.

(** One call of the read callback on a view that holds [rest], for a
    non-negative count. *)
Lemma read_callback_exact (rest : list Byte.byte)
    (p : SpiceUsbredirChannelPrivate) (c : Z) :
  view_holds rest p -> 0 <= c ->
  forall p1 ret copied,
    usbredir_read_callback p c = (p1, ret, copied) ->
    ret = Z.min c (read_buf_size p)
    /\ 0 <= ret
    /\ copied = firstn (Z.to_nat ret) rest
    /\ Z.of_nat (List.length copied) = ret
    /\ read_buf_size p1 = read_buf_size p - ret
    /\ view_holds (skipn (Z.to_nat ret) rest) p1
    /\ (read_buf p = None -> read_buf p1 = None)
    /\ (ret = 0 -> 0 < c -> read_buf p1 = None /\ read_buf_size p1 = 0).
Proof.
  intros [Hn Hb] Hc p1 ret copied. unfold usbredir_read_callback.
  set (c' := if read_buf_size p <? c then read_buf_size p else c).
  assert (Hc' : c' = Z.min c (read_buf_size p)).
  { subst c'. destruct (Z.ltb_spec (read_buf_size p) c); lia. }
  assert (Hr : 0 <= c' <= Z.of_nat (List.length rest)) by lia.
  intro H. inversion H; subst p1 ret copied; clear H.
  assert (Hcp : memcpy (read_buf p) c' = firstn (Z.to_nat c') rest).
  { destruct Hb as [Hb|[Hb ->]]; rewrite Hb; simpl; [reflexivity|].
    now rewrite firstn_nil. }
  assert (Hlen : Z.of_nat (List.length (firstn (Z.to_nat c') rest)) = c').
  { rewrite length_firstn. lia. }
  split; [exact Hc'|]. split; [lia|]. split; [exact Hcp|].
  split; [now rewrite Hcp|]. split; [reflexivity|].
  split; [|split].
  - unfold view_holds. cbn [read_buf read_buf_size set_read_buf].
    rewrite length_skipn. split; [lia|].
    destruct (Z.eqb_spec (read_buf_size p - c') 0) as [Hz|Hz].
    + right. split; [reflexivity|].
      apply length_zero_iff_nil. rewrite length_skipn. lia.
    + left. destruct Hb as [Hb|[Hb ->]]; [now rewrite Hb|].
      simpl in *. lia.
  - intro Hnone. cbn [read_buf set_read_buf].
    destruct (read_buf_size p - c' =? 0); [reflexivity|].
    now rewrite Hnone.
  - intros Hz Hpos. cbn [read_buf read_buf_size set_read_buf].
    assert (read_buf_size p = 0) by lia.
    replace (read_buf_size p - c') with 0 by lia. now split.
Qed.

(** A run of the engine's script on a view that holds [rest]. *)
Lemma read_guest_data_exact (script : read_script) :
  forall (rest : list Byte.byte) (p : SpiceUsbredirChannelPrivate),
    view_holds rest p ->
    Forall nonneg_request (snd (usbredirhost_read_guest_data script p)) ->
    let p' := fst (usbredirhost_read_guest_data script p) in
    let t := snd (usbredirhost_read_guest_data script p) in
    reads_exact (read_buf_size p) t
    /\ 0 <= sum_returns t
    /\ sum_returns t = read_buf_size p - read_buf_size p'
    /\ 0 <= read_buf_size p'
    /\ bytes_copied t = firstn (Z.to_nat (sum_returns t)) rest
    /\ (read_buf p = None -> read_buf p' = None)
    /\ (read_until_empty t -> read_buf p' = None /\ read_buf_size p' = 0).
Proof.
  induction script as [|c next IH]; intros rest p Hv Hnn; cbv zeta.
  - simpl. destruct Hv as [Hn _].
    repeat split; auto; try lia;
      match goal with
      | H : read_until_empty [] |- _ =>
          destruct H as (c0 & cp & _ & [])
      end.
  - cbn [usbredirhost_read_guest_data] in *.
    destruct (usbredir_read_callback p c) as [[p1 ret] copied] eqn:E.
    destruct (usbredirhost_read_guest_data (next ret copied) p1)
      as [p2 t2] eqn:E2.
    cbn [fst snd] in *.
    inversion Hnn as [|e l Hc Hrest]; subst. simpl in Hc.
    destruct (read_callback_exact rest p c Hv Hc _ _ _ E)
      as (Hret & Hpos & Hcp & Hlen & Hsz & Hv1 & Hnone & Hzero).
    specialize (IH ret copied _ p1 Hv1). rewrite E2 in IH.
    cbn [fst snd] in IH.
    destruct (IH Hrest) as (R & S0 & S & P & B & N & U).
    cbn [reads_exact sum_returns bytes_copied].
    split; [|split; [|split; [|split; [|split; [|split]]]]].
    + split; [exact Hret|]. split; [exact Hlen|].
      now rewrite <- Hsz.
    + lia.
    + lia.
    + exact P.
    + rewrite B, Hcp, Z2Nat.inj_add by lia. now rewrite firstn_plus.
    + auto.
    + intros (c0 & cp & Hc0 & [Heq|Hin]).
      * inversion Heq; subst c0 cp. subst ret.
        rewrite <- H1 in *.
        destruct (Hzero eq_refl Hc0) as [Hb1 Hs1].
        split; [now apply N|]. lia.
      * apply U. now exists c0, cp.
Qed.

(** The read callback leaves a null pointer in a view with no bytes. *)
Lemma read_callback_clears (p : SpiceUsbredirChannelPrivate) (c : Z) :
  forall p1 ret copied,
    usbredir_read_callback p c = (p1, ret, copied) ->
    read_buf_size p1 = 0 -> read_buf p1 = None.
Proof.
  intros p1 ret copied. unfold usbredir_read_callback.
  intro H. inversion H; subst p1 ret copied; clear H.
  cbn [read_buf read_buf_size set_read_buf]. intro Hz.
  now rewrite Hz.
Qed.

(** The view after a run of the engine's script on a view that holds
    [rest]: it holds what the engine did not read, and once the read
    callback was called its pointer is null as soon as no byte is left. *)
Lemma read_guest_data_view (script : read_script) :
  forall (rest : list Byte.byte) (p : SpiceUsbredirChannelPrivate),
    view_holds rest p ->
    Forall nonneg_request (snd (usbredirhost_read_guest_data script p)) ->
    let p' := fst (usbredirhost_read_guest_data script p) in
    let t := snd (usbredirhost_read_guest_data script p) in
    view_holds (skipn (Z.to_nat (sum_returns t)) rest) p'
    /\ (existsb is_read_callback t = true ->
        read_buf_size p' = 0 -> read_buf p' = None)
    /\ (existsb is_read_callback t = false -> p' = p).
Proof.
  induction script as [|c next IH]; intros rest p Hv Hnn; cbv zeta.
  - simpl. split; [exact Hv|]. split; [discriminate|reflexivity].
  - cbn [usbredirhost_read_guest_data] in *.
    destruct (usbredir_read_callback p c) as [[p1 ret] copied] eqn:E.
    pose proof (fun Hv1 =>
                  read_guest_data_exact (next ret copied)
                    (skipn (Z.to_nat ret) rest) p1 Hv1) as Hex2.
    cbv zeta in Hex2.
    specialize (IH ret copied (skipn (Z.to_nat ret) rest) p1).
    cbv zeta in IH.
    destruct (usbredirhost_read_guest_data (next ret copied) p1)
      as [p2 t2] eqn:E2.
    cbn [fst snd] in *.
    inversion Hnn as [|e l Hc Hrest]; subst. simpl in Hc.
    destruct (read_callback_exact rest p c Hv Hc _ _ _ E)
      as (Hret & Hpos & _ & _ & _ & Hv1 & _).
    destruct (IH Hv1 Hrest) as (V & K1 & K0).
    destruct (Hex2 Hv1 Hrest) as (_ & S0 & _).
    cbn [sum_returns existsb is_read_callback orb].
    split; [|split; [|discriminate]].
    + rewrite skipn_skipn in V.
      rewrite Z2Nat.inj_add by lia.
      now rewrite Nat.add_comm.
    + intros _ Hz.
      destruct (existsb is_read_callback t2) eqn:Ht2.
      * now apply K1.
      * rewrite (K0 eq_refl) in *.
        now apply (read_callback_clears p c _ _ _ E).
Qed.

(** C6 (amended).  Take a dispatch that is let in (engine present, no
    dispatch in progress) of a message whose length field matches its
    payload, during which the engine asks for non-negative counts.  Every
    read-callback call returns the smaller of the requested count and the
    number of bytes still buffered and copies that many bytes; together the
    calls hand over a prefix of the payload, so the returned counts add up
    to at most the payload length, and after the dispatch the buffer view
    has the length of what was not handed over.  When the returned counts
    add up to the payload length and the read callback was called at
    all, the buffer view is empty (null pointer, length 0) after the
    dispatch; this is so in particular when the engine goes on reading
    until a request for a positive count returns 0.  When they add up to
    less, the view still points at the bytes that were not handed over;
    when the read callback was not called, the view is the message's. *)
Theorem dispatch_drains_payload
    (priv : SpiceUsbredirChannelPrivate) (msg : SpiceMsgIn)
    (script : read_script) :
  host priv <> NULL ->
  read_buf priv = None ->
  msg_wf msg ->
  let dispatched := usbredir_handle_msg priv msg script in
  Forall nonneg_request (snd dispatched) ->
  reads_exact (msg_dpos msg) (snd dispatched)
  /\ sum_returns (snd dispatched) <= msg_dpos msg
  /\ bytes_copied (snd dispatched)
     = firstn (Z.to_nat (sum_returns (snd dispatched))) (payload msg)
  /\ read_buf_size (fst dispatched)
     = msg_dpos msg - sum_returns (snd dispatched)
  /\ (sum_returns (snd dispatched) = msg_dpos msg ->
      existsb is_read_callback (snd dispatched) = true ->
      read_buf (fst dispatched) = None
      /\ read_buf_size (fst dispatched) = 0)
  /\ (read_until_empty (snd dispatched) ->
      sum_returns (snd dispatched) = msg_dpos msg
      /\ read_buf (fst dispatched) = None
      /\ read_buf_size (fst dispatched) = 0)
  /\ (sum_returns (snd dispatched) < msg_dpos msg ->
      read_buf (fst dispatched)
      = Some (skipn (Z.to_nat (sum_returns (snd dispatched)))
                (payload msg)))
  /\ (existsb is_read_callback (snd dispatched) = false ->
      read_buf (fst dispatched) = msg_data msg
      /\ read_buf_size (fst dispatched) = msg_dpos msg).
Proof.
  intros Hh Hb Hwf dispatched. subst dispatched.
  unfold usbredir_handle_msg.
  apply Z.eqb_neq in Hh. rewrite Hh, Hb. cbn [is_null negb].
  unfold spice_msg_in_raw.
  set (p1 := set_read_buf (msg_data msg) (msg_dpos msg) priv).
  assert (Hv : view_holds (payload msg) p1).
  { unfold view_holds, payload, msg_wf in *. subst p1.
    cbn [read_buf read_buf_size set_read_buf].
    destruct (msg_data msg) as [bytes|]; split; auto. }
  pose proof (read_guest_data_exact script (payload msg) p1 Hv) as H.
  pose proof (read_guest_data_view script (payload msg) p1 Hv) as H'.
  destruct (usbredirhost_read_guest_data script p1) as [p2 t] eqn:E.
  cbn [fst snd] in *. intro Hnn.
  inversion Hnn as [|e l _ Hnn']; subst.
  destruct (H Hnn') as (R & S0 & S & P & B & _ & U).
  destruct (H' Hnn') as (V & K1 & K0).
  change (read_buf_size p1) with (msg_dpos msg) in *.
  cbn [reads_exact sum_returns bytes_copied existsb is_read_callback orb].
  split; [exact R|]. split; [lia|]. split; [exact B|].
  split; [lia|].
  split; [|split; [|split]].
  - intros Hsum Hread. split; [|lia]. apply K1; [exact Hread|lia].
  - intros (c0 & cp & Hc0 & [Heq|Hin]); [discriminate|].
    destruct U as [U1 U2]; [now exists c0, cp|].
    repeat split; auto. lia.
  - intro Hlt. destruct V as [Vn [Vb|[_ Ve]]]; [exact Vb|].
    rewrite Ve in Vn. simpl in Vn. lia.
  - intro Hread. rewrite (K0 Hread). subst p1. now split.
Qed.

(** * Further properties of the channel *)

(** ** More on the device opening *)

(** With the catch-error slot disarmed on entry, the device opening
    changes the engine pointer and the state and nothing else. *)
Lemma open_device_frame (p : SpiceUsbredirChannelPrivate)
    (err : GError_slot) (a : open_answers) :
  catch_error p = None ->
  forall ok p' err' t,
    spice_usbredir_channel_open_device p err a = (ok, p', err', t) ->
    p' = set_state (state p') (set_host (host p') p).
Proof.
  intros Hc ok p' err' t. unfold spice_usbredir_channel_open_device.
  assert (Hid : p = set_state (state p) (set_host (host p) p))
    by now destruct p.
  destruct (negb _).
  { intro H; inversion H; subst. exact Hid. }
  destruct (negb (libusb_open_rc a =? 0)).
  { destruct (g_set_error _ _) as [e1 t1].
    intro H; inversion H; subst. exact Hid. }
  destruct (engine_open_logs_armed (host_open_logs a)
              (set_catch_error (Some err) p) err eq_refl)
    as (s1 & tl & E & _ & _).
  rewrite E. cbn [catch_error set_host set_catch_error host].
  destruct (host_open_ret a =? NULL).
  - destruct s1; intro H; inversion H; subst; clear H;
      destruct p; simpl in *; subst; reflexivity.
  - destruct (start_listening_error a) as [e|].
    + destruct (g_set_error s1 e) as [e2 t2].
      intro H; inversion H; subst; clear H.
      destruct p; simpl in *; subst; reflexivity.
    + intro H; inversion H; subst; clear H.
      destruct p; simpl in *; subst; reflexivity.
Qed.

(** The calls of a device opening that succeeds, in order: the device is
    opened, then the engine, then event listening starts, then the channel
    connects; in between there are only log messages. *)
Lemma open_device_success_trace (p : SpiceUsbredirChannelPrivate)
    (err : GError_slot) (a : open_answers) :
  forall p' err' t,
    spice_usbredir_channel_open_device p err a = (true, p', err', t) ->
    libusb_open_rc a = 0 /\ start_listening_error a = None
    /\ exists tlog,
         only_logs tlog
         /\ t = [EvLibusbOpen (device p);
                 EvUsbredirhostOpen (context p) (libusb_open_handle a)]
                ++ tlog ++ [EvStartEventListening; EvSpiceChannelConnect].
Proof.
  intros p' err' t. unfold spice_usbredir_channel_open_device.
  destruct (negb _); [discriminate|].
  destruct (libusb_open_rc a =? 0) eqn:Hrc; cbn [negb].
  2:{ destruct (g_set_error _ _); discriminate. }
  apply Z.eqb_eq in Hrc.
  destruct (engine_open_logs_armed (host_open_logs a)
              (set_catch_error (Some err) p) err eq_refl)
    as (s1 & tl & E & L & _).
  rewrite E. cbn [catch_error set_host set_catch_error host].
  destruct (host_open_ret a =? NULL); [destruct s1; discriminate|].
  destruct (start_listening_error a) as [e|].
  { destruct (g_set_error s1 e); discriminate. }
  intro H; inversion H; subst; clear H.
  split; [exact Hrc|]. split; [reflexivity|].
  exists tl. split; [exact L|]. now rewrite app_assoc.
Qed.

(** With an engine that says why it is not constructed, a device opening
    that is let in either succeeds or leaves an error in the slot. *)
Lemma open_device_ok_or_reported (p : SpiceUsbredirChannelPrivate)
    (a : open_answers) :
  state p = STATE_DISCONNECTED
  \/ (USE_POLKIT = true /\ state p = STATE_WAITING_FOR_ACL_HELPER) ->
  reports_failure a ->
  forall ok p' err' t,
    spice_usbredir_channel_open_device p None a = (ok, p', err', t) ->
    ok = true \/ exists e, err' = Some e.
Proof.
  intros Hs Hrep ok p' err' t E.
  destruct (Z.eq_dec (libusb_open_rc a) 0) as [Hrc|Hrc].
  - destruct (Z.eq_dec (host_open_ret a) NULL) as [Hh|Hh].
    + destruct (open_device_failure_reported p a Hs) as (q & e & tq & Eq).
      { right. left. split; [exact Hh|]. now apply Hrep. }
      rewrite Eq in E. inversion E; subst. right. eauto.
    + destruct (start_listening_error a) as [e|] eqn:Hl.
      * destruct (open_device_failure_reported p a Hs)
          as (q & e' & tq & Eq).
        { right. right. split; [exact Hh|]. rewrite Hl. discriminate. }
        rewrite Eq in E. inversion E; subst. right. eauto.
      * destruct (open_device_succeeds p None a Hs Hrc Hh Hl)
          as (q & e' & tq & Eq).
        rewrite Eq in E. inversion E; subst. now left.
  - destruct (open_device_failure_reported p a Hs) as (q & e & tq & Eq).
    { now left. }
    rewrite Eq in E. inversion E; subst. right. eauto.
Qed.

(** ** What every operation keeps *)

Ltac lifecycle :=
  unfold lifecycle_inv, waiting in *; cbn in *;
  repeat match goal with
         | H : state _ = _ |- _ => rewrite H in *; clear H
         end;
  cbn in *;
  intuition (try discriminate; try congruence).

Lemma connect_async_keeps_lifecycle (p : SpiceUsbredirChannelPrivate)
    (c d cn cb ud h : pointer) (a : open_answers) :
  lifecycle_inv p ->
  lifecycle_inv
    (fst (spice_usbredir_channel_connect_async p c d cn cb ud h a)).
Proof.
  intro I. unfold spice_usbredir_channel_connect_async.
  destruct (c =? NULL) eqn:Hc; [exact I|].
  destruct (d =? NULL) eqn:Hd; [exact I|].
  apply Z.eqb_neq in Hc, Hd.
  destruct (negb (state_eqb (state p) STATE_DISCONNECTED)) eqn:Hs;
    [exact I|].
  apply negb_false_iff, state_eqb_eq in Hs.
  destruct USE_POLKIT.
  - cbn [fst]. lifecycle.
  - destruct (spice_usbredir_channel_open_device _ _ _)
      as [[[ok p'] err'] t] eqn:E.
    assert (Hc0 : catch_error (set_device d (set_context c p)) = None)
      by (destruct I as [I0 _]; exact I0).
    pose proof (open_device_frame _ _ _ Hc0 _ _ _ _ E) as Hf.
    destruct (open_device_outcome _ _ _ _ _ _ _ E)
      as (_ & _ & Hok & Hko).
    destruct ok; cbn [negb].
    + destruct (Hok eq_refl) as (Hst & _).
      cbn [fst]. rewrite Hf. lifecycle.
    + destruct (Hko eq_refl) as (Hst & _). cbn in Hst.
      destruct (g_simple_async_result_take_error _ err') as [r1 tt].
      cbn [fst]. rewrite Hf. lifecycle.
Qed.

Lemma open_acl_cb_keeps_lifecycle (p : SpiceUsbredirChannelPrivate)
    (h : pointer) (acl_res : option GError) (a : open_answers) :
  lifecycle_inv p ->
  lifecycle_inv (fst (spice_usbredir_channel_open_acl_cb p h acl_res a)).
Proof.
  intro I. unfold spice_usbredir_channel_open_acl_cb.
  destruct (negb (h =? acl_helper p)); [exact I|].
  destruct (negb _) eqn:Hs; [exact I|].
  apply negb_false_iff in Hs.
  destruct acl_res as [e|]; cbn [fst].
  { destruct (g_simple_async_result_take_error (result p) (Some e))
      as [res t]. cbn [fst]. lifecycle. }
  destruct (state_eqb (state p) STATE_DISCONNECTING) eqn:Hd.
  { destruct (g_simple_async_result_take_error (result p) _)
      as [res t]. cbn [fst]. lifecycle. }
  rewrite orb_false_r in Hs. apply state_eqb_eq in Hs.
  destruct (spice_usbredir_channel_open_device p None a)
    as [[[ok p'] err'] t] eqn:E.
  assert (Hc0 : catch_error p = None) by (destruct I as [I0 _]; exact I0).
  pose proof (open_device_frame _ _ _ Hc0 _ _ _ _ E) as Hf.
  destruct (open_device_outcome _ _ _ _ _ _ _ E) as (_ & _ & Hok & Hko).
  assert (Hst : state p' = STATE_CONNECTING
                \/ state p' = STATE_WAITING_FOR_ACL_HELPER).
  { destruct ok; [left; now apply Hok|right].
    destruct (Hko eq_refl) as [Hst _]. congruence. }
  destruct err' as [e|].
  - destruct (g_simple_async_result_take_error (result p') (Some e))
      as [res t']. cbn [fst]. rewrite Hf.
    destruct Hst as [Hst|Hst]; lifecycle.
  - cbn [fst]. rewrite Hf.
    destruct Hst as [Hst|Hst]; lifecycle.
Qed.

Lemma step_keeps_lifecycle (p : SpiceUsbredirChannelPrivate)
    (o : operation) :
  lifecycle_inv p -> lifecycle_inv (fst (step p o)).
Proof.
  intro I. destruct o; simpl.
  - now apply connect_async_keeps_lifecycle.
  - destruct USE_POLKIT; [|exact I].
    now apply open_acl_cb_keeps_lifecycle.
  - unfold spice_usbredir_channel_up.
    destruct (negb _) eqn:Hs; [exact I|].
    apply negb_false_iff, state_eqb_eq in Hs. cbn [fst].
    lifecycle.
  - unfold spice_usbredir_channel_disconnect.
    destruct (state p) eqn:Hs;
      try (destruct USE_POLKIT); cbn [fst]; lifecycle.
  - destruct (handle_msg_shape p msg script) as (b & n & t & E & _).
    rewrite E. cbn [fst]. lifecycle.
  - unfold usbredir_write_flush_callback. destruct (negb _); exact I.
Qed.

Lemma run_keeps_lifecycle (ops : list operation) :
  forall p : SpiceUsbredirChannelPrivate,
    lifecycle_inv p -> lifecycle_inv (fst (run p ops)).
Proof.
  induction ops as [|o ops IH]; intros p I; [exact I|].
  rewrite run_cons. simpl. apply IH. now apply step_keeps_lifecycle.
Qed.

Lemma lifecycle_init : lifecycle_inv priv_init.
Proof. lifecycle. Qed.

(** X1.  In every state a new channel can reach, whatever the libraries
    answer, the device that get_device returns is non-null exactly when
    the state is not STATE_DISCONNECTED, and so is the libusb context. *)
Theorem device_held_iff_not_disconnected (ops : list operation) :
  let p := fst (run priv_init ops) in
  (spice_usbredir_channel_get_device p <> NULL
   <-> state p <> STATE_DISCONNECTED)
  /\ (context p <> NULL <-> state p <> STATE_DISCONNECTED).
Proof.
  intro p. unfold spice_usbredir_channel_get_device.
  destruct (run_keeps_lifecycle ops priv_init lifecycle_init)
    as (_ & Hd & Hn & _). fold p in Hd, Hn.
  destruct (state p) eqn:Hs;
    try (split; split; intro; try discriminate; now apply Hn).
  destruct (Hd eq_refl) as [H1 H2]. rewrite H1, H2.
  split; split; intro H; now elim H.
Qed.

(** X2.  In every state a new channel can reach, the catch-error slot is
    disarmed (it is armed only inside the device opening), and in
    STATE_DISCONNECTED, STATE_CONNECTING and STATE_CONNECTED there is no
    pending asynchronous result and no acl helper. *)
Theorem transient_fields_cleared (ops : list operation) :
  let p := fst (run priv_init ops) in
  catch_error p = None
  /\ (state p = STATE_DISCONNECTED \/ state p = STATE_CONNECTING
      \/ state p = STATE_CONNECTED ->
      result p = None /\ acl_helper p = NULL).
Proof.
  intro p.
  destruct (run_keeps_lifecycle ops priv_init lifecycle_init)
    as (Hc & _ & _ & Hw). fold p in Hc, Hw.
  split; [exact Hc|]. intro H. apply Hw. unfold waiting.
  destruct H as [H|[H|H]]; rewrite H; reflexivity.
Qed.

(** ** Disposal *)

(** With USE_POLKIT and an engine that says why it is not constructed,
    the completion of the awaited helper always ends the wait. *)
Lemma open_acl_cb_ends_wait (p : SpiceUsbredirChannelPrivate)
    (acl_res : option GError) (a : open_answers) :
  USE_POLKIT = true ->
  reports_failure a ->
  waiting p = true ->
  waiting
    (fst (spice_usbredir_channel_open_acl_cb p (acl_helper p) acl_res a))
  = false.
Proof.
  intros HP Hrep Hw. unfold spice_usbredir_channel_open_acl_cb.
  rewrite Z.eqb_refl. cbn [negb]. fold (waiting p). rewrite Hw.
  cbn [negb].
  destruct acl_res as [e|]; cbn [fst].
  { destruct (g_simple_async_result_take_error (result p) (Some e))
      as [res t]. reflexivity. }
  destruct (state_eqb (state p) STATE_DISCONNECTING) eqn:Hd.
  { destruct (g_simple_async_result_take_error (result p) _)
      as [res t]. reflexivity. }
  unfold waiting in Hw. rewrite Hd, orb_false_r in Hw.
  apply state_eqb_eq in Hw.
  destruct (spice_usbredir_channel_open_device p None a)
    as [[[ok p'] err'] t] eqn:E.
  destruct (open_device_outcome _ _ _ _ _ _ _ E) as (_ & _ & Hok & _).
  destruct (open_device_ok_or_reported p a (or_intror (conj HP Hw)) Hrep
              _ _ _ _ E) as [->|[e ->]].
  - destruct (Hok eq_refl) as (Hst & _).
    destruct err' as [e|].
    + destruct (g_simple_async_result_take_error (result p') (Some e))
        as [res t']. reflexivity.
    + cbn [fst]. unfold waiting. cbn. now rewrite Hst.
  - destruct (g_simple_async_result_take_error (result p') (Some e))
      as [res t']. reflexivity.
Qed.

Lemma step_keeps_pending (p : SpiceUsbredirChannelPrivate)
    (o : operation) :
  engine_reports o ->
  pending_inv p -> pending_inv (fst (step p o)).
Proof.
  intros Hrep I. destruct o; simpl.
  - unfold spice_usbredir_channel_connect_async.
    destruct (context0 =? NULL); [exact I|].
    destruct (device0 =? NULL); [exact I|].
    destruct (negb (state_eqb (state p) STATE_DISCONNECTED)) eqn:Hs;
      [exact I|].
    apply negb_false_iff, state_eqb_eq in Hs.
    destruct USE_POLKIT.
    + intros _. cbn. discriminate.
    + destruct (spice_usbredir_channel_open_device _ _ _)
        as [[[ok p'] err'] t] eqn:E.
      destruct (open_device_outcome _ _ _ _ _ _ _ E)
        as (_ & _ & Hok & Hko).
      destruct ok; cbn [negb].
      * destruct (Hok eq_refl) as (Hst & _). cbn [fst].
        unfold pending_inv, waiting. rewrite Hst. discriminate.
      * destruct (Hko eq_refl) as (Hst & _). cbn in Hst.
        destruct (g_simple_async_result_take_error _ err') as [r1 tt].
        cbn [fst]. unfold pending_inv, waiting. cbn.
        rewrite Hst, Hs. discriminate.
  - destruct USE_POLKIT eqn:HP; [|exact I].
    destruct (acl_helper0 =? acl_helper p) eqn:Hh.
    2:{ unfold spice_usbredir_channel_open_acl_cb. now rewrite Hh. }
    apply Z.eqb_eq in Hh. subst acl_helper0.
    destruct (waiting p) eqn:Hw.
    + unfold pending_inv.
      rewrite (open_acl_cb_ends_wait p acl_res a HP Hrep Hw).
      discriminate.
    + unfold spice_usbredir_channel_open_acl_cb.
      rewrite Z.eqb_refl. cbn [negb]. fold (waiting p). rewrite Hw.
      exact I.
  - unfold spice_usbredir_channel_up.
    destruct (negb _); [exact I|]. cbn [fst].
    unfold pending_inv, waiting. cbn. discriminate.
  - unfold spice_usbredir_channel_disconnect, pending_inv, waiting in *.
    destruct (state p) eqn:Hs; try (destruct USE_POLKIT); cbn in *;
      try rewrite Hs; cbn; auto; discriminate.
  - destruct (handle_msg_shape p msg script) as (b & n & t & E & _).
    rewrite E. exact I.
  - unfold usbredir_write_flush_callback. destruct (negb _); exact I.
Qed.

Lemma run_keeps_pending (ops : list operation) :
  forall p : SpiceUsbredirChannelPrivate,
    Forall engine_reports ops ->
    pending_inv p -> pending_inv (fst (run p ops)).
Proof.
  induction ops as [|o ops IH]; intros p Hrep I; [exact I|].
  inversion Hrep as [|o' ops' Ho Hops]; subst.
  rewrite run_cons. simpl. apply IH; auto.
  now apply step_keeps_pending.
Qed.

(** X3.  Disposal releases what the channel holds, as the note above the
    handler table says.  Take any state a new channel can reach with an
    engine that says why it is not constructed.  Dispose chains up to the
    parent's dispose when there is one, and after it the channel is either
    in STATE_DISCONNECTED with device, context, pending result and acl
    helper all cleared, or in STATE_DISCONNECTING, and then the completion
    of its acl helper, however the grant went, reports an error, drops the
    device reference once and clears the same four fields. *)
Theorem dispose_releases_references (ops : list operation)
    (parent_dispose : bool) :
  Forall engine_reports ops ->
  let disposed :=
    spice_usbredir_channel_dispose (fst (run priv_init ops))
      parent_dispose in
  let p1 := fst (fst disposed) in
  let released (q : SpiceUsbredirChannelPrivate) :=
    state q = STATE_DISCONNECTED /\ device q = NULL /\ context q = NULL
    /\ result q = None /\ acl_helper q = NULL in
  snd disposed = parent_dispose
  /\ (released p1
      \/ (state p1 = STATE_DISCONNECTING
          /\ forall (acl_res : option GError) (a : open_answers),
               let done :=
                 spice_usbredir_channel_open_acl_cb p1 (acl_helper p1)
                   acl_res a in
               released (fst done)
               /\ count is_any_unref (snd done) = 1%nat
               /\ failure_delivered (snd done))).
Proof.
  intros Hrep disposed p1 released. subst disposed p1.
  set (p := fst (run priv_init ops)).
  assert (L : lifecycle_inv p)
    by (apply run_keeps_lifecycle, lifecycle_init).
  assert (P : pending_inv p).
  { apply run_keeps_pending; auto. unfold pending_inv. simpl. discriminate. }
  assert (B : state_in_build p).
  { apply run_stays_in_build. intros _. discriminate. }
  assert (Hcb : forall q : SpiceUsbredirChannelPrivate,
            state q = STATE_DISCONNECTING -> result q <> None ->
            forall (acl_res : option GError) (a : open_answers),
              released
                (fst (spice_usbredir_channel_open_acl_cb q (acl_helper q)
                        acl_res a))
              /\ count is_any_unref
                   (snd (spice_usbredir_channel_open_acl_cb q
                           (acl_helper q) acl_res a)) = 1%nat
              /\ failure_delivered
                   (snd (spice_usbredir_channel_open_acl_cb q
                           (acl_helper q) acl_res a))).
  { intros q Hs Hr acl_res a.
    destruct (result q) as [r|] eqn:Er; [|now elim Hr].
    unfold spice_usbredir_channel_open_acl_cb.
    rewrite Z.eqb_refl, Hs. cbn.
    destruct acl_res as [e|]; cbn; rewrite Er; cbn;
      (split; [unfold released; cbn; auto|]);
      (split; [reflexivity|]);
      do 2 eexists; (split; [left; reflexivity|reflexivity]). }
  unfold spice_usbredir_channel_dispose, spice_usbredir_channel_disconnect.
  unfold lifecycle_inv, pending_inv, state_in_build, waiting in *.
  destruct L as (_ & Ld & _ & Lw).
  destruct (state p) eqn:Hs; cbn in *.
  - split; [reflexivity|]. left. unfold released. rewrite Hs.
    destruct (Ld eq_refl), (Lw eq_refl). auto.
  - destruct USE_POLKIT; cbn.
    + split; [reflexivity|]. right. split; [reflexivity|].
      exact (Hcb (set_state STATE_DISCONNECTING p) eq_refl (P eq_refl)).
    + now elim B.
  - split; [reflexivity|]. left. unfold released. cbn.
    destruct (Lw eq_refl). auto.
  - split; [reflexivity|]. left. unfold released. cbn.
    destruct (Lw eq_refl). auto.
  - split; [reflexivity|]. right. split; [exact Hs|].
    apply Hcb; auto.
Qed.

(** ** A connect that succeeds *)

Lemma run_app (ops1 ops2 : list operation) :
  forall p : SpiceUsbredirChannelPrivate,
    run p (ops1 ++ ops2)
    = (fst (run (fst (run p ops1)) ops2),
       snd (run p ops1) ++ snd (run (fst (run p ops1)) ops2)).
Proof.
  induction ops1 as [|o ops1 IH]; intro p.
  - simpl. now destruct (run p ops2).
  - rewrite <- app_comm_cons, !run_cons, IH. simpl.
    now rewrite app_assoc.
Qed.

Lemma only_logs_count (f : event -> bool) (t : trace) :
  (forall level msg, f (EvLog level msg) = false) ->
  only_logs t -> count f t = O.
Proof.
  intros Hf. induction 1 as [|e t (l & m & ->) _ IH]; [reflexivity|].
  unfold count in *. simpl. now rewrite Hf.
Qed.

Lemma count_completions (t : trace) :
  count is_completion t = List.length (completions t).
Proof.
  unfold count. induction t as [|e t IH]; [reflexivity|].
  destruct e; simpl; auto.
Qed.

(** Without USE_POLKIT: the calls of a connect_async that succeeds, in
    order, and the private data it leaves. *)
Lemma connect_async_plain_success (priv : SpiceUsbredirChannelPrivate)
    (ctx dev cn cb ud h : pointer) (a : open_answers) :
  USE_POLKIT = false ->
  state priv = STATE_DISCONNECTED ->
  ctx <> NULL -> dev <> NULL ->
  libusb_open_rc a = 0 ->
  host_open_ret a <> NULL ->
  start_listening_error a = None ->
  exists p1 tlog,
    spice_usbredir_channel_connect_async priv ctx dev cn cb ud h a
    = (p1,
       [EvLog G_LOG_DEBUG "connecting usb channel";
        EvLibusbRefDevice dev; EvLibusbOpen dev;
        EvUsbredirhostOpen ctx (libusb_open_handle a)]
       ++ tlog
       ++ [EvStartEventListening; EvSpiceChannelConnect;
           EvCompleteInIdle {| res_callback := cb; res_user_data := ud;
                               res_error := None |}])
    /\ only_logs tlog
    /\ state p1 = STATE_CONNECTING /\ host p1 = host_open_ret a
    /\ device p1 = dev /\ context p1 = ctx.
Proof.
  intros HP Hs Hc Hd Hrc Hh Hl.
  unfold spice_usbredir_channel_connect_async.
  apply Z.eqb_neq in Hc, Hd. rewrite Hc, Hd, Hs, HP. cbn [state_eqb negb].
  destruct (open_device_succeeds
              (set_device dev (set_context ctx priv)) None a)
    as (p' & err' & t & E); auto.
  rewrite E. cbn [negb].
  destruct (open_device_outcome _ _ _ _ _ _ _ E)
    as ((Hctx & Hdev & _) & _ & Hok & _).
  destruct (Hok eq_refl) as (Hst & Hho & _).
  destruct (open_device_success_trace _ _ _ _ _ _ E)
    as (_ & _ & tlog & Hlog & ->).
  exists p', tlog. cbn in Hctx, Hdev. repeat split; auto.
  cbn. now rewrite <- !app_assoc.
Qed.

(** With USE_POLKIT: the calls of a helper completion that finds the grant
    given and opens the device, in order, and the private data it
    leaves. *)
Lemma open_acl_cb_success (p : SpiceUsbredirChannelPrivate)
    (r : GSimpleAsyncResult) (a : open_answers) :
  USE_POLKIT = true ->
  state p = STATE_WAITING_FOR_ACL_HELPER ->
  result p = Some r ->
  libusb_open_rc a = 0 ->
  host_open_ret a <> NULL ->
  start_listening_error a = None ->
  quiet_on_success a ->
  exists p1 tlog,
    spice_usbredir_channel_open_acl_cb p (acl_helper p) None a
    = (p1,
       [EvLibusbOpen (device p);
        EvUsbredirhostOpen (context p) (libusb_open_handle a)]
       ++ tlog
       ++ [EvStartEventListening; EvSpiceChannelConnect;
           EvAclHelperCloseAcl (acl_helper p);
           EvInhibitKeyboardGrab false; EvCompleteInIdle r])
    /\ only_logs tlog
    /\ state p1 = STATE_CONNECTING /\ host p1 = host_open_ret a
    /\ device p1 = device p /\ context p1 = context p
    /\ result p1 = None /\ acl_helper p1 = NULL.
Proof.
  intros HP Hs Hr Hrc Hh Hl Hq.
  unfold spice_usbredir_channel_open_acl_cb.
  rewrite Z.eqb_refl, Hs. cbn [state_eqb negb orb].
  destruct (open_device_succeeds p None a)
    as (p' & err' & t & E); auto.
  rewrite E.
  destruct (open_device_outcome _ _ _ _ _ _ _ E)
    as ((Hctx & Hdev & _ & _ & Hres & Hacl) & _ & Hok & _).
  destruct (Hok eq_refl) as (Hst & Hho & _ & Herr).
  rewrite (Herr Hq).
  destruct (open_device_success_trace _ _ _ _ _ _ E)
    as (_ & _ & tlog & Hlog & ->).
  cbn [g_simple_async_result_complete_in_idle]. rewrite Hres, Hr, Hacl.
  exists (set_result None (set_acl_helper NULL p')), tlog.
  split; [|repeat split; auto].
  cbn. now rewrite <- !app_assoc.
Qed.

(** The connect of [connect_and_disconnect], with the grant where the build
    has one, ends in STATE_CONNECTING holding the device and the engine,
    with one device reference taken and no engine closed. *)
Lemma connected_phase (priv : SpiceUsbredirChannelPrivate)
    (ctx dev cn cb ud h : pointer) (a : open_answers) :
  state priv = STATE_DISCONNECTED ->
  ctx <> NULL -> dev <> NULL ->
  libusb_open_rc a = 0 ->
  host_open_ret a <> NULL ->
  start_listening_error a = None ->
  (USE_POLKIT = true -> quiet_on_success a) ->
  let r := run priv
             ([OpConnectAsync ctx dev cn cb ud h a]
              ++ (if USE_POLKIT then [OpOpenAclCb h None a] else [])) in
  state (fst r) = STATE_CONNECTING /\ host (fst r) = host_open_ret a
  /\ device (fst r) = dev
  /\ (forall d,
        count (is_ref d) (snd r) = count (is_ref d) [EvLibusbRefDevice dev]
        /\ count (is_unref d) (snd r) = O)
  /\ count is_host_close (snd r) = O.
Proof.
  intros Hs Hc Hd Hrc Hh Hl Hq r. subst r.
  destruct USE_POLKIT eqn:HP.
  - assert (Ew : spice_usbredir_channel_connect_async priv ctx dev cn cb
                   ud h a
                 = (set_acl_helper h
                      (set_state STATE_WAITING_FOR_ACL_HELPER
                         (set_result
                            (Some {| res_callback := cb;
                                     res_user_data := ud;
                                     res_error := None |})
                            (set_device dev (set_context ctx priv)))),
                    [EvLog G_LOG_DEBUG "connecting usb channel";
                     EvLibusbRefDevice dev; EvInhibitKeyboardGrab true;
                     EvAclHelperOpenAcl h (libusb_get_bus_number dev)
                       (libusb_get_device_address dev) cn])).
    { unfold spice_usbredir_channel_connect_async.
      pose proof Hc as Hc'. pose proof Hd as Hd'.
      apply Z.eqb_neq in Hc', Hd'. rewrite Hc', Hd', Hs, HP. reflexivity. }
    set (pw := set_acl_helper h _) in Ew.
    destruct (open_acl_cb_success pw
                {| res_callback := cb; res_user_data := ud;
                   res_error := None |} a HP eq_refl eq_refl Hrc Hh Hl
                (Hq eq_refl))
      as (p1 & tlog & E & Hlog & Hst & Hho & Hdev & _).
    cbn [acl_helper set_acl_helper pw] in E.
    simpl. rewrite HP, Ew, E. cbn [fst snd].
    split; [exact Hst|]. split; [exact Hho|]. split; [exact Hdev|].
    pose proof (only_logs_count is_host_close tlog
                  (fun _ _ => eq_refl) Hlog) as Hcl.
    split.
    + intro d.
      pose proof (only_logs_count (is_ref d) tlog
                    (fun _ _ => eq_refl) Hlog) as Hr1.
      pose proof (only_logs_count (is_unref d) tlog
                    (fun _ _ => eq_refl) Hlog) as Hr2.
      rewrite !count_app, Hr1, Hr2. unfold count. simpl.
      destruct (d =? dev); split; reflexivity.
    + rewrite !count_app, Hcl. reflexivity.
  - destruct (connect_async_plain_success priv ctx dev cn cb ud h a
                HP Hs Hc Hd Hrc Hh Hl)
      as (p1 & tlog & E & Hlog & Hst & Hho & Hdev & _).
    simpl. rewrite E. cbn [fst snd].
    split; [exact Hst|]. split; [exact Hho|]. split; [exact Hdev|].
    pose proof (only_logs_count is_host_close tlog
                  (fun _ _ => eq_refl) Hlog) as Hcl.
    split.
    + intro d.
      pose proof (only_logs_count (is_ref d) tlog
                    (fun _ _ => eq_refl) Hlog) as Hr1.
      pose proof (only_logs_count (is_unref d) tlog
                    (fun _ _ => eq_refl) Hlog) as Hr2.
      rewrite !count_app, Hr1, Hr2. unfold count. simpl.
      destruct (d =? dev); split; reflexivity.
    + rewrite !count_app, Hcl. reflexivity.
Qed.

(** X4.  Connect and disconnect are a round trip.  From
    STATE_DISCONNECTED, a connect that succeeds (with USE_POLKIT: followed
    by the completion of a granted helper), an optional channel-up
    notification and a disconnect leave the channel in STATE_DISCONNECTED
    with device, context and engine pointer null.  Over the whole run the
    reference count of every device is back where it started and exactly
    one engine is closed, the one that was constructed.  The run ends with
    the teardown in this order: the channel is disconnected, event
    listening is stopped, the engine is closed, the device reference is
    dropped. *)
Theorem connect_disconnect_round_trip
    (priv : SpiceUsbredirChannelPrivate)
    (ctx dev cancellable callback user_data helper_new : pointer)
    (a : open_answers) (up : bool) :
  state priv = STATE_DISCONNECTED ->
  ctx <> NULL -> dev <> NULL ->
  libusb_open_rc a = 0 ->
  host_open_ret a <> NULL ->
  start_listening_error a = None ->
  (USE_POLKIT = true -> quiet_on_success a) ->
  let r := run priv
             (connect_and_disconnect ctx dev cancellable callback
                user_data helper_new a up) in
  state (fst r) = STATE_DISCONNECTED
  /\ context (fst r) = NULL /\ device (fst r) = NULL
  /\ host (fst r) = NULL
  /\ (forall d before, refcount_after before d (snd r) = before)
  /\ count is_host_close (snd r) = 1%nat
  /\ exists t0,
       snd r = t0 ++ [EvSpiceChannelDisconnect; EvStopEventListening;
                      EvUsbredirhostClose (host_open_ret a);
                      EvLibusbUnrefDevice dev].
Proof.
  intros Hs Hc Hd Hrc Hh Hl Hq r. subst r.
  unfold connect_and_disconnect. rewrite app_assoc, run_app.
  destruct (connected_phase priv ctx dev cancellable callback user_data
              helper_new a Hs Hc Hd Hrc Hh Hl Hq)
    as (Hst & Hho & Hdev & Hrefs & Hclose).
  set (r1 := run priv _) in *.
  destruct r1 as [p1 t1]. cbn [fst snd] in *.
  assert (Hrest :
    run p1 ((if up then [OpChannelUp] else []) ++ [OpDisconnect])
    = (set_state STATE_DISCONNECTED
         (set_context NULL (set_device NULL (set_host NULL p1))),
       (if up then [EvUsbredirhostWriteGuestData (host_open_ret a)]
        else [])
       ++ [EvLog G_LOG_DEBUG "disconnecting usb channel";
           EvSpiceChannelDisconnect; EvStopEventListening;
           EvUsbredirhostClose (host_open_ret a);
           EvLibusbUnrefDevice dev])).
  { destruct up; simpl.
    - unfold spice_usbredir_channel_up. rewrite Hst. cbn.
      unfold spice_usbredir_channel_disconnect. cbn.
      rewrite Hho, Hdev. reflexivity.
    - unfold spice_usbredir_channel_disconnect. rewrite Hst, Hho, Hdev.
      reflexivity. }
  rewrite Hrest. cbn [fst snd].
  repeat split.
  - intros d before. destruct (Hrefs d) as [Hr Hu].
    unfold refcount_after. rewrite !count_app, Hr, Hu.
    assert (Hup : forall f,
              f = is_ref d \/ f = is_unref d ->
              count f (if up
                       then [EvUsbredirhostWriteGuestData (host_open_ret a)]
                       else []) = O)
      by (intros f [->| ->]; destruct up; reflexivity).
    rewrite !Hup by auto. unfold count. simpl.
    destruct (d =? dev); simpl; lia.
  - rewrite !count_app, Hclose. destruct up; reflexivity.
  - exists (t1 ++ (if up
                   then [EvUsbredirhostWriteGuestData (host_open_ret a)]
                   else [])
            ++ [EvLog G_LOG_DEBUG "disconnecting usb channel"]).
    rewrite <- !app_assoc. reflexivity.
Qed.

(** ** Completions *)

(** X5.  The completion of a connect is scheduled exactly once.  A
    connect_async call with a non-null context and device schedules one
    completion itself, except when it goes to wait for the acl helper
    (USE_POLKIT, from STATE_DISCONNECTED), where it schedules none; and
    the completion callback of the awaited helper schedules exactly
    one, whatever the grant and the device opening come to. *)
Theorem completion_scheduled_once :
  (forall (priv : SpiceUsbredirChannelPrivate)
          (ctx dev cancellable callback user_data helper_new : pointer)
          (a : open_answers),
      ctx <> NULL -> dev <> NULL ->
      count is_completion
        (snd (spice_usbredir_channel_connect_async priv ctx dev
                cancellable callback user_data helper_new a))
      = if USE_POLKIT && state_eqb (state priv) STATE_DISCONNECTED
        then O else 1%nat)
  /\ (forall (p : SpiceUsbredirChannelPrivate) (dev h : pointer)
             (r : GSimpleAsyncResult) (acl_res : option GError)
             (a : open_answers),
        grant_pending dev h r p ->
        count is_completion
          (snd (spice_usbredir_channel_open_acl_cb p h acl_res a))
        = 1%nat).
Proof.
  split.
  - intros priv ctx dev cn cb ud h a Hc Hd.
    unfold spice_usbredir_channel_connect_async.
    apply Z.eqb_neq in Hc, Hd. rewrite Hc, Hd.
    destruct (state_eqb (state priv) STATE_DISCONNECTED) eqn:Hs;
      cbn [negb]; [|rewrite andb_false_r; reflexivity].
    rewrite andb_true_r. destruct USE_POLKIT; [reflexivity|].
    destruct (spice_usbredir_channel_open_device _ _ _)
      as [[[ok p'] err'] t] eqn:E.
    destruct (open_device_outcome _ _ _ _ _ _ _ E) as (_ & Ht & _ & _).
    destruct (no_ref_traffic_count t Ht) as [_ Hcomp].
    destruct ok; cbn [negb snd].
    + rewrite count_completions.
      change (EvLog G_LOG_DEBUG "connecting usb channel"
              :: EvLibusbRefDevice dev :: ?x)
        with ([EvLog G_LOG_DEBUG "connecting usb channel";
               EvLibusbRefDevice dev] ++ x).
      rewrite !completions_app, Hcomp. reflexivity.
    + pose proof (take_error_logs
                    (Some {| res_callback := cb; res_user_data := ud;
                             res_error := None |}) err') as Hl.
      assert (Hsome : exists r1,
                fst (g_simple_async_result_take_error
                       (Some {| res_callback := cb; res_user_data := ud;
                                res_error := None |}) err') = Some r1)
        by (destruct err'; simpl; eauto).
      destruct (g_simple_async_result_take_error _ err') as [r1 tt].
      cbn [fst snd] in *. destruct Hsome as [r1' ->].
      apply only_logs_no_ref, no_ref_traffic_count in Hl.
      destruct Hl as [_ Hl].
      rewrite count_completions.
      change (EvLog G_LOG_DEBUG "connecting usb channel"
              :: EvLibusbRefDevice dev :: ?x)
        with ([EvLog G_LOG_DEBUG "connecting usb channel";
               EvLibusbRefDevice dev] ++ x).
      rewrite !completions_app, Hcomp, Hl. reflexivity.
  - intros p dev h r acl_res a (Hs & Hd & Hh & Hr & He).
    unfold spice_usbredir_channel_open_acl_cb.
    rewrite Hh, Z.eqb_refl. cbn [negb].
    assert (Hg : negb (state_eqb (state p) STATE_WAITING_FOR_ACL_HELPER
                       || state_eqb (state p) STATE_DISCONNECTING)
                 = false)
      by (destruct Hs as [Hs|Hs]; rewrite Hs; reflexivity).
    rewrite Hg.
    assert (Hone : forall (q : SpiceUsbredirChannelPrivate) (e : GError) t,
              result q = Some r -> no_ref_traffic t ->
              count is_completion
                (t ++ (snd (g_simple_async_result_take_error
                              (result q) (Some e))
                       ++ [EvLibusbUnrefDevice (device q)])
                 ++ [EvAclHelperCloseAcl (acl_helper q);
                     EvInhibitKeyboardGrab false]
                 ++ g_simple_async_result_complete_in_idle
                      (fst (g_simple_async_result_take_error
                              (result q) (Some e)))) = 1%nat).
    { intros q e t Hq Ht. rewrite Hq.
      cbn [g_simple_async_result_take_error fst snd
           g_simple_async_result_complete_in_idle].
      destruct (no_ref_traffic_count t Ht) as [_ Hc].
      rewrite count_completions, completions_app, Hc. reflexivity. }
    destruct acl_res as [e|]; cbn [fst snd].
    { pose proof (Hone p e [] Hr (Forall_nil _)) as D.
      destruct (g_simple_async_result_take_error (result p) (Some e))
        as [res tt]. exact D. }
    destruct (state_eqb (state p) STATE_DISCONNECTING).
    { pose proof (Hone p cancelled_error [] Hr (Forall_nil _)) as D.
      unfold cancelled_error in D.
      destruct (g_simple_async_result_take_error (result p) _)
        as [res tt]. exact D. }
    destruct (spice_usbredir_channel_open_device p None a)
      as [[[ok p'] err'] t] eqn:E.
    destruct (open_device_outcome _ _ _ _ _ _ _ E)
      as ((_ & _ & _ & _ & Hres & _) & Ht & _ & _).
    assert (Hr' : result p' = Some r) by congruence.
    destruct err' as [e|].
    + pose proof (Hone p' e t Hr' Ht) as D.
      destruct (g_simple_async_result_take_error (result p') (Some e))
        as [res tt]. exact D.
    + cbn [fst snd result set_result set_acl_helper
           g_simple_async_result_complete_in_idle].
      rewrite Hr'.
      destruct (no_ref_traffic_count t Ht) as [_ Hc].
      rewrite count_completions, completions_app, Hc. reflexivity.
Qed.

(** ** The access grant while the connect still waits *)

(** X6.  When the completion callback of the channel's acl helper runs in
    STATE_WAITING_FOR_ACL_HELPER and the grant failed with an error, the
    device is not opened: the callback drops the device reference, clears
    device and context, goes to STATE_DISCONNECTED, closes the helper,
    switches keyboard-grab inhibition off and schedules the pending
    completion with the grant's error. *)
Theorem open_acl_cb_grant_failed
    (priv : SpiceUsbredirChannelPrivate) (e : GError) (a : open_answers)
    (r : GSimpleAsyncResult) :
  state priv = STATE_WAITING_FOR_ACL_HELPER ->
  result priv = Some r ->
  spice_usbredir_channel_open_acl_cb priv (acl_helper priv) (Some e) a
  = ({| context := NULL; device := NULL; host := host priv;
        catch_error := catch_error priv; read_buf := read_buf priv;
        read_buf_size := read_buf_size priv;
        state := STATE_DISCONNECTED; result := None;
        acl_helper := NULL |},
     [EvLibusbUnrefDevice (device priv);
      EvAclHelperCloseAcl (acl_helper priv);
      EvInhibitKeyboardGrab false;
      EvCompleteInIdle {| res_callback := res_callback r;
                          res_user_data := res_user_data r;
                          res_error := Some e |}]).
Proof.
  intros Hs Hr.
  unfold spice_usbredir_channel_open_acl_cb.
  rewrite Z.eqb_refl, Hs. simpl. rewrite Hr. reflexivity.
Qed.

(** X7.  With USE_POLKIT, when the completion callback of the channel's
    acl helper runs in STATE_WAITING_FOR_ACL_HELPER, the grant was given
    and the device opening succeeds, the channel goes to STATE_CONNECTING
    with the new engine and keeps device and context; no device reference
    is dropped; pending result and helper are cleared; and the callback
    ends by closing the helper, switching keyboard-grab inhibition off and
    scheduling the pending completion, which reports success.  The
    channel-up notification then brings the channel to STATE_CONNECTED. *)
Theorem open_acl_cb_grant_given
    (priv : SpiceUsbredirChannelPrivate) (r : GSimpleAsyncResult)
    (a : open_answers) :
  USE_POLKIT = true ->
  state priv = STATE_WAITING_FOR_ACL_HELPER ->
  result priv = Some r ->
  res_error r = None ->
  libusb_open_rc a = 0 ->
  host_open_ret a <> NULL ->
  start_listening_error a = None ->
  quiet_on_success a ->
  let done :=
    spice_usbredir_channel_open_acl_cb priv (acl_helper priv) None a in
  state (fst done) = STATE_CONNECTING
  /\ host (fst done) = host_open_ret a
  /\ device (fst done) = device priv /\ context (fst done) = context priv
  /\ result (fst done) = None /\ acl_helper (fst done) = NULL
  /\ count is_any_unref (snd done) = O
  /\ completions (snd done) = [r]
  /\ (exists t0,
        snd done = t0 ++ [EvAclHelperCloseAcl (acl_helper priv);
                          EvInhibitKeyboardGrab false;
                          EvCompleteInIdle r])
  /\ state (fst (spice_usbredir_channel_up (fst done))) = STATE_CONNECTED.
Proof.
  intros HP Hs Hr He Hrc Hh Hl Hq done. subst done.
  destruct (open_acl_cb_success priv r a HP Hs Hr Hrc Hh Hl Hq)
    as (p1 & tlog & E & Hlog & Hst & Hho & Hdev & Hctx & Hres & Hacl).
  rewrite E. cbn [fst snd].
  pose proof (only_logs_count is_any_unref tlog
                (fun _ _ => eq_refl) Hlog) as Hu.
  pose proof (only_logs_no_ref tlog Hlog) as Hn.
  destruct (no_ref_traffic_count tlog Hn) as [_ Hc].
  repeat split; auto.
  - rewrite !count_app, Hu. reflexivity.
  - rewrite !completions_app, Hc. reflexivity.
  - exists ([EvLibusbOpen (device priv);
             EvUsbredirhostOpen (context priv) (libusb_open_handle a)]
            ++ tlog ++ [EvStartEventListening; EvSpiceChannelConnect]).
    rewrite <- !app_assoc. reflexivity.
  - unfold spice_usbredir_channel_up. rewrite Hst. reflexivity.
Qed.

(** ** Failures of the device opening *)

Lemma engine_open_logs_first_error (logs : list (Z * string)) :
  forall (p : SpiceUsbredirChannelPrivate) (slot : GError_slot),
    catch_error p = Some slot ->
    catch_error (fst (engine_open_logs p logs))
    = Some (match slot with
            | Some e => Some e
            | None =>
                option_map
                  (fun msg => {| error_code := SPICE_CLIENT_ERROR_FAILED;
                                 error_message := msg |})
                  (first_error logs)
            end)
    /\ count is_critical (snd (engine_open_logs p logs)) = O.
Proof.
  induction logs as [|[level msg] rest IH]; intros p slot Hc.
  - simpl. split; [|reflexivity]. rewrite Hc. now destruct slot.
  - cbn [engine_open_logs first_error]. unfold usbredir_log. rewrite Hc.
    destruct (level =? usbredirparser_error) eqn:Hl.
    + destruct slot as [e|]; cbn [g_set_error].
      * destruct (IH (set_catch_error (Some (Some e)) p) (Some e) eq_refl)
          as [I1 I2].
        destruct (engine_open_logs _ rest) as [p2 t2].
        cbn [fst snd] in *. split; [exact I1|].
        change (count is_critical
                  ([EvLog G_LOG_DEBUG msg;
                    EvLog G_LOG_WARNING
                      "GError set over the top of a previous GError"]
                   ++ t2) = O).
        rewrite count_app, I2. reflexivity.
      * destruct (IH (set_catch_error
                        (Some (Some {| error_code :=
                                         SPICE_CLIENT_ERROR_FAILED;
                                       error_message := msg |})) p)
                    (Some {| error_code := SPICE_CLIENT_ERROR_FAILED;
                             error_message := msg |}) eq_refl)
          as [I1 I2].
        destruct (engine_open_logs _ rest) as [p2 t2].
        cbn [fst snd] in *. split; [exact I1|].
        change (count is_critical ([EvLog G_LOG_DEBUG msg] ++ t2) = O).
        rewrite count_app, I2. reflexivity.
    + destruct (IH p slot Hc) as [I1 I2].
      destruct (level =? usbredirparser_warning);
        destruct (engine_open_logs p rest) as [p2 t2];
        cbn [fst snd] in *; (split; [exact I1|]).
      * change (count is_critical ([EvLog G_LOG_WARNING msg] ++ t2) = O).
        rewrite count_app, I2. reflexivity.
      * change (count is_critical ([EvLog G_LOG_DEBUG msg] ++ t2) = O).
        rewrite count_app, I2. reflexivity.
Qed.

(** X8.  How the device opening fails.  Outside STATE_DISCONNECTED (and,
    with USE_POLKIT, STATE_WAITING_FOR_ACL_HELPER) it is refused with a
    critical message before any call is made.  When [libusb_open] fails,
    the error names the libusb error and its code, and no engine is
    constructed.  When the engine is constructed but event listening does
    not start, that very engine is closed again, the engine pointer is
    null, the catch-error slot is disarmed and the channel is never asked
    to connect; the error returned is the first error-level message the
    engine logged while it was constructed, if it logged one, and GLib
    then warns that the error of event listening is dropped; otherwise it
    is the error event listening reported.  In all three cases the state
    is unchanged. *)
Theorem open_device_failure_cleanup
    (p : SpiceUsbredirChannelPrivate) (a : open_answers) :
  (state p <> STATE_DISCONNECTED ->
   (USE_POLKIT = true -> state p <> STATE_WAITING_FOR_ACL_HELPER) ->
   forall err,
   exists expr,
     spice_usbredir_channel_open_device p err a
     = (false, p, err, [EvLog G_LOG_CRITICAL expr]))
  /\ (state p = STATE_DISCONNECTED
      \/ (USE_POLKIT = true /\ state p = STATE_WAITING_FOR_ACL_HELPER) ->
      (libusb_open_rc a <> 0 ->
       spice_usbredir_channel_open_device p None a
       = (false, p,
          Some {| error_code := SPICE_CLIENT_ERROR_FAILED;
                  error_message :=
                    "Could not open usb device: "
                    ++ spice_usb_device_manager_libusb_strerror
                         (libusb_open_rc a)
                    ++ " [" ++ string_of_Z (libusb_open_rc a) ++ "]" |},
          [EvLibusbOpen (device p)]))
      /\ (libusb_open_rc a = 0 ->
          host_open_ret a <> NULL ->
          forall e, start_listening_error a = Some e ->
          exists tlog,
            only_logs tlog
            /\ spice_usbredir_channel_open_device p None a
               = (false, set_catch_error None (set_host NULL p),
                  Some (match first_error (host_open_logs a) with
                        | Some msg =>
                            {| error_code := SPICE_CLIENT_ERROR_FAILED;
                               error_message := msg |}
                        | None => e
                        end),
                  [EvLibusbOpen (device p);
                   EvUsbredirhostOpen (context p) (libusb_open_handle a)]
                  ++ tlog
                  ++ [EvStartEventListening]
                  ++ match first_error (host_open_logs a) with
                     | Some _ =>
                         [EvLog G_LOG_WARNING
                            "GError set over the top of a previous GError"]
                     | None => []
                     end
                  ++ [EvUsbredirhostClose (host_open_ret a)])
            /\ state (set_catch_error None (set_host NULL p)) = state p
            /\ host (set_catch_error None (set_host NULL p)) = NULL)).
Proof.
  split.
  - intros Hs Hw err. unfold spice_usbredir_channel_open_device.
    assert (Hg : state_eqb (state p) STATE_DISCONNECTED
                 || USE_POLKIT
                    && state_eqb (state p) STATE_WAITING_FOR_ACL_HELPER
                 = false).
    { apply state_eqb_neq in Hs. rewrite Hs. cbn [orb].
      destruct USE_POLKIT; [|reflexivity].
      specialize (Hw eq_refl). apply state_eqb_neq in Hw. now rewrite Hw. }
    rewrite Hg. cbn [negb]. unfold return_if_fail_warning. eauto.
  - intro Hs.
    assert (Hg : state_eqb (state p) STATE_DISCONNECTED
                 || USE_POLKIT
                    && state_eqb (state p) STATE_WAITING_FOR_ACL_HELPER
                 = true).
    { destruct Hs as [Hs|[Hp Hs]]; rewrite Hs; [reflexivity|].
      rewrite Hp. reflexivity. }
    split.
    + intro Hrc. unfold spice_usbredir_channel_open_device.
      rewrite Hg. cbn [negb].
      apply Z.eqb_neq in Hrc. rewrite Hrc. reflexivity.
    + intros Hrc Hh e Hl.
      unfold spice_usbredir_channel_open_device.
      rewrite Hg, Hrc. cbn [negb Z.eqb].
      match goal with
      | |- context [engine_open_logs ?q ?l] =>
          destruct (engine_open_logs_armed l q None eq_refl)
            as (s1 & tl & E & L & _);
          destruct (engine_open_logs_first_error l q None eq_refl)
            as [F1 _]
      end.
      rewrite E in F1. cbn [fst catch_error set_catch_error] in F1.
      inversion F1 as [F]. clear F1.
      exists tl. split; [exact L|]. split; [|split; reflexivity].
      rewrite E.
      cbn [catch_error set_host set_catch_error host].
      apply Z.eqb_neq in Hh. rewrite Hh, Hl.
      destruct (first_error (host_open_logs a)) as [msg|];
        cbn in F; subst s1; cbn [g_set_error];
        match goal with
        | |- (_, ?q, _, _) = _ =>
            replace q with (set_catch_error None (set_host NULL p))
              by (destruct p; reflexivity)
        end;
        cbn; rewrite <- ?app_assoc; reflexivity.
Qed.

(** X9.  What the caller learns when the engine is not constructed.  The
    error-level messages the engine logs while it is being constructed
    are kept out of the critical log, and the error returned carries the
    text of the first of them.  When the engine logged no error-level
    message, no error is returned and the defect is reported with a
    critical message.  In both cases the engine pointer is null, the
    catch-error slot is disarmed again and event listening is not
    started. *)
Theorem open_device_reports_first_engine_error
    (p : SpiceUsbredirChannelPrivate) (a : open_answers) :
  catch_error p = None ->
  state p = STATE_DISCONNECTED
  \/ (USE_POLKIT = true /\ state p = STATE_WAITING_FOR_ACL_HELPER) ->
  libusb_open_rc a = 0 ->
  host_open_ret a = NULL ->
  exists tlog,
    only_logs tlog /\ count is_critical tlog = O
    /\ match first_error (host_open_logs a) with
       | Some msg =>
           spice_usbredir_channel_open_device p None a
           = (false, set_host NULL p,
              Some {| error_code := SPICE_CLIENT_ERROR_FAILED;
                      error_message := msg |},
              [EvLibusbOpen (device p);
               EvUsbredirhostOpen (context p) (libusb_open_handle a)]
              ++ tlog)
       | None =>
           exists expr,
             spice_usbredir_channel_open_device p None a
             = (false, set_host NULL p, None,
                [EvLibusbOpen (device p);
                 EvUsbredirhostOpen (context p) (libusb_open_handle a)]
                ++ tlog ++ [EvLog G_LOG_CRITICAL expr])
       end.
Proof.
  intros Hc Hs Hrc Hh.
  assert (Hg : state_eqb (state p) STATE_DISCONNECTED
               || USE_POLKIT
                  && state_eqb (state p) STATE_WAITING_FOR_ACL_HELPER
               = true).
  { destruct Hs as [Hs|[Hp Hs]]; rewrite Hs; [reflexivity|].
    rewrite Hp. reflexivity. }
  unfold spice_usbredir_channel_open_device.
  rewrite Hg, Hrc, Hh. cbn [negb Z.eqb].
  match goal with
  | |- context [engine_open_logs ?q ?l] =>
      destruct (engine_open_logs_armed l q None eq_refl)
        as (s1 & tl & E & L & _);
      destruct (engine_open_logs_first_error l q None eq_refl)
        as [F1 F2]
  end.
  rewrite E in F1, F2. cbn [fst snd catch_error set_catch_error] in F1, F2.
  inversion F1 as [F]. clear F1.
  exists tl. split; [exact L|]. split; [exact F2|].
  destruct (first_error (host_open_logs a)) as [msg|]; cbn in F; subst s1.
  - rewrite E. cbn [catch_error set_host set_catch_error host Z.eqb NULL].
    match goal with
    | |- (_, ?q, _, _) = _ =>
        replace q with (set_host NULL p)
          by (destruct p; simpl in *; subst; reflexivity)
    end.
    reflexivity.
  - eexists. rewrite E.
    cbn [catch_error set_host set_catch_error host Z.eqb NULL].
    match goal with
    | |- (_, ?q, _, _) = _ =>
        replace q with (set_host NULL p)
          by (destruct p; simpl in *; subst; reflexivity)
    end.
    unfold return_if_fail_warning.
    rewrite <- app_assoc. reflexivity.
Qed.

(** ** Dispatch by message type and the flush gate *)

Lemma to_size_t_nonneg (z : Z) :
  32 <= size_t_bits -> 0 <= z < 2 ^ 31 -> to_size_t z = z.
Proof.
  intros Hb Hz. unfold to_size_t. apply Z.mod_small.
  assert (2 ^ 31 <= 2 ^ size_t_bits) by (apply Z.pow_le_mono_r; lia).
  lia.
Qed.

Lemma to_size_t_negative (z : Z) :
  32 <= size_t_bits -> - 2 ^ 31 <= z < 0 -> 2 ^ 31 <= to_size_t z.
Proof.
  intros Hb Hz. unfold to_size_t.
  assert (H32 : 2 ^ 32 <= 2 ^ size_t_bits)
    by (apply Z.pow_le_mono_r; lia).
  assert (E : 2 ^ 32 = 2 * 2 ^ 31) by reflexivity.
  rewrite <- (Z.mod_add z 1 (2 ^ size_t_bits)) by lia.
  rewrite Z.mod_small; lia.
Qed.

(** X10.  Dispatch by message type never reads outside the handler table.
    A message of the redirection-data type goes to [usbredir_handle_msg];
    a message of a smaller non-negative type goes to the parent class's
    handler and leaves the channel alone (without such a handler it is
    reported as a defect); a message whose type is negative or beyond the
    table is refused with a critical message, and neither handler
    runs. *)
Theorem handle_msg_dispatch_by_type
    (priv : SpiceUsbredirChannelPrivate) (type : Z) (msg : SpiceMsgIn)
    (script : read_script) (parent_handle_msg : bool) :
  32 <= size_t_bits ->
  0 <= SPICE_MSG_SPICEVMC_DATA < 2 ^ 31 - 1 ->
  - 2 ^ 31 <= type < 2 ^ 31 ->
  (type = SPICE_MSG_SPICEVMC_DATA ->
   spice_usbredir_handle_msg priv type msg script parent_handle_msg
   = (usbredir_handle_msg priv msg script, false))
  /\ (0 <= type < SPICE_MSG_SPICEVMC_DATA ->
      spice_usbredir_handle_msg priv type msg script parent_handle_msg
      = if parent_handle_msg then (priv, [], true)
        else (priv, [EvLog G_LOG_CRITICAL "should not be reached"], false))
  /\ (type < 0 \/ SPICE_MSG_SPICEVMC_DATA < type ->
      exists expr,
        spice_usbredir_handle_msg priv type msg script parent_handle_msg
        = (priv, [EvLog G_LOG_CRITICAL expr], false)).
Proof.
  intros Hb Hd Ht. unfold spice_usbredir_handle_msg,
    usbredir_handlers_elements, usbredir_handlers.
  split; [|split].
  - intros ->. rewrite to_size_t_nonneg by lia.
    assert (H : (SPICE_MSG_SPICEVMC_DATA <? SPICE_MSG_SPICEVMC_DATA + 1)
                = true) by (apply Z.ltb_lt; lia).
    rewrite H, Z.eqb_refl. cbn [negb].
    now destruct (usbredir_handle_msg priv msg script).
  - intro H. rewrite to_size_t_nonneg by lia.
    assert (H1 : (type <? SPICE_MSG_SPICEVMC_DATA + 1) = true)
      by (apply Z.ltb_lt; lia).
    assert (H2 : (type =? SPICE_MSG_SPICEVMC_DATA) = false)
      by (apply Z.eqb_neq; lia).
    rewrite H1, H2. reflexivity.
  - intro H.
    assert (H1 : (to_size_t type <? SPICE_MSG_SPICEVMC_DATA + 1) = false).
    { apply Z.ltb_ge. destruct H as [H|H].
      - pose proof (to_size_t_negative type Hb). lia.
      - rewrite to_size_t_nonneg by lia. lia. }
    rewrite H1. cbn [negb]. unfold return_if_fail_warning. eauto.
Qed.

(** X11.  The channel-up notification opens the flush gate.  In
    STATE_CONNECTING a write-flush request from the engine is dropped;
    after the notification the same request reaches the engine of the
    channel, and a second notification is refused with a critical message
    and changes nothing. *)
Theorem channel_up_opens_flush_gate (priv : SpiceUsbredirChannelPrivate) :
  state priv = STATE_CONNECTING ->
  let up := fst (spice_usbredir_channel_up priv) in
  usbredir_write_flush_callback priv = (priv, [])
  /\ usbredir_write_flush_callback up
     = (up, [EvUsbredirhostWriteGuestData (host priv)])
  /\ exists expr,
       spice_usbredir_channel_up up = (up, [EvLog G_LOG_CRITICAL expr]).
Proof.
  intros Hs up. subst up.
  unfold spice_usbredir_channel_up, usbredir_write_flush_callback.
  rewrite Hs. cbn. unfold return_if_fail_warning. eauto.
Qed.

(** ** The buffer view across operations *)

Lemma step_keeps_leftover (p : SpiceUsbredirChannelPrivate)
    (o : operation) :
  read_buf p <> None ->
  read_buf (fst (step p o)) = read_buf p
  /\ read_buf_size (fst (step p o)) = read_buf_size p.
Proof.
  intro Hb. destruct o; simpl.
  - unfold spice_usbredir_channel_connect_async.
    destruct (context0 =? NULL); [now split|].
    destruct (device0 =? NULL); [now split|].
    destruct (negb _); [now split|].
    destruct USE_POLKIT; [now split|].
    destruct (spice_usbredir_channel_open_device _ _ _)
      as [[[ok p'] err'] t] eqn:E.
    destruct (open_device_outcome _ _ _ _ _ _ _ E)
      as ((_ & _ & Hrb & Hrs & _) & _).
    cbn in Hrb, Hrs.
    destruct ok; cbn [negb]; [now split|].
    destruct (g_simple_async_result_take_error _ err') as [r1 tt].
    now split.
  - destruct USE_POLKIT; [|now split].
    unfold spice_usbredir_channel_open_acl_cb.
    destruct (negb (acl_helper0 =? acl_helper p)); [now split|].
    destruct (negb _); [now split|].
    destruct acl_res as [e|]; cbn [fst].
    { destruct (g_simple_async_result_take_error (result p) (Some e));
        now split. }
    destruct (state_eqb (state p) STATE_DISCONNECTING).
    { destruct (g_simple_async_result_take_error (result p) _);
        now split. }
    destruct (spice_usbredir_channel_open_device p None a)
      as [[[ok p'] err'] t] eqn:E.
    destruct (open_device_outcome _ _ _ _ _ _ _ E)
      as ((_ & _ & Hrb & Hrs & _) & _).
    destruct err' as [e|].
    + destruct (g_simple_async_result_take_error (result p') (Some e)).
      now split.
    + now split.
  - unfold spice_usbredir_channel_up. destruct (negb _); now split.
  - unfold spice_usbredir_channel_disconnect.
    destruct (state p); try (destruct USE_POLKIT); now split.
  - unfold usbredir_handle_msg.
    destruct (host p =? NULL); [now split|].
    destruct (read_buf p) eqn:Er; [|now elim Hb].
    cbn. now rewrite Er.
  - unfold usbredir_write_flush_callback. destruct (negb _); now split.
Qed.

(** X12.  Bytes an engine leaves in the buffer view stay there.  Once the
    view pointer is non-null between operations, no sequence of
    connect_async calls, helper completions, channel-up notifications,
    disconnects, inbound messages and write flushes changes the view, and
    every inbound message from then on is refused with a critical
    message. *)
Theorem leftover_blocks_dispatch (p : SpiceUsbredirChannelPrivate)
    (ops : list operation) :
  read_buf p <> None ->
  let q := fst (run p ops) in
  read_buf q = read_buf p
  /\ read_buf_size q = read_buf_size p
  /\ forall (msg : SpiceMsgIn) (script : read_script),
       exists expr,
         usbredir_handle_msg q msg script
         = (q, [EvLog G_LOG_CRITICAL expr]).
Proof.
  intros Hb q. subst q.
  assert (H : read_buf (fst (run p ops)) = read_buf p
              /\ read_buf_size (fst (run p ops)) = read_buf_size p).
  { revert p Hb. induction ops as [|o ops IH]; intros p Hb; [now split|].
    rewrite run_cons. cbn [fst].
    destruct (step_keeps_leftover p o Hb) as [H1 H2].
    destruct (IH (fst (step p o))) as [I1 I2]; [congruence|].
    split; congruence. }
  destruct H as [H1 H2]. split; [exact H1|]. split; [exact H2|].
  intros msg script. unfold usbredir_handle_msg.
  destruct (host (fst (run p ops)) =? NULL).
  - unfold return_if_fail_warning. eauto.
  - rewrite H1. destruct (read_buf p); [|now elim Hb].
    unfold return_if_fail_warning. cbn. eauto.
Qed.

(** An engine that asks for a positive chunk until a read returns nothing
    asks for non-negative counts and, with fuel for one read more than
    there are bytes, gets to the read that returns nothing. *)
Lemma script_drain_reads_until_empty (chunk : Z) (fuel : nat) :
  0 < chunk ->
  forall (rest : list Byte.byte) (p : SpiceUsbredirChannelPrivate),
    view_holds rest p ->
    (List.length rest < fuel)%nat ->
    Forall nonneg_request
      (snd (usbredirhost_read_guest_data (script_drain fuel chunk) p))
    /\ read_until_empty
         (snd (usbredirhost_read_guest_data (script_drain fuel chunk) p)).
Proof.
  intro Hc. induction fuel as [|fuel IH]; intros rest p Hv Hf; [lia|].
  cbn [script_drain usbredirhost_read_guest_data].
  destruct (usbredir_read_callback p chunk) as [[p1 ret] copied] eqn:E.
  destruct (read_callback_exact rest p chunk Hv (Z.lt_le_incl _ _ Hc)
              _ _ _ E)
    as (Hret & Hpos & _ & _ & _ & Hv1 & _ & _).
  destruct (Z.leb_spec ret 0) as [Hz|Hz].
  - assert (ret = 0) by lia. subst ret.
    cbn [usbredirhost_read_guest_data snd]. split.
    + constructor; [simpl; lia|constructor].
    + exists chunk, copied. split; [exact Hc|].
      left. congruence.
  - destruct Hv as [Hn _].
    assert (Hlt : (List.length (skipn (Z.to_nat ret) rest) < fuel)%nat).
    { rewrite length_skipn. lia. }
    destruct (IH _ p1 Hv1 Hlt) as [I1 I2].
    destruct (usbredirhost_read_guest_data (script_drain fuel chunk) p1)
      as [p2 t2].
    cbn [snd] in *. split.
    + constructor; [simpl; lia|exact I1].
    + destruct I2 as (c0 & cp & Hc0 & Hin).
      exists c0, cp. split; [exact Hc0|now right].
Qed.

(** X13.  An engine that keeps asking the read callback for a positive
    number of bytes until a read returns nothing receives the payload of
    the message, whole and in order, however the chunk size divides it;
    the returned counts add up to the payload length and the buffer view
    is empty afterwards, so the next message is let in. *)
Theorem drain_delivers_payload
    (priv : SpiceUsbredirChannelPrivate) (msg : SpiceMsgIn)
    (chunk : Z) (fuel : nat) :
  host priv <> NULL ->
  read_buf priv = None ->
  msg_wf msg ->
  0 < chunk ->
  (List.length (payload msg) < fuel)%nat ->
  let dispatched :=
    usbredir_handle_msg priv msg (script_drain fuel chunk) in
  bytes_copied (snd dispatched) = payload msg
  /\ sum_returns (snd dispatched) = msg_dpos msg
  /\ read_buf (fst dispatched) = None
  /\ read_buf_size (fst dispatched) = 0.
Proof.
  intros Hh Hb Hwf Hc Hf dispatched. subst dispatched.
  unfold usbredir_handle_msg.
  apply Z.eqb_neq in Hh. rewrite Hh, Hb. cbn [is_null negb].
  unfold spice_msg_in_raw.
  set (p1 := set_read_buf (msg_data msg) (msg_dpos msg) priv).
  assert (Hv : view_holds (payload msg) p1).
  { unfold view_holds, payload, msg_wf in *. subst p1.
    cbn [read_buf read_buf_size set_read_buf].
    destruct (msg_data msg) as [bytes|]; split; auto. }
  destruct (script_drain_reads_until_empty chunk fuel Hc _ p1 Hv Hf)
    as [Hnn Hue].
  pose proof (read_guest_data_exact (script_drain fuel chunk)
                (payload msg) p1 Hv Hnn) as H.
  destruct (usbredirhost_read_guest_data (script_drain fuel chunk) p1)
    as [p2 t] eqn:E.
  cbn [fst snd] in *.
  destruct H as (_ & _ & S & _ & B & _ & U).
  destruct (U Hue) as [U1 U2].
  change (read_buf_size p1) with (msg_dpos msg) in S.
  cbn [sum_returns bytes_copied].
  assert (Hsum : sum_returns t = msg_dpos msg) by lia.
  split; [|repeat split; auto].
  rewrite B, Hsum. destruct Hv as [Hn _].
  change (read_buf_size p1) with (msg_dpos msg) in Hn.
  rewrite Hn, Nat2Z.id. apply firstn_all.
Qed.

(** ** The engine while the channel connects *)

Lemma step_keeps_engine_present (p : SpiceUsbredirChannelPrivate)
    (o : operation) :
  engine_when_connected p -> engine_when_connected (fst (step p o)).
Proof.
  intro I. destruct o; simpl.
  - unfold spice_usbredir_channel_connect_async.
    destruct (context0 =? NULL); [exact I|].
    destruct (device0 =? NULL); [exact I|].
    destruct (negb (state_eqb (state p) STATE_DISCONNECTED)) eqn:Hs;
      [exact I|].
    apply negb_false_iff, state_eqb_eq in Hs.
    destruct USE_POLKIT.
    + cbn. intros [H|H]; discriminate.
    + destruct (spice_usbredir_channel_open_device _ _ _)
        as [[[ok p'] err'] t] eqn:E.
      destruct (open_device_outcome _ _ _ _ _ _ _ E)
        as (_ & _ & Hok & Hko).
      destruct ok; cbn [negb].
      * destruct (Hok eq_refl) as (Hst & Hho & Hn & _).
        intros _. cbn. now rewrite Hho.
      * destruct (Hko eq_refl) as (Hst & _). cbn in Hst.
        destruct (g_simple_async_result_take_error _ err') as [r1 tt].
        unfold engine_when_connected. cbn. rewrite Hst, Hs.
        intros [H|H]; discriminate.
  - destruct USE_POLKIT; [|exact I].
    unfold spice_usbredir_channel_open_acl_cb.
    destruct (negb (acl_helper0 =? acl_helper p)); [exact I|].
    destruct (negb _) eqn:Hs; [exact I|].
    apply negb_false_iff, orb_true_iff in Hs.
    destruct acl_res as [e|]; cbn.
    { destruct (g_simple_async_result_take_error (result p) (Some e))
        as [res t]. cbn. intros [H|H]; discriminate. }
    destruct (state_eqb (state p) STATE_DISCONNECTING) eqn:Hd; cbn.
    { destruct (g_simple_async_result_take_error (result p) _)
        as [res t]. cbn. intros [H|H]; discriminate. }
    destruct (spice_usbredir_channel_open_device p None a)
      as [[[ok p'] err'] t] eqn:E.
    destruct (open_device_outcome _ _ _ _ _ _ _ E) as (_ & _ & Hok & Hko).
    destruct err' as [e|]; cbn.
    + destruct (g_simple_async_result_take_error (result p') (Some e))
        as [res t']. cbn. intros [H|H]; discriminate.
    + destruct ok.
      * destruct (Hok eq_refl) as (Hst & Hho & Hn & _).
        unfold engine_when_connected. cbn. now rewrite Hho.
      * destruct (Hko eq_refl) as (Hst & _).
        assert (Hw : state p' = STATE_WAITING_FOR_ACL_HELPER).
        { rewrite Hst. destruct Hs as [Hs|Hs].
          - now apply state_eqb_eq in Hs.
          - rewrite Hs in Hd. discriminate. }
        unfold engine_when_connected. cbn. rewrite Hw.
        intros [H|H]; discriminate.
  - unfold spice_usbredir_channel_up.
    destruct (negb _) eqn:Hs; [exact I|].
    apply negb_false_iff, state_eqb_eq in Hs.
    unfold engine_when_connected in *. cbn. intros _. apply I. auto.
  - unfold spice_usbredir_channel_disconnect.
    destruct (state p) eqn:Hs; try exact I;
      try (unfold engine_when_connected; cbn;
           intros [H|H]; discriminate).
    destruct USE_POLKIT; [|exact I].
    unfold engine_when_connected. cbn. intros [H|H]; discriminate.
  - destruct (handle_msg_shape p msg script) as (b & n & t & E & _).
    rewrite E. exact I.
  - unfold usbredir_write_flush_callback.
    destruct (negb _); exact I.
Qed.

Lemma run_keeps_engine_present (ops : list operation) :
  forall p : SpiceUsbredirChannelPrivate,
    engine_when_connected p -> engine_when_connected (fst (run p ops)).
Proof.
  induction ops as [|o ops IH]; intros p I; [exact I|].
  rewrite run_cons. simpl. apply IH.
  now apply step_keeps_engine_present.
Qed.

(** X14.  After any sequence of connect_async calls, acl-helper
    completions, channel-up notifications, disconnects, inbound messages
    and write flushes on a new channel, whatever the engines log, a channel
    in STATE_CONNECTING or STATE_CONNECTED has an engine. *)
Theorem engine_present_while_connected (ops : list operation) :
  state (fst (run priv_init ops)) = STATE_CONNECTING
  \/ state (fst (run priv_init ops)) = STATE_CONNECTED ->
  host (fst (run priv_init ops)) <> NULL.
Proof.
  apply (run_keeps_engine_present ops priv_init).
  intros [H|H]; discriminate.
Qed.

(** ** A device opening that fails without the helper *)

Lemma open_device_refused (p : SpiceUsbredirChannelPrivate)
    (err : GError_slot) (a : open_answers) :
  open_refused a ->
  forall ok p' err' t,
    spice_usbredir_channel_open_device p err a = (ok, p', err', t) ->
    ok = false.
Proof.
  intros Hr ok p' err' t E. destruct ok; [exfalso|reflexivity].
  destruct (open_device_success_trace _ _ _ _ _ _ E) as (Hrc & Hl & _).
  destruct (open_device_outcome _ _ _ _ _ _ _ E) as (_ & _ & Hok & _).
  destruct (Hok eq_refl) as (_ & _ & Hh & _).
  destruct Hr as [Hr|[Hr|Hr]]; contradiction.
Qed.

(** X17.  Without USE_POLKIT, a connect_async call with a non-null context
    and device on a channel in STATE_DISCONNECTED whose device opening
    fails, in whichever of the three ways and whether the engine logged an
    error or not, leaves every device's reference count as it was; the
    channel stays in STATE_DISCONNECTED with no context and no device, and
    one completion is scheduled. *)
Theorem plain_connect_failure_restores_refcount
    (priv : SpiceUsbredirChannelPrivate)
    (ctx dev cancellable callback user_data helper_new : pointer)
    (a : open_answers) (d : pointer) (before : Z) :
  USE_POLKIT = false ->
  ctx <> NULL -> dev <> NULL ->
  state priv = STATE_DISCONNECTED ->
  open_refused a ->
  let failed :=
    spice_usbredir_channel_connect_async priv ctx dev cancellable callback
      user_data helper_new a in
  refcount_after before d (snd failed) = before
  /\ state (fst failed) = STATE_DISCONNECTED
  /\ context (fst failed) = NULL
  /\ device (fst failed) = NULL
  /\ count is_completion (snd failed) = 1%nat.
Proof.
  intros Hp Hc Hd Hs Hr failed. subst failed.
  unfold spice_usbredir_channel_connect_async.
  apply Z.eqb_neq in Hc, Hd. rewrite Hc, Hd, Hs, Hp. cbn [state_eqb negb].
  destruct (spice_usbredir_channel_open_device _ _ _)
    as [[[ok p'] err'] t] eqn:E.
  rewrite (open_device_refused _ _ _ Hr _ _ _ _ E). cbn [negb].
  destruct (open_device_outcome _ _ _ _ _ _ _ E)
    as ((_ & Hdev & _) & Ht & _ & Hko).
  rewrite (open_device_refused _ _ _ Hr _ _ _ _ E) in Hko.
  destruct (Hko eq_refl) as (Hst & _). cbn in Hst, Hdev.
  pose proof (no_ref_traffic_count t Ht) as [Hcnt Hcomp].
  pose proof (take_error_logs
                (Some {| res_callback := callback;
                         res_user_data := user_data;
                         res_error := None |}) err') as Hl.
  destruct (g_simple_async_result_take_error _ err') as [r1 tt] eqn:Et.
  cbn [fst snd] in *.
  assert (Hr1 : exists r, r1 = Some r).
  { destruct err'; simpl in Et; inversion Et; eauto. }
  destruct Hr1 as [r ->].
  split; [|split; [|split; [|split]]].
  - apply only_logs_no_ref, no_ref_traffic_count in Hl.
    destruct Hl as [Hl _]. destruct (Hl d) as [Hl1 Hl2].
    destruct (Hcnt d) as [Hc1 Hc2].
    unfold refcount_after. rewrite Hdev.
    change (EvLog G_LOG_DEBUG "connecting usb channel"
            :: EvLibusbRefDevice dev :: ?x)
      with ([EvLog G_LOG_DEBUG "connecting usb channel"]
            ++ [EvLibusbRefDevice dev] ++ x).
    rewrite !count_app, Hl1, Hl2, Hc1, Hc2, (count_ref_one d dev).
    unfold count. simpl. destruct (d =? dev); simpl; lia.
  - cbn. rewrite Hst. exact Hs.
  - reflexivity.
  - reflexivity.
  - change (EvLog G_LOG_DEBUG "connecting usb channel"
            :: EvLibusbRefDevice dev :: ?x)
      with ([EvLog G_LOG_DEBUG "connecting usb channel";
             EvLibusbRefDevice dev] ++ x).
    rewrite !count_app, !count_completions.
    rewrite Hcomp. apply only_logs_no_ref, no_ref_traffic_count in Hl.
    destruct Hl as [_ Hl]. rewrite Hl. reflexivity.
Qed.

End Channel.

(** * The properties on sample runs *)

(** The operations at the sample values of the absent constants, with and
    without the access-control helper compiled in. *)
Abbreviation run_polkit :=
  (run true sample_error_level sample_warning_level sample_bus_number
     sample_device_address sample_strerror).
Abbreviation run_plain :=
  (run false sample_error_level sample_warning_level sample_bus_number
     sample_device_address sample_strerror).
Abbreviation connect_polkit :=
  (spice_usbredir_channel_connect_async true sample_error_level
     sample_warning_level sample_bus_number sample_device_address
     sample_strerror).
Abbreviation connect_plain :=
  (spice_usbredir_channel_connect_async false sample_error_level
     sample_warning_level sample_bus_number sample_device_address
     sample_strerror).
Abbreviation open_acl_cb_polkit :=
  (spice_usbredir_channel_open_acl_cb true sample_error_level
     sample_warning_level sample_strerror).

(** *** Write flush (C9) *)

Lemma write_flush_noop_unless_connected_witness :
  let p := fst (run_plain priv_init [connect_op answers_ok]) in
  state p = STATE_CONNECTING
  /\ usbredir_write_flush_callback p = (p, []).
Proof.
  split; [reflexivity|].
  apply write_flush_noop_unless_connected. vm_compute. discriminate.
Defined.

(** *** Write callback (C10) *)

Lemma write_callback_accepts_whole_buffer_witness :
  usbredir_write_callback sample_data_type 64 priv_init 80 512
  = (512,
     [EvMsgOutSend
        {| out_type := sample_data_type;
           out_refs := [ {| ref_data := 80; ref_len := 512;
                            ref_free := Some FREE_WRITE_CB_DATA |} ] |}])
  /\ call_free_func (Some FREE_WRITE_CB_DATA) 80
       (fst (run_plain priv_init [connect_op answers_ok]))
     = [EvUsbredirhostFreeWriteBuffer 40 80].
Proof.
  destruct (write_callback_accepts_whole_buffer sample_data_type 64
              priv_init 80 512)
    as (item & E & Hdata & _ & Hfree & Hrel & _ & Hlen).
  assert (Hl : ref_len item = 512) by (apply Hlen; lia).
  split.
  - rewrite E. destruct item as [d l f]. simpl in *. now subst.
  - rewrite <- Hfree. rewrite <- Hdata at 1. apply Hrel.
Defined.

(** *** Rejected dispatch (C7) *)

Lemma handle_msg_rejects_loudly_witness :
  let p := fst (run_plain priv_init
                  [connect_op answers_ok; OpChannelUp;
                   OpHandleMsg msg_three script_one_byte]) in
  read_buf p = Some [Byte.x02; Byte.x03]
  /\ exists expr,
       usbredir_handle_msg p msg_three (script_drain 3 2)
       = (p, [EvLog G_LOG_CRITICAL expr])
       /\ count is_engine_call
            (snd (usbredir_handle_msg p msg_three (script_drain 3 2))) = O
       /\ sum_returns
            (snd (usbredir_handle_msg p msg_three (script_drain 3 2))) = 0.
Proof.
  split; [reflexivity|].
  apply handle_msg_rejects_loudly. right. vm_compute. discriminate.
Defined.

(** *** Busy rejection (C1) *)

(** With a null context the call on a busy channel returns at the argument
    check: no completion is scheduled, so no busy error is delivered. *)
Lemma connect_async_busy_counterexample :
  let p := fst (run_plain priv_init [connect_op answers_ok]) in
  state p <> STATE_DISCONNECTED
  /\ completions (snd (connect_plain p NULL 20 0 50 60 70 answers_ok)) = [].
Proof. split; [vm_compute; discriminate|reflexivity]. Qed.

Lemma connect_async_busy_witness :
  let p := fst (run_plain priv_init [connect_op answers_ok]) in
  connect_plain p 11 21 0 51 61 71 answers_ok
  = (p, [EvLog G_LOG_DEBUG "connecting usb channel";
         EvCompleteInIdle {| res_callback := 51; res_user_data := 61;
                             res_error := Some busy_error |}]).
Proof.
  apply connect_async_busy; vm_compute; discriminate.
Defined.

(** *** Disconnecting twice (C2) *)

(** While the connect waits for the acl helper, two disconnects leave the
    channel in STATE_DISCONNECTING. *)
Lemma disconnect_twice_counterexample :
  let p := fst (run_polkit priv_init [connect_op answers_ok]) in
  state p = STATE_WAITING_FOR_ACL_HELPER
  /\ state (fst (spice_usbredir_channel_disconnect true
                   (fst (spice_usbredir_channel_disconnect true p))))
     <> STATE_DISCONNECTED.
Proof. split; [reflexivity|vm_compute; discriminate]. Qed.

(** *** Access-grant completion while disconnecting (C4) *)

(** A grant that failed reports its own error, not the cancellation. *)
Lemma open_acl_cb_while_disconnecting_counterexample :
  let p := fst (run_polkit priv_init
                  [connect_op answers_ok; OpDisconnect]) in
  state p = STATE_DISCONNECTING
  /\ completions
       (snd (open_acl_cb_polkit p 70 (Some grant_error) answers_ok))
     = [ {| res_callback := 50; res_user_data := 60;
            res_error := Some grant_error |} ]
  /\ error_code grant_error <> G_IO_ERROR_CANCELLED.
Proof.
  split; [reflexivity|]. split; [reflexivity|]. vm_compute. discriminate.
Qed.

Lemma open_acl_cb_while_disconnecting_witness :
  let p := fst (run_polkit priv_init
                  [connect_op answers_ok; OpDisconnect]) in
  open_acl_cb_polkit p 70 None answers_ok
  = ({| context := NULL; device := NULL; host := NULL;
        catch_error := None; read_buf := None; read_buf_size := 0;
        state := STATE_DISCONNECTED; result := None;
        acl_helper := NULL |},
     [EvLibusbUnrefDevice 20; EvAclHelperCloseAcl 70;
      EvInhibitKeyboardGrab false;
      EvCompleteInIdle {| res_callback := 50; res_user_data := 60;
                          res_error := Some cancelled_error |}]).
Proof.
  exact (open_acl_cb_while_disconnecting true sample_error_level
           sample_warning_level sample_strerror
           (fst (run_polkit priv_init [connect_op answers_ok; OpDisconnect]))
           None answers_ok
           {| res_callback := 50; res_user_data := 60; res_error := None |}
           eq_refl eq_refl).
Defined.

(** *** Connecting without the helper (C8) *)

Lemma connect_without_acl_then_channel_up_witness :
  let connected := connect_plain priv_init 10 20 0 50 60 70 answers_ok in
  In EvStartEventListening (snd connected)
  /\ completions (snd connected)
     = [ {| res_callback := 50; res_user_data := 60; res_error := None |} ]
  /\ state (fst connected) = STATE_CONNECTING
  /\ host (fst connected) = 40
  /\ spice_usbredir_channel_up (fst connected)
     = (set_state STATE_CONNECTED (fst connected),
        [EvUsbredirhostWriteGuestData 40])
  /\ forall q : SpiceUsbredirChannelPrivate,
       state q <> STATE_CONNECTING ->
       exists expr,
         spice_usbredir_channel_up q = (q, [EvLog G_LOG_CRITICAL expr]).
Proof.
  assert (Hin : In EvStartEventListening
                  (snd (connect_plain priv_init 10 20 0 50 60 70
                          answers_ok))).
  { vm_compute. do 4 right. left. reflexivity. }
  split; [exact Hin|].
  apply (connect_without_acl_then_channel_up false sample_error_level
           sample_warning_level sample_bus_number sample_device_address
           sample_strerror priv_init 10 20 0 50 60 70 answers_ok);
    try reflexivity; exact Hin.
Defined.

(** *** Engine and state (C5) *)

(** C5.  An engine outside STATE_CONNECTING and STATE_CONNECTED.  With
    the helper compiled in, take a connect_async
    call on a new channel and the helper's completion with the grant
    given, where the engine logs an error-level message while it is
    constructed and is constructed all the same.  The device opening
    succeeds, yet the completion callback finds the logged error in its
    error slot and treats the opening as failed: the completion reports
    that error and the channel goes back to STATE_DISCONNECTED, with the
    engine still there (pointer 40), event listening started and never
    stopped, and the engine never closed.  Without the helper the same
    engine leaves the channel in STATE_CONNECTING with its engine, since
    connect_async looks at what the device opening returns. *)
Theorem engine_kept_after_reported_failure :
  let r := run_polkit priv_init
             [connect_op answers_ok;
              OpOpenAclCb 70 None answers_engine_complained] in
  let r' := run_plain priv_init [connect_op answers_engine_complained] in
  (state (fst r) = STATE_DISCONNECTED
   /\ host (fst r) = 40
   /\ completions (snd r)
      = [ {| res_callback := 50; res_user_data := 60;
             res_error :=
               Some {| error_code := SPICE_CLIENT_ERROR_FAILED;
                       error_message :=
                         "usbredirhost error: could not reset device" |}
          |} ]
   /\ count is_listening_start (snd r) = 1%nat
   /\ count is_listening_stop (snd r) = 0%nat
   /\ count is_host_close (snd r) = 0%nat)
  /\ (state (fst r') = STATE_CONNECTING /\ host (fst r') = 40).
Proof. repeat split. Qed.

(** *** Engine and state, with engines that do not complain *)

Lemma engine_exists_iff_connecting_or_connected_witness :
  let ops := [connect_op answers_ok; OpOpenAclCb 70 None answers_ok;
              OpChannelUp; OpHandleMsg msg_three (script_drain 3 2);
              OpDisconnect;
              connect_op answers_ok;
              OpOpenAclCb 70 None answers_engine_failed] in
  host (fst (run_polkit priv_init ops)) <> NULL
  <-> (state (fst (run_polkit priv_init ops)) = STATE_CONNECTING
       \/ state (fst (run_polkit priv_init ops)) = STATE_CONNECTED).
Proof.
  apply engine_exists_iff_connecting_or_connected.
  repeat (apply Forall_cons || apply Forall_nil); simpl; try exact I;
    unfold quiet_on_success; simpl; intro H;
    try (now elim H); apply Forall_nil.
Defined.

(** *** Device references (C3) *)

(** C3.  A failed acquisition that keeps its device reference.  With the
    helper compiled in, take a connect_async call on a new
    channel (device 20, reference count 1 before the call) and the
    helper's completion with the grant given, where [libusb_open] succeeds
    and the engine is not constructed and logs no error-level message.
    The device opening returns FALSE with no error set; the completion
    callback looks at the error only, so it drops no reference and reports
    no error: the reference count of the device is 2, the one completion
    carries no error, and the channel still waits for the helper, holding
    the device.  Without the helper the same failure restores the count
    to 1, since connect_async looks at what the device opening returns. *)
Theorem silent_engine_failure_keeps_reference :
  let waiting := connect_polkit priv_init 10 20 0 50 60 70 answers_ok in
  let done := open_acl_cb_polkit (fst waiting) 70 None answers_engine_silent in
  let plain :=
    connect_plain priv_init 10 20 0 50 60 70 answers_engine_silent in
  (refcount_after 1 20 (snd waiting ++ snd done) = 2
   /\ completions (snd waiting ++ snd done)
      = [ {| res_callback := 50; res_user_data := 60; res_error := None |} ]
   /\ count is_any_unref (snd waiting ++ snd done) = 0%nat
   /\ state (fst done) = STATE_WAITING_FOR_ACL_HELPER
   /\ device (fst done) = 20
   /\ host (fst done) = NULL)
  /\ (refcount_after 1 20 (snd plain) = 1
      /\ state (fst plain) = STATE_DISCONNECTED
      /\ device (fst plain) = NULL).
Proof. repeat split. Qed.

(** *** Device references on the failures that are reported *)

Lemma failed_connect_restores_refcount_witness :
  refcount_after 1 20
    (snd (connect_plain priv_init 10 20 0 50 60 70 answers_open_failed))
  = 1
  /\ (let waiting := connect_polkit priv_init 10 20 0 50 60 70 answers_ok in
      let later := run_polkit (fst waiting)
                     [OpDisconnect; connect_op answers_ok; OpDisconnect] in
      let done := open_acl_cb_polkit (fst later) 70 None answers_ok in
      refcount_after 1 20 (snd waiting ++ snd later ++ snd done) = 1).
Proof.
  split.
  - destruct (proj1 (failed_connect_restores_refcount false
                       sample_error_level sample_warning_level
                       sample_bus_number sample_device_address
                       sample_strerror)
                priv_init 10 20 0 50 60 70 answers_open_failed 20 1)
      as [Hdelivered Hrestored].
    apply Hrestored, Hdelivered.
    + vm_compute; discriminate.
    + vm_compute; discriminate.
    + right. split; [reflexivity|]. left. vm_compute. discriminate.
  - destruct (proj2 (failed_connect_restores_refcount true
                       sample_error_level sample_warning_level
                       sample_bus_number sample_device_address
                       sample_strerror) eq_refl
                priv_init 10 20 0 50 60 70 answers_ok
                [OpDisconnect; connect_op answers_ok; OpDisconnect]
                None answers_ok 20 1)
      as [Hdelivered Hrestored].
    + vm_compute; discriminate.
    + vm_compute; discriminate.
    + reflexivity.
    + repeat constructor.
    + apply Hrestored, Hdelivered. right. left. reflexivity.
Defined.

(** *** Inbound dispatch (C6) *)

(** An engine that reads one byte of a three-byte payload and returns:
    the returns add up to 1 and two bytes stay in the buffer view.  And an
    engine that does not read at all, on a message without payload: the
    returns add up to the payload length, 0, and the view keeps the
    message's pointer. *)
Lemma dispatch_drains_payload_counterexample :
  let p := fst (run_plain priv_init [connect_op answers_ok; OpChannelUp]) in
  let dispatched := usbredir_handle_msg p msg_three script_one_byte in
  let unread := usbredir_handle_msg p msg_empty ReadStop in
  (msg_dpos msg_three = 3
   /\ sum_returns (snd dispatched) = 1
   /\ read_buf (fst dispatched) = Some [Byte.x02; Byte.x03]
   /\ read_buf_size (fst dispatched) = 2)
  /\ (msg_dpos msg_empty = 0
      /\ sum_returns (snd unread) = 0
      /\ read_buf (fst unread) = Some []
      /\ read_buf_size (fst unread) = 0).
Proof. repeat split. Qed.

(** An engine that reads the three bytes in one call and returns: the
    view is empty although no read returned 0. *)
Lemma dispatch_drains_payload_witness :
  let p := fst (run_plain priv_init [connect_op answers_ok; OpChannelUp]) in
  let dispatched := usbredir_handle_msg p msg_three script_three_bytes in
  sum_returns (snd dispatched) = 3
  /\ ~ read_until_empty (snd dispatched)
  /\ read_buf (fst dispatched) = None
  /\ read_buf_size (fst dispatched) = 0.
Proof.
  destruct (dispatch_drains_payload
              (fst (run_plain priv_init [connect_op answers_ok; OpChannelUp]))
              msg_three script_three_bytes)
    as (_ & _ & _ & _ & Hfull & _).
  - vm_compute; discriminate.
  - reflexivity.
  - reflexivity.
  - vm_compute. repeat constructor; discriminate.
  - split; [reflexivity|]. split.
    + intros (c0 & cp & Hc0 & Hin). vm_compute in Hin.
      destruct Hin as [Hin|[Hin|[]]]; [discriminate|].
      inversion Hin.
    + apply Hfull; reflexivity.
Defined.

(** * The further properties on sample runs *)

Abbreviation open_device_plain :=
  (spice_usbredir_channel_open_device false sample_error_level
     sample_warning_level sample_strerror).
Abbreviation handle_msg_by_type :=
  (spice_usbredir_handle_msg sample_data_type 32).

Lemma dispose_releases_references_witness :
  let p1 :=
    fst (fst (spice_usbredir_channel_dispose true
                (fst (run_polkit priv_init [connect_op answers_ok]))
                true)) in
  state p1 = STATE_DISCONNECTING
  /\ forall (acl_res : option GError) (a : open_answers),
       let done := open_acl_cb_polkit p1 (acl_helper p1) acl_res a in
       state (fst done) = STATE_DISCONNECTED
       /\ device (fst done) = NULL
       /\ count is_any_unref (snd done) = 1%nat.
Proof.
  pose proof (dispose_releases_references true sample_error_level
                sample_warning_level sample_bus_number
                sample_device_address sample_strerror
                [connect_op answers_ok] true) as H.
  cbv zeta in H. destruct H as [_ [H|[Hs H]]].
  - repeat constructor.
  - destruct H as [Hd _]. vm_compute in Hd. discriminate.
  - split; [exact Hs|]. intros acl_res a.
    destruct (H acl_res a) as ((H1 & H2 & _) & H3 & _).
    repeat split; assumption.
Defined.

Lemma connect_disconnect_round_trip_witness :
  let r := run_polkit priv_init
             (connect_and_disconnect true 10 20 0 50 60 70 answers_ok
                true) in
  state (fst r) = STATE_DISCONNECTED
  /\ context (fst r) = NULL /\ device (fst r) = NULL
  /\ host (fst r) = NULL
  /\ refcount_after 1 20 (snd r) = 1
  /\ count is_host_close (snd r) = 1%nat.
Proof.
  pose proof (connect_disconnect_round_trip true sample_error_level
                sample_warning_level sample_bus_number
                sample_device_address sample_strerror priv_init
                10 20 0 50 60 70 answers_ok true) as H.
  cbv zeta in H.
  destruct H as (H1 & H2 & H3 & H4 & H5 & H6 & _);
    try reflexivity; try (vm_compute; discriminate).
  - intros _ _. apply Forall_nil.
  - repeat split; auto.
Defined.

Lemma completion_scheduled_once_witness :
  count is_completion
    (snd (connect_plain priv_init 10 20 0 50 60 70 answers_open_failed))
  = 1%nat
  /\ count is_completion
       (snd (open_acl_cb_polkit
               (fst (run_polkit priv_init [connect_op answers_ok]))
               70 (Some grant_error) answers_ok))
     = 1%nat.
Proof.
  split.
  - apply (proj1 (completion_scheduled_once false sample_error_level
                    sample_warning_level sample_bus_number
                    sample_device_address sample_strerror)
             priv_init 10 20 0 50 60 70 answers_open_failed);
      vm_compute; discriminate.
  - apply (proj2 (completion_scheduled_once true sample_error_level
                    sample_warning_level sample_bus_number
                    sample_device_address sample_strerror)
             (fst (run_polkit priv_init [connect_op answers_ok]))
             20 70
             {| res_callback := 50; res_user_data := 60;
                res_error := None |}).
    unfold grant_pending. repeat split. now left.
Defined.

Lemma open_acl_cb_grant_failed_witness :
  open_acl_cb_polkit (fst (run_polkit priv_init [connect_op answers_ok]))
    70 (Some grant_error) answers_ok
  = ({| context := NULL; device := NULL; host := NULL;
        catch_error := None; read_buf := None; read_buf_size := 0;
        state := STATE_DISCONNECTED; result := None;
        acl_helper := NULL |},
     [EvLibusbUnrefDevice 20; EvAclHelperCloseAcl 70;
      EvInhibitKeyboardGrab false;
      EvCompleteInIdle {| res_callback := 50; res_user_data := 60;
                          res_error := Some grant_error |}]).
Proof.
  exact (open_acl_cb_grant_failed true sample_error_level
           sample_warning_level sample_strerror
           (fst (run_polkit priv_init [connect_op answers_ok]))
           grant_error answers_ok
           {| res_callback := 50; res_user_data := 60;
              res_error := None |}
           eq_refl eq_refl).
Defined.

Lemma open_acl_cb_grant_given_witness :
  let done :=
    open_acl_cb_polkit (fst (run_polkit priv_init [connect_op answers_ok]))
      70 None answers_ok in
  state (fst done) = STATE_CONNECTING
  /\ host (fst done) = 40
  /\ device (fst done) = 20
  /\ completions (snd done)
     = [ {| res_callback := 50; res_user_data := 60;
            res_error := None |} ]
  /\ state (fst (spice_usbredir_channel_up (fst done)))
     = STATE_CONNECTED.
Proof.
  pose proof (open_acl_cb_grant_given true sample_error_level
                sample_warning_level sample_strerror
                (fst (run_polkit priv_init [connect_op answers_ok]))
                {| res_callback := 50; res_user_data := 60;
                   res_error := None |}
                answers_ok eq_refl eq_refl eq_refl eq_refl eq_refl) as H.
  cbv zeta in H.
  destruct H as (H1 & H2 & H3 & _ & _ & _ & _ & H8 & _ & H11).
  - vm_compute; discriminate.
  - reflexivity.
  - intros _. apply Forall_nil.
  - repeat split; assumption.
Defined.

Lemma open_device_failure_cleanup_witness :
  (exists expr,
     open_device_plain
       (fst (run_plain priv_init [connect_op answers_ok])) None answers_ok
     = (false, fst (run_plain priv_init [connect_op answers_ok]), None,
        [EvLog G_LOG_CRITICAL expr]))
  /\ open_device_plain (set_device 20 (set_context 10 priv_init)) None
       answers_open_failed
     = (false, set_device 20 (set_context 10 priv_init),
        Some {| error_code := SPICE_CLIENT_ERROR_FAILED;
                error_message :=
                  "Could not open usb device: LIBUSB_ERROR [-3]" |},
        [EvLibusbOpen 20])
  /\ (exists tlog,
        only_logs tlog
        /\ open_device_plain (set_device 20 (set_context 10 priv_init))
             None answers_listening_failed
           = (false, set_device 20 (set_context 10 priv_init),
              Some listening_error,
              [EvLibusbOpen 20; EvUsbredirhostOpen 10 30] ++ tlog
              ++ [EvStartEventListening; EvUsbredirhostClose 40]))
  /\ (exists tlog,
        only_logs tlog
        /\ open_device_plain (set_device 20 (set_context 10 priv_init))
             None answers_complained_not_listening
           = (false, set_device 20 (set_context 10 priv_init),
              Some {| error_code := SPICE_CLIENT_ERROR_FAILED;
                      error_message :=
                        "usbredirhost error: could not reset device" |},
              [EvLibusbOpen 20; EvUsbredirhostOpen 10 30] ++ tlog
              ++ [EvStartEventListening;
                  EvLog G_LOG_WARNING
                    "GError set over the top of a previous GError";
                  EvUsbredirhostClose 40])).
Proof.
  split; [|split; [|split]].
  - apply (proj1 (open_device_failure_cleanup false sample_error_level
                    sample_warning_level sample_strerror
                    (fst (run_plain priv_init [connect_op answers_ok]))
                    answers_ok)).
    + vm_compute; discriminate.
    + discriminate.
  - apply (proj1 (proj2 (open_device_failure_cleanup false
                           sample_error_level sample_warning_level
                           sample_strerror
                           (set_device 20 (set_context 10 priv_init))
                           answers_open_failed)
                    (or_introl eq_refl))).
    vm_compute; discriminate.
  - destruct (proj2 (proj2 (open_device_failure_cleanup false
                              sample_error_level sample_warning_level
                              sample_strerror
                              (set_device 20 (set_context 10 priv_init))
                              answers_listening_failed)
                       (or_introl eq_refl))
                eq_refl (Z.neq_sym _ _ (Z.lt_neq 0 40 eq_refl))
                listening_error eq_refl)
      as (tlog & L & E & _).
    exists tlog. split; [exact L|]. exact E.
  - destruct (proj2 (proj2 (open_device_failure_cleanup false
                              sample_error_level sample_warning_level
                              sample_strerror
                              (set_device 20 (set_context 10 priv_init))
                              answers_complained_not_listening)
                       (or_introl eq_refl))
                eq_refl (Z.neq_sym _ _ (Z.lt_neq 0 40 eq_refl))
                listening_error eq_refl)
      as (tlog & L & E & _).
    exists tlog. split; [exact L|]. exact E.
Defined.

Lemma open_device_reports_first_engine_error_witness :
  exists tlog,
    open_device_plain (set_device 20 (set_context 10 priv_init)) None
      answers_engine_failed_twice
    = (false, set_device 20 (set_context 10 priv_init),
       Some {| error_code := SPICE_CLIENT_ERROR_FAILED;
               error_message :=
                 "usbredirhost error: could not claim interface" |},
       [EvLibusbOpen 20; EvUsbredirhostOpen 10 30] ++ tlog)
    /\ count is_critical tlog = O.
Proof.
  destruct (open_device_reports_first_engine_error false
              sample_error_level sample_warning_level sample_strerror
              (set_device 20 (set_context 10 priv_init))
              answers_engine_failed_twice
              eq_refl (or_introl eq_refl) eq_refl eq_refl)
    as (tlog & _ & Hc & H).
  exists tlog. split; [exact H|exact Hc].
Defined.

Lemma handle_msg_dispatch_by_type_witness :
  let p := fst (run_plain priv_init [connect_op answers_ok; OpChannelUp]) in
  handle_msg_by_type p 101 msg_three (script_drain 4 2) true
  = (usbredir_handle_msg p msg_three (script_drain 4 2), false)
  /\ handle_msg_by_type p 7 msg_three (script_drain 4 2) true
     = (p, [], true)
  /\ exists expr,
       handle_msg_by_type p (-1) msg_three (script_drain 4 2) true
       = (p, [EvLog G_LOG_CRITICAL expr], false).
Proof.
  split; [|split].
  - apply (proj1 (handle_msg_dispatch_by_type sample_data_type 32
                    (fst (run_plain priv_init
                            [connect_op answers_ok; OpChannelUp]))
                    101 msg_three (script_drain 4 2) true
                    ltac:(lia) ltac:(unfold sample_data_type; lia)
                    ltac:(lia))).
    reflexivity.
  - apply (proj1 (proj2 (handle_msg_dispatch_by_type sample_data_type 32
                           (fst (run_plain priv_init
                                   [connect_op answers_ok; OpChannelUp]))
                           7 msg_three (script_drain 4 2) true
                           ltac:(lia) ltac:(unfold sample_data_type; lia)
                           ltac:(lia)))).
    unfold sample_data_type; lia.
  - apply (proj2 (proj2 (handle_msg_dispatch_by_type sample_data_type 32
                           (fst (run_plain priv_init
                                   [connect_op answers_ok; OpChannelUp]))
                           (-1) msg_three (script_drain 4 2) true
                           ltac:(lia) ltac:(unfold sample_data_type; lia)
                           ltac:(lia)))).
    left. lia.
Defined.

Lemma channel_up_opens_flush_gate_witness :
  let p := fst (run_plain priv_init [connect_op answers_ok]) in
  let up := fst (spice_usbredir_channel_up p) in
  usbredir_write_flush_callback p = (p, [])
  /\ usbredir_write_flush_callback up
     = (up, [EvUsbredirhostWriteGuestData 40])
  /\ exists expr,
       spice_usbredir_channel_up up = (up, [EvLog G_LOG_CRITICAL expr]).
Proof.
  exact (channel_up_opens_flush_gate
           (fst (run_plain priv_init [connect_op answers_ok])) eq_refl).
Defined.

Lemma leftover_blocks_dispatch_witness :
  let p := fst (run_plain priv_init
                  [connect_op answers_ok; OpChannelUp;
                   OpHandleMsg msg_three script_one_byte]) in
  let q := fst (run_plain p
                  [OpHandleMsg msg_three (script_drain 4 2); OpDisconnect;
                   connect_op answers_ok; OpChannelUp]) in
  read_buf q = Some [Byte.x02; Byte.x03]
  /\ read_buf_size q = 2
  /\ forall (msg : SpiceMsgIn) (script : read_script),
       exists expr,
         usbredir_handle_msg q msg script
         = (q, [EvLog G_LOG_CRITICAL expr]).
Proof.
  apply (leftover_blocks_dispatch false sample_error_level
           sample_warning_level sample_bus_number sample_device_address
           sample_strerror
           (fst (run_plain priv_init
                   [connect_op answers_ok; OpChannelUp;
                    OpHandleMsg msg_three script_one_byte]))).
  vm_compute. discriminate.
Defined.

Lemma drain_delivers_payload_witness :
  let p := fst (run_plain priv_init [connect_op answers_ok; OpChannelUp]) in
  let dispatched := usbredir_handle_msg p msg_three (script_drain 4 2) in
  bytes_copied (snd dispatched) = [Byte.x01; Byte.x02; Byte.x03]
  /\ sum_returns (snd dispatched) = 3
  /\ read_buf (fst dispatched) = None
  /\ read_buf_size (fst dispatched) = 0.
Proof.
  apply (drain_delivers_payload
           (fst (run_plain priv_init [connect_op answers_ok; OpChannelUp]))
           msg_three 2 4).
  - vm_compute; discriminate.
  - reflexivity.
  - reflexivity.
  - lia.
  - simpl. lia.
Defined.

Lemma engine_present_while_connected_witness :
  host (fst (run_polkit priv_init
               [connect_op answers_ok;
                OpOpenAclCb 70 None answers_engine_complained;
                connect_op answers_ok; OpOpenAclCb 70 None answers_ok;
                OpChannelUp])) <> NULL.
Proof.
  apply (engine_present_while_connected true sample_error_level
           sample_warning_level sample_bus_number sample_device_address
           sample_strerror).
  right. reflexivity.
Defined.

Lemma plain_connect_failure_restores_refcount_witness :
  let failed :=
    connect_plain priv_init 10 20 0 50 60 70 answers_engine_silent in
  refcount_after 1 20 (snd failed) = 1
  /\ state (fst failed) = STATE_DISCONNECTED
  /\ context (fst failed) = NULL
  /\ device (fst failed) = NULL
  /\ count is_completion (snd failed) = 1%nat.
Proof.
  apply (plain_connect_failure_restores_refcount false sample_error_level
           sample_warning_level sample_bus_number sample_device_address
           sample_strerror priv_init 10 20 0 50 60 70
           answers_engine_silent 20 1);
    try reflexivity; try (vm_compute; discriminate).
  right. left. reflexivity.
Defined.
